(** * SeisFlows: command-line lifecycle and SPECFEM3D solver checks

    A shallow embedding of

    - [seisflows3/seisflows.py]: the [SeisFlows] command-line class
      ([_register], [_config_logging], [_load_modules], [setup],
      [configure], [submit], [clean], [resume], [restart], [reset],
      [convert], [par], [sempar], [edit],
      [_inspect_class_that_defined_method]);
    - [seisflows/solver/specfem3d.py]: [Specfem3D.check],
      [Specfem3D.eval_func], [Specfem3D.rename_data] and
      [Specfem3D.generate_mesh].

    Python dictionaries used as maps are [gmap string _]; dictionaries whose
    iteration order is observable, and directory listings, are association
    lists.  Code that raises or exits runs in a state-and-exception monad:
    the state survives an exception, as the disk does.

    Text is a string of 8-bit characters.  The string methods below are
    those of Python's [str] on ASCII text ([isascii]); the properties of
    code that strips, splits or changes the case of the text of a file are
    stated for files of ASCII text.  A file opened for reading is read with
    universal newlines ([readlines]). *)

From stdpp Require Import gmap strings list fin_maps pretty.
From Stdlib Require Import Ascii.

(* ===================================================================== *)
(** * Python values, exceptions and string methods *)
(* ===================================================================== *)

Module Py.

(** The values a parameter file or a requirement entry can hold. *)
#[local] Set Warnings "-register-all".
Inductive pyval :=
| PNone
| PBool (b : bool)
| PInt (n : Z)
| PStr (s : string)
| PList (items : list pyval).

(** [bool(v)]. *)
Definition truthy (v : pyval) : bool :=
  match v with
  | PNone => false
  | PBool b => b
  | PInt n => negb (n =? 0)%Z
  | PStr s => negb (String.eqb s "")
  | PList l => match l with [] => false | _ => true end
  end.

(** [v == s] for a string literal [s]; values of other types are unequal
    to every string. *)
Definition eq_str (v : pyval) (s : string) : bool :=
  match v with
  | PStr t => String.eqb t s
  | _ => false
  end.

(** [v in l] for a list [l] of string literals. *)
Definition in_strs (v : pyval) (l : list string) : bool :=
  existsb (eq_str v) l.

(** [str(v)] as used by f-strings; list items are shown by [repr]. *)
Fixpoint str (v : pyval) : string :=
  match v with
  | PNone => "None"
  | PBool true => "True"
  | PBool false => "False"
  | PInt n => pretty n
  | PStr s => s
  | PList l =>
      "[" +:+ String.concat ", "
                (map (fun x => match x with
                               | PStr s => "'" +:+ s +:+ "'"
                               | _ => str x
                               end) l) +:+ "]"
  end.

(** Exceptions.  [SystemExit] is what [sys.exit] raises and
    [KeyboardInterrupt] what the operator's interrupt raises; both derive
    from [BaseException] only, every other constructor derives from
    [Exception]. *)
Inductive exn :=
| SystemExit (status : pyval)
| KeyboardInterrupt
| PyException (msg : string)
| KeyError (key : string)
| AttributeError (msg : string)
| TypeError (msg : string)
| ValueError (msg : string)
| NameError (msg : string)
| AssertionError
| OSError (msg : string)
| EOFError.

(** [isinstance(e, Exception)]. *)
Definition is_Exception (e : exn) : bool :=
  match e with
  | SystemExit _ | KeyboardInterrupt => false
  | _ => true
  end.

(** [str(e)]. *)
Definition exn_str (e : exn) : string :=
  match e with
  | SystemExit status => match status with PNone => "" | v => str v end
  | KeyError key => "'" +:+ key +:+ "'"
  | PyException msg | AttributeError msg | TypeError msg | ValueError msg
  | NameError msg | OSError msg => msg
  | KeyboardInterrupt | AssertionError | EOFError => ""
  end.

(** ** String methods *)

(** [s.startswith(p)]. *)
Definition startswith (s p : string) : bool := String.prefix p s.

(** [s.endswith(p)]. *)
Definition endswith (s p : string) : bool :=
  String.prefix (String.rev p) (String.rev s).

(** [sub in s]. *)
Fixpoint contains (s sub : string) : bool :=
  String.prefix sub s ||
  match s with
  | "" => false
  | String _ s' => contains s' sub
  end.

(** [c.isspace()] on the bytes Python counts as white space. *)
Definition isspace (c : ascii) : bool :=
  let n := nat_of_ascii c in
  ((9 <=? n) && (n <=? 13)) || ((28 <=? n) && (n <=? 32)).

Fixpoint lstrip (s : string) : string :=
  match s with
  | "" => ""
  | String c s' => if isspace c then lstrip s' else s
  end.

Fixpoint rstrip (s : string) : string :=
  match s with
  | "" => ""
  | String c s' =>
      match rstrip s' with
      | "" => if isspace c then "" else String c ""
      | r => String c r
      end
  end.

(** [s.strip()]. *)
Definition strip (s : string) : string := rstrip (lstrip s).

(** [s[:n]]. *)
Fixpoint slice_to (n : nat) (s : string) : string :=
  match n, s with
  | S k, String c s' => String c (slice_to k s')
  | _, _ => ""
  end.

(** [s[n:]]. *)
Fixpoint slice_from (n : nat) (s : string) : string :=
  match n, s with
  | S k, String _ s' => slice_from k s'
  | _, _ => s
  end.

Definition upper_char (c : ascii) : ascii :=
  let n := nat_of_ascii c in
  if (97 <=? n) && (n <=? 122) then ascii_of_nat (n - 32) else c.

Definition lower_char (c : ascii) : ascii :=
  let n := nat_of_ascii c in
  if (65 <=? n) && (n <=? 90) then ascii_of_nat (n + 32) else c.

Fixpoint map_chars (f : ascii -> ascii) (s : string) : string :=
  match s with
  | "" => ""
  | String c s' => String (f c) (map_chars f s')
  end.

(** [s.upper()] and [s.lower()]. *)
Definition upper : string -> string := map_chars upper_char.
Definition lower : string -> string := map_chars lower_char.

(** [s.split(":")]: the pieces between the colons; always at least one. *)
Fixpoint split_colon (s : string) : list string :=
  match s with
  | "" => [""]
  | String c s' =>
      if Ascii.eqb c ":"
      then "" :: split_colon s'
      else match split_colon s' with
           | [] => [String c ""]
           | p :: ps => String c p :: ps
           end
  end.

(** [s.replace(old, new)].  [skip] counts the characters of an occurrence
    of [old] that is being passed over; an empty [old] matches before every
    character and at the end. *)
Fixpoint replace_go (old new s : string) (skip : nat) : string :=
  match s with
  | "" => ""
  | String c s' =>
      match skip with
      | S k => replace_go old new s' k
      | O =>
          if String.prefix old s
          then new +:+ replace_go old new s' (String.length old - 1)
          else String c (replace_go old new s' 0)
      end
  end.

Fixpoint intersperse_str (new s : string) : string :=
  match s with
  | "" => new
  | String c s' => new +:+ String c (intersperse_str new s')
  end.

Definition replace (s old new : string) : string :=
  match old with
  | "" => intersperse_str new s
  | _ => replace_go old new s 0
  end.

(** What reading a file opened with [open(name, "r")] makes of its
    characters (universal newlines): a carriage return, alone or followed
    by a line feed, is read as one line feed. *)
Fixpoint universal_newlines (s : string) : string :=
  match s with
  | "" => ""
  | String c s' =>
      if Ascii.eqb c "013"
      then String "010"
             match s' with
             | String c' s'' =>
                 if Ascii.eqb c' "010" then universal_newlines s''
                 else universal_newlines s'
             | "" => ""
             end
      else String c (universal_newlines s')
  end.

(** The lines of a text that has been read: a line ends after its line
    feed, which it keeps. *)
Fixpoint lines_of (s : string) : list string :=
  match s with
  | "" => []
  | String c s' =>
      if Ascii.eqb c "010"
      then String c "" :: lines_of s'
      else match lines_of s' with
           | [] => [String c ""]
           | l :: ls => String c l :: ls
           end
  end.

(** [f.readlines()] on the characters of a file opened with
    [open(name, "r")]: every line keeps its newline, a line feed whatever
    the file has. *)
Definition readlines (s : string) : list string :=
  lines_of (universal_newlines s).

(** [s.isascii()]: on such text a character is a byte, and the string
    methods above are those of Python's [str]. *)
Fixpoint isascii (s : string) : bool :=
  match s with
  | "" => true
  | String c s' => (nat_of_ascii c <? 128) && isascii s'
  end.

(** [f.writelines(lines)]. *)
Definition writelines (ls : list string) : string := String.concat "" ls.

(** ['c' * n]. *)
Fixpoint repeat_char (c : ascii) (n : nat) : string :=
  match n with
  | O => ""
  | S k => String c (repeat_char c k)
  end.

(** [f"{s:^w}"]: centred in a field of width [w]; the odd space goes to the
    right. *)
Definition center (w : nat) (s : string) : string :=
  let pad := w - String.length s in
  let l := pad / 2 in
  repeat_char " " l +:+ s +:+ repeat_char " " (pad - l).

(** [os.path.join(a, b)]. *)
Definition path_join (a b : string) : string :=
  if startswith b "/" then b
  else if String.eqb a "" || endswith a "/" then a +:+ b
  else a +:+ "/" +:+ b.

(** [os.path.dirname(path)]: the path up to its last slash, without the
    slashes that end it unless it is made of slashes only.  [dirname_go]
    goes through the path, [head] being what it has passed. *)
Fixpoint dirname_go (head : string) (path : string) : string :=
  match path with
  | "" => ""
  | String c path' =>
      if Ascii.eqb c "/" && negb (contains path' "/")
      then head +:+ "/"
      else if contains path "/"
           then dirname_go (head +:+ String c "") path'
           else head
  end.

Fixpoint rstrip_slashes (s : string) : string :=
  match s with
  | "" => ""
  | String c s' =>
      match rstrip_slashes s' with
      | "" => if Ascii.eqb c "/" then "" else String c ""
      | r => String c r
      end
  end.

Definition dirname (path : string) : string :=
  let head := dirname_go "" path in
  match rstrip_slashes head with
  | "" => head
  | stripped => stripped
  end.

(** A hexadecimal digit, in lower case. *)
Definition hex_digit (n : nat) : ascii :=
  ascii_of_nat (if n <? 10 then 48 + n else 87 + n).

(** One character as [repr] shows it inside the quotes [q]. *)
Definition repr_char (q c : ascii) : string :=
  let n := nat_of_ascii c in
  if Ascii.eqb c "\" then "\\"
  else if Ascii.eqb c q then String "\" (String q "")
  else if Ascii.eqb c "009" then "\t"
  else if Ascii.eqb c "010" then "\n"
  else if Ascii.eqb c "013" then "\r"
  else if (n <? 32) || (n =? 127)
       then "\x" +:+
            String (hex_digit (n / 16)) (String (hex_digit (n mod 16)) "")
  else String c "".

Fixpoint repr_chars (q : ascii) (s : string) : string :=
  match s with
  | "" => ""
  | String c s' => repr_char q c +:+ repr_chars q s'
  end.

(** [repr(s)] for a string: in single quotes, unless it holds a single
    quote and no double quote. *)
Definition repr_str (s : string) : string :=
  let q :=
    if contains s "'" && negb (contains s (String "034" ""))
    then "034"%char else "'"%char in
  String q (repr_chars q s) +:+ String q "".

(** ** The state-and-exception monad *)

Inductive outcome (A : Type) :=
| Returns (a : A)
| Raises (e : exn).
Arguments Returns {A} a.
Arguments Raises {A} e.

Definition M (S A : Type) : Type := S -> outcome A * S.

Definition ret {S A} (a : A) : M S A := fun s => (Returns a, s).

Definition raise {S A} (e : exn) : M S A := fun s => (Raises e, s).

Definition bind {S A B} (c : M S A) (k : A -> M S B) : M S B :=
  fun s =>
    match c s with
    | (Returns a, s') => k a s'
    | (Raises e, s') => (Raises e, s')
    end.

Definition get {S} : M S S := fun s => (Returns s, s).
Definition put {S} (s : S) : M S unit := fun _ => (Returns tt, s).
Definition modify {S} (f : S -> S) : M S unit := fun s => (Returns tt, f s).

(** [sys.exit(status)]. *)
Definition sys_exit {S A} (status : pyval) : M S A := raise (SystemExit status).

(** [assert b]. *)
Definition assert {S} (b : bool) : M S unit :=
  if b then ret tt else raise AssertionError.

(** [try: body / except Exception as e: handler(e) / else: orelse]. *)
Definition try_except_else {S A}
    (body : M S unit) (handler : exn -> M S A) (orelse : M S A) : M S A :=
  fun s =>
    match body s with
    | (Returns _, s') => orelse s'
    | (Raises e, s') =>
        if is_Exception e then handler e s' else (Raises e, s')
    end.

(** [for x in l: body(x)]. *)
Fixpoint for_each {S A} (l : list A) (body : A -> M S unit) : M S unit :=
  match l with
  | [] => ret tt
  | x :: l' => bind (body x) (fun _ => for_each l' body)
  end.

End Py.

Export Py.

Declare Scope py_scope.
Delimit Scope py_scope with py.
Notation "x <- c1 ;; c2" := (bind c1 (fun x => c2))
  (at level 20, c1 at level 99, c2 at level 200, only parsing) : py_scope.
Notation "c1 ;; c2" := (bind c1 (fun _ => c2))
  (at level 100, c2 at level 200, only parsing, right associativity) : py_scope.
Open Scope py_scope.

(* ===================================================================== *)
(** * seisflows/solver/specfem3d.py *)
(* ===================================================================== *)

Module Specfem3D.

(** What the solver methods below can observe and change: the global
    parameter dictionary [PAR] ([sys.modules['seisflows_parameters']]) and a
    log of the calls made into the base class and the file system. *)
Inductive call :=
| BaseEvalFunc (args : list pyval)
| RenameTraces.

Record state := State {
  PAR : gmap string pyval;
  calls : list call;
}.

Definition log (c : call) : M state unit :=
  modify (fun st => State (PAR st) (calls st ++ [c])).

(** [key in PAR]. *)
Definition in_PAR (key : string) : M state bool :=
  st <- get ;; ret (bool_decide (is_Some (PAR st !! key))).

(** [PAR.key]; the parameter dictionary raises [KeyError] on a missing
    attribute. *)
Definition PAR_attr (key : string) : M state pyval :=
  st <- get ;;
  match PAR st !! key with
  | Some v => ret v
  | None => raise (KeyError key)
  end.

Definition when {S} (b : bool) (c : M S unit) : M S unit :=
  if b then c else ret tt.

Definition acceptable_formats : list string := ["su"; "SU"].

(** The names bound at module level in specfem3d.py (imports, the four
    [sys.modules] handles and the class itself). *)
Definition module_globals : list string :=
  ["os"; "glob"; "sys"; "warnings"; "solvertools"; "unix"; "exists";
   "custom_import"; "call_solver"; "getpar"; "setpar";
   "PAR"; "PATH"; "system"; "preprocess"; "Specfem3D"].

(** Python's built-in namespace. *)
Definition builtins : list string :=
  ["abs"; "aiter"; "all"; "anext"; "any"; "ascii"; "bin"; "bool";
   "breakpoint"; "bytearray"; "bytes"; "callable"; "chr"; "classmethod";
   "compile"; "complex"; "delattr"; "dict"; "dir"; "divmod"; "enumerate";
   "eval"; "exec"; "filter"; "float"; "format"; "frozenset"; "getattr";
   "globals"; "hasattr"; "hash"; "help"; "hex"; "id"; "input"; "int";
   "isinstance"; "issubclass"; "iter"; "len"; "list"; "locals"; "map";
   "max"; "memoryview"; "min"; "next"; "object"; "oct"; "open"; "ord";
   "pow"; "print"; "property"; "range"; "repr"; "reversed"; "round";
   "set"; "setattr"; "slice"; "sorted"; "staticmethod"; "str"; "sum";
   "super"; "tuple"; "type"; "vars"; "zip"; "__import__";
   "True"; "False"; "None"; "Ellipsis"; "NotImplemented"; "__debug__";
   "BaseException"; "Exception"; "ArithmeticError"; "AssertionError";
   "AttributeError"; "EOFError"; "ImportError"; "IndexError"; "KeyError";
   "KeyboardInterrupt"; "LookupError"; "MemoryError"; "NameError";
   "NotImplementedError"; "OSError"; "IOError"; "OverflowError";
   "RuntimeError"; "StopIteration"; "SyntaxError"; "SystemExit";
   "TypeError"; "ValueError"; "ZeroDivisionError"; "Warning";
   "UserWarning"; "DeprecationWarning"; "FileNotFoundError";
   "FileExistsError"; "IsADirectoryError"; "PermissionError"].

(** Evaluating a bare name inside a method body: local names first, then
    the module's globals, then the built-ins; otherwise [NameError]. *)
Definition load_name (locals : list string) (name : string) : M state unit :=
  if bool_decide (name ∈ locals ++ module_globals ++ builtins)
  then ret tt
  else raise (NameError ("name '" +:+ name +:+ "' is not defined")).

Section Methods.

(** The base class [custom_import('solver', 'base')] is not part of the
    sources: its [check] and [eval_func] are taken as given, and may raise
    or change [PAR]. *)
Variable base_check : M state unit.
Variable base_eval_func : list pyval -> M state unit.

(** [Specfem3D.check] (lines 38-61). *)
Definition check : M state unit :=
  base_check ;;
  has_nt <- in_PAR "NT" ;;
  when (negb has_nt)
       (raise (PyException "'NT' not specified in parameters file")) ;;
  has_dt <- in_PAR "DT" ;;
  when (negb has_dt)
       (raise (PyException "'DT' not specified in parameters file")) ;;
  has_f0 <- in_PAR "F0" ;;
  when (negb has_f0)
       (raise (PyException "'F0' not specified in praameters file")) ;;
  has_format <- in_PAR "FORMAT" ;;
  when (negb has_format)
       (raise (PyException "'FORMAT' not specified in parameters file")) ;;
  fmt <- PAR_attr "FORMAT" ;;
  when (negb (in_strs fmt acceptable_formats))
       (raise (PyException
                 ("'FORMAT' must be " +:+
                  str (PList (map PStr acceptable_formats))))).

(** [Specfem3D.rename_data] (lines 221-230): the renaming itself is done by
    [unix.rename] on the files found by [glob]; it is recorded as a call. *)
Definition rename_data : M state unit :=
  fmt <- PAR_attr "FORMAT" ;;
  when (in_strs fmt ["SU"; "su"]) (log RenameTraces).

(** [Specfem3D.eval_func] (lines 126-133).  The call
    [super(Specfem3d, self).eval_func] on the arguments first evaluates the
    names [super], [Specfem3d] and [self]. *)
Definition eval_func (args : list pyval) : M state unit :=
  let locals := ["self"; "args"; "kwargs"] in
  load_name locals "super" ;;
  load_name locals "Specfem3d" ;;
  load_name locals "self" ;;
  base_eval_func args ;;
  rename_data.

End Methods.

(** The keys [check] requires, in the order it tests them. *)
Definition required_keys : list string := ["NT"; "DT"; "F0"; "FORMAT"].

(** The first required key that [PAR] lacks. *)
Definition first_missing (p : gmap string pyval) : option string :=
  List.find (fun k => negb (bool_decide (is_Some (p !! k)))) required_keys.

(** An error report names key [k] when its message quotes it. *)
Definition names_key (msg k : string) : bool :=
  contains msg ("'" +:+ k +:+ "'").

Definition reports (o : outcome unit) (k : string) : bool :=
  match o with
  | Raises (PyException msg) => names_key msg k
  | _ => false
  end.

(** The accumulate-all reading of [check]: every required key that [PAR]
    lacks once the base class has been checked is named in the report. *)
Definition accumulate_all (base_check : M state unit) (st : state) : Prop :=
  forall st', base_check st = (Returns tt, st') ->
  forall k, k ∈ required_keys -> PAR st' !! k = None ->
  reports (fst (check base_check st)) k = true.

End Specfem3D.

(* ===================================================================== *)
(** * seisflows3/seisflows.py *)
(* ===================================================================== *)

Module SeisFlows.

(** ** The working directory

    The process runs in its working directory (the default of [-w] is the
    current directory), whose entries are kept by name in listing order, the
    order [glob] and [os.listdir] return them in.  What lies below a
    sub-directory is not looked at by the commands modelled here.  Paths
    outside the working directory are known by their existence only. *)

Inductive target :=
| Regular (content : string)
| Directory.

Inductive node :=
| Plain (t : target)
| Symlink (t : option target).   (* [None]: a dangling link *)

Abbreviation dir := (list (string * node)).

Fixpoint lookup_entry (name : string) (d : dir) : option node :=
  match d with
  | [] => None
  | (n, x) :: d' => if String.eqb n name then Some x else lookup_entry name d'
  end.

Definition remove_entry (name : string) (d : dir) : dir :=
  filter (fun e => negb (String.eqb (fst e) name)) d.

(** Replace entry [name] where it stands, or add it at the end. *)
Fixpoint set_entry (name : string) (x : node) (d : dir) : dir :=
  match d with
  | [] => [(name, x)]
  | (n, y) :: d' =>
      if String.eqb n name then (n, x) :: d' else (n, y) :: set_entry name x d'
  end.

(** What a path leads to, following a symbolic link. *)
Definition resolve (o : option node) : option target :=
  match o with
  | Some (Plain t) => Some t
  | Some (Symlink t) => t
  | None => None
  end.

(** The text of the regular file an entry leads to. *)
Definition file_content (name : string) (d : dir) : option string :=
  match resolve (lookup_entry name d) with
  | Some (Regular c) => Some c
  | _ => None
  end.

(** What happens to the outside world. *)
Inductive event :=
| Print (text : string)
| Prompt (text : string)
| Warn (text : string)
| PrintHelp
| OpenLog (level : pyval) (verbose : pyval) (filename : string)
| Mkdir (path : string)
| Chdir (path : string)
| Ln (src dst : string)
| LoadPy (file : string)
| ImportModule (name : string)
| ValidateSystemPaths
| InitSeisflows
| SystemSubmit (parameters : gmap string pyval).

(** The command-line arguments ([self._args]). *)
Record Args := {
  workdir : string;
  parameter_file : string;
  path_file : string;
  relative_paths : bool;
}.

(** One requirement entry, a dictionary with the optional keys ["type"],
    ["docstr"] and ["default"]; a requirement set lists its entries in
    insertion order. *)
Record attrs := {
  a_type : option pyval;
  a_docstr : option string;
  a_default : option pyval;
}.

Abbreviation manifest := (list (string * attrs)).

Record requirements := {
  req_parameters : manifest;
  req_paths : manifest;
}.

(** The parts of the package that are not among the sources: constants of
    [seisflows3.config] and [seisflows3.tools.msg], the template shipped
    under [ROOT_DIR/templates], the requirement sets of the modules that
    [custom_import] builds, the flow of the workflow module, and the library
    functions [format_paths], [loadpy], [textwrap.wrap] and
    [os.path.relpath]. *)
Record Env := {
  NAMES : list string;
  PACKAGES : list string;
  ROOT_DIR : string;
  template : string;
  ParameterCheckStatement : string;
  required : string -> requirements;
  flow : list string;
  format_paths : gmap string pyval -> gmap string (option string);
  loadpy : string -> gmap string pyval;
  wrap : string -> nat -> list string;
  relpath : string -> string;
}.

(** The state a command runs in: the disk, the terminal, and what the
    process holds in [sys.modules] and in [self]. *)
Record world := World {
  wd : dir;
  extern : gset string;
  stdin : list string;
  trace : list event;
  sys_parameters : option (gmap string pyval);
  sys_paths : option (gmap string (option string));
  self_paths : option (gmap string (option string));
  self_parameters : option (gmap string pyval);
}.

Definition set_wd (f : dir -> dir) (w : world) : world :=
  World (f (wd w)) (extern w) (stdin w) (trace w)
        (sys_parameters w) (sys_paths w) (self_paths w) (self_parameters w).

Definition set_extern (f : gset string -> gset string) (w : world) : world :=
  World (wd w) (f (extern w)) (stdin w) (trace w)
        (sys_parameters w) (sys_paths w) (self_paths w) (self_parameters w).

Definition add_event (e : event) (w : world) : world :=
  World (wd w) (extern w) (stdin w) (trace w ++ [e])
        (sys_parameters w) (sys_paths w) (self_paths w) (self_parameters w).

Definition set_registered (parameters : gmap string pyval)
    (paths : gmap string (option string)) (w : world) : world :=
  World (wd w) (extern w) (stdin w) (trace w)
        (Some parameters) (Some paths) (Some paths) (Some parameters).

(** A process that has just started. *)
Definition boot (d : dir) (ext : gset string) (input : list string)
    (out : list event) : world :=
  World d ext input out None None None None.

Definition log (e : event) : M world unit := modify (add_event e).

Definition print (text : string) : M world unit := log (Print text).

(** [input(prompt)]: the next line the operator types. *)
Definition input (prompt : string) : M world string :=
  fun w =>
    match stdin w with
    | [] => (Raises EOFError, add_event (Prompt prompt) w)
    | answer :: rest =>
        (Returns answer,
         World (wd w) (extern w) rest (trace w ++ [Prompt prompt])
               (sys_parameters w) (sys_paths w) (self_paths w)
               (self_parameters w))
    end.

Definition when (b : bool) (c : M world unit) : M world unit :=
  if b then c else ret tt.

(** ** Paths *)

(** The entry of the working directory a path names: a bare name, a name
    after ["./"], or a name joined to the working directory. *)
Definition entry_of (wdir path : string) : option string :=
  let bare name :=
    if contains name "/" || String.eqb name "" then None else Some name in
  if startswith path "./" then bare (slice_from 2 path)
  else if startswith path (path_join wdir "")
       then bare (slice_from (String.length (path_join wdir "")) path)
  else if startswith path "/" then None
  else bare path.

Definition node_exists (o : option node) : bool :=
  match resolve o with
  | Some _ => true
  | None => false
  end.

(** ** The configuration document *)

(** Modelled from the spec: [loadyaml] (seisflows3.tools.tools) is not among
    the sources.  The reader below follows the description of the
    configuration document: top-level entries [KEY: value], an absent value
    meaning null, list-valued entries written as indented [- item] lines
    under their key, and a [PATHS] section of indented [KEY: value]
    entries.  A later entry for a key replaces an earlier one.  The kinds
    of line of such a document: *)
Inductive yline :=
| YSkip
| YTop (key value : string)
| YSub (key value : string)
| YItem (value : string).

Definition first_char_is (p : ascii -> bool) (s : string) : bool :=
  match s with
  | "" => false
  | String c _ => p c
  end.

(** Modelled from the spec: the reader of [loadyaml], which is not among
    the sources, tells the lines of the document apart: blank lines and
    comments, list items, indented entries and top-level entries. *)
Definition classify (line : string) : yline :=
  let body := strip line in
  if String.eqb body "" || startswith body "#" then YSkip
  else if startswith body "- " then YItem (strip (slice_from 2 body))
  else match split_colon line with
       | key :: value :: _ =>
           if first_char_is isspace line
           then YSub (strip key) (strip value)
           else YTop (strip key) (strip value)
       | _ => YSkip
       end.

Definition is_digit (c : ascii) : bool :=
  let n := nat_of_ascii c in (48 <=? n) && (n <=? 57).

Fixpoint all_chars (p : ascii -> bool) (s : string) : bool :=
  match s with
  | "" => true
  | String c s' => p c && all_chars p s'
  end.

Fixpoint digits_value (acc : Z) (s : string) : Z :=
  match s with
  | "" => acc
  | String c s' => digits_value (10 * acc + Z.of_nat (nat_of_ascii c - 48)) s'
  end.

(** Modelled from the spec: the values [loadyaml], which is not among the
    sources, gives the entries.  A scalar is null, a boolean, a natural
    number, or text. *)
Definition scalar (v : string) : pyval :=
  if String.eqb v "" || String.eqb v "null" || String.eqb v "~" then PNone
  else if String.eqb v "true" || String.eqb v "True" then PBool true
  else if String.eqb v "false" || String.eqb v "False" then PBool false
  else if all_chars is_digit v then PInt (digits_value 0 v)
  else PStr v.

(** What the document says under [PATHS]: nothing, a scalar (null when the
    section is empty), or a dictionary. *)
Inductive paths_section :=
| PathsAbsent
| PathsScalar (v : pyval)
| PathsDict (d : gmap string pyval).

Record yaml_doc := YamlDoc {
  y_parameters : gmap string pyval;
  y_paths : paths_section;
  y_current : option string;    (* the top-level key being filled *)
}.

Definition add_item (v : pyval) (old : option pyval) : option pyval :=
  match old with
  | Some (PList l) => Some (PList (l ++ [v]))
  | _ => Some (PList [v])
  end.

Definition in_paths (doc : yaml_doc) : bool :=
  match y_current doc with
  | Some key => String.eqb key "PATHS"
  | None => false
  end.

(** Modelled from the spec: what one line adds to the document that
    [loadyaml], which is not among the sources, builds. *)
Definition yaml_step (doc : yaml_doc) (line : string) : yaml_doc :=
  match classify line with
  | YSkip => doc
  | YTop key value =>
      if String.eqb key "PATHS"
      then YamlDoc (y_parameters doc) (PathsScalar (scalar value)) (Some key)
      else YamlDoc (<[key := scalar value]> (y_parameters doc))
                   (y_paths doc) (Some key)
  | YSub key value =>
      if in_paths doc then
        let d := match y_paths doc with
                 | PathsDict d => d
                 | _ => ∅
                 end in
        YamlDoc (y_parameters doc) (PathsDict (<[key := scalar value]> d))
                (y_current doc)
      else doc
  | YItem value =>
      match y_current doc with
      | Some key =>
          if in_paths doc then doc
          else YamlDoc (partial_alter (add_item (scalar value)) key
                                      (y_parameters doc))
                       (y_paths doc) (y_current doc)
      | None => doc
      end
  end.

(** Modelled from the spec: [loadyaml] (seisflows3.tools.tools) is not among
    the sources; the document is read line by line, from an empty one. *)
Definition loadyaml (text : string) : yaml_doc :=
  fold_left yaml_step (readlines text) (YamlDoc ∅ PathsAbsent None).

(** ** The Stage Driver *)





(** ** Commands *)

Section Commands.

Variable E : Env.
Variable args : Args.

(** The parameter file, the scratch copy [configure] makes of it and the
    [source_code] directory are entries of the working directory, named as
    such.  [os.path.exists(name)] for an entry: *)
Definition entry_exists (name : string) : M world bool :=
  w <- get ;; ret (node_exists (lookup_entry name (wd w))).

(** [os.path.exists(path)] for any path. *)
Definition on_disk (w : world) (path : string) : bool :=
  match entry_of (workdir args) path with
  | Some name => node_exists (lookup_entry name (wd w))
  | None => bool_decide (path ∈ extern w)
  end.

Definition path_exists (path : string) : M world bool :=
  w <- get ;; ret (on_disk w path).

(** [os.path.islink(path)] for an entry of the working directory. *)
Definition islink (name : string) : M world bool :=
  w <- get ;;
  match lookup_entry name (wd w) with
  | Some (Symlink _) => ret true
  | _ => ret false
  end.

(** [open(name, "r").read()]. *)
Definition read_file (name : string) : M world string :=
  w <- get ;;
  match resolve (lookup_entry name (wd w)) with
  | Some (Regular c) => ret c
  | Some Directory => raise (OSError "Is a directory")
  | None => raise (OSError "No such file or directory")
  end.

(** What [open(name, mode)] leaves at [name] once [text] is the content of
    the file: a link is written through. *)
Definition store_file (name text : string) : M world unit :=
  w <- get ;;
  match lookup_entry name (wd w) with
  | Some (Plain Directory) | Some (Symlink (Some Directory)) =>
      raise (OSError "Is a directory")
  | Some (Symlink _) =>
      modify (set_wd (set_entry name (Symlink (Some (Regular text)))))
  | _ => modify (set_wd (set_entry name (Plain (Regular text))))
  end.

(** Modelled from the spec: the helpers of [seisflows3.tools.unix] are not
    among the sources; they are given the meaning of the shell commands
    they are named after, which is what the commands are described to do
    with them (delete the artifacts, create the document from the template,
    put the document back).  [unix.rm] removes the entry, whatever it
    is. *)
Definition unix_rm (name : string) : M world unit :=
  modify (set_wd (remove_entry name)).

(** Modelled from the spec: [unix.cp] is not among the sources.
    [unix.cp(src, dst)] makes [dst] a copy of what [src] leads to; a source
    that does not exist copies nothing. *)
Definition unix_cp (src dst : string) : M world unit :=
  w <- get ;;
  match resolve (lookup_entry src (wd w)) with
  | Some t => modify (set_wd (set_entry dst (Plain t)))
  | None => ret tt
  end.

(** The name of the template, [PAR_FILE] at line 546. *)
Definition template_name : string := "parameters.yaml".

(** Modelled from the spec: [unix.cp] is not among the sources.
    [unix.cp(PAR_FILE, workdir)]: the template is copied into the working
    directory under its own name. *)
Definition unix_cp_template : M world unit :=
  modify (set_wd (set_entry template_name (Plain (Regular (template E))))).

(** Modelled from the spec: [unix.mkdir] is not among the sources.
    [unix.mkdir(path)] for an entry of the working directory. *)
Definition unix_mkdir (name : string) : M world unit :=
  w <- get ;;
  match lookup_entry name (wd w) with
  | Some _ => ret tt
  | None => modify (set_wd (set_entry name (Plain Directory)))
  end.

(** [fnmatch] for the patterns [clean] uses: a final [*] stands for any
    rest of the name, every other character for itself. *)
Definition fnmatch (pattern name : string) : bool :=
  if endswith pattern "*"
  then startswith name (slice_to (String.length pattern - 1) pattern)
  else String.eqb name pattern.

(** [glob.has_magic(s)]: the string holds a character that [glob] reads
    as a pattern. *)
Definition has_magic (s : string) : bool :=
  contains s "*" || contains s "?" || contains s "[".

(** [glob(os.path.join(workdir, pattern))], for a working directory whose
    own path has no pattern character ([has_magic (workdir args) = false]):
    the entries of the working directory that match, in listing order.  A
    pattern character in the path of the working directory would send
    [glob] to other directories, which are not followed here. *)
Definition glob (pattern : string) : M world (list string) :=
  w <- get ;;
  ret (filter (fnmatch pattern) (map fst (wd w))).

(** *** [par] (lines 960-1030) *)

(** The test of line 1009 that picks the line to show or edit. *)
Definition par_match (parameter line : string) : bool :=
  contains (slice_to (String.length parameter + 1) (strip line))
           (parameter +:+ ":")
  && negb (first_char_is (Ascii.eqb "#") line).

Definition newline : string := String "010" "".
Definition tab : string := String "009" "".

(** The loop of lines 1007-1030; [seen] holds the lines already passed. *)
Fixpoint par_loop (parameter : string) (value : option string)
    (skip_print : bool) (seen rest : list string) : M world unit :=
  match rest with
  | [] =>
      sys_exit (PStr (newline +:+ tab +:+ "'" +:+ parameter +:+
                      "' not found in parameter file" +:+ newline))
  | line :: rest' =>
      if par_match parameter line then
        match value with
        | Some v =>
            match split_colon line with
            | [current_par; current_val] =>
                let new_val :=
                  replace (strip current_val) (strip current_val) v in
                let lines :=
                  seen ++ (current_par +:+ ": " +:+ new_val +:+ newline)
                       :: rest' in
                when (negb skip_print)
                     (print (newline +:+ tab +:+ strip current_par +:+ ": "
                             +:+ strip current_val +:+ " -> " +:+ v
                             +:+ newline)) ;;
                store_file (parameter_file args) (writelines lines)
            | [_] =>
                raise (ValueError
                         "not enough values to unpack (expected 2, got 1)")
            | _ =>
                raise (ValueError "too many values to unpack (expected 2)")
            end
        | None => when (negb skip_print) (print (newline +:+ tab +:+ line))
        end
      else par_loop parameter value skip_print (seen ++ [line]) rest'
  end.

Definition par (parameter : option string) (value : option string)
    (skip_print : bool) : M world unit :=
  match parameter with
  | None => log PrintHelp ;; sys_exit (PInt 0)
  | Some parameter =>
      let parameter := upper parameter in
      found <- entry_exists (parameter_file args) ;;
      when (negb found)
           (sys_exit (PStr (newline +:+ tab +:+ "parameter file '" +:+
                            parameter_file args +:+ "' does not exist"
                            +:+ newline))) ;;
      when (match value with
            | Some v => String.eqb (lower v) "none"
            | None => false
            end)
           (log (Warn "to set values to nonetype, use 'null' not 'none'")) ;;
      text <- read_file (parameter_file args) ;;
      par_loop parameter value skip_print [] (readlines text)
  end.

(** *** [_register] (lines 387-462) *)

(** The methods of [str]; looking up any other attribute on a string raises
    [AttributeError]. *)
Definition str_methods : list string :=
  ["capitalize"; "casefold"; "center"; "count"; "encode"; "endswith";
   "expandtabs"; "find"; "format"; "format_map"; "index"; "isalnum";
   "isalpha"; "isascii"; "isdecimal"; "isdigit"; "isidentifier";
   "islower"; "isnumeric"; "isprintable"; "isspace"; "istitle"; "isupper";
   "join"; "ljust"; "lower"; "lstrip"; "maketrans"; "partition";
   "removeprefix"; "removesuffix"; "replace"; "rfind"; "rindex"; "rjust";
   "rpartition"; "rsplit"; "rstrip"; "split"; "splitlines"; "startswith";
   "strip"; "swapcase"; "title"; "translate"; "upper"; "zfill"].

Definition str_getattr (name : string) : M world unit :=
  if bool_decide (name ∈ str_methods) then ret tt
  else raise (AttributeError
                ("'str' object has no attribute '" +:+ name +:+ "'")).

(** The attributes the argument parser gives [self._args]: the three global
    options, the command, and the options of the sub-commands. *)
Definition args_attributes : list string :=
  ["workdir"; "parameter_file"; "path_file"; "command"; "symlink";
   "overwrite"; "relative_paths"; "check"; "force"; "stop_after";
   "resume_from"; "parameter"; "value"; "skip_print"; "choice"; "args";
   "name"; "func"; "module"; "editor"; "dont_open"].

Definition args_getattr (name : string) : M world unit :=
  if bool_decide (name ∈ args_attributes) then ret tt
  else raise (AttributeError
                ("'Namespace' object has no attribute '" +:+ name +:+ "'")).

(** [loadpy(file)]. *)
Definition load_py (file : string) : M world (gmap string pyval) :=
  log (LoadPy file) ;;
  text <- read_file file ;;
  ret (loadpy E text).

(** The items a [for] loop draws from a value. *)
Definition iterate (v : pyval) : M world (list pyval) :=
  match v with
  | PList items => ret items
  | PStr s => ret (map (fun c => PStr (String c "")) (String.list_ascii_of_string s))
  | _ => raise (TypeError "object is not iterable")
  end.

(** The dialogue of lines 441-452. *)
Definition precheck (parameters : gmap string pyval) : M world unit :=
  match parameters !! "PRECHECK" with
  | None => raise (KeyError "PRECHECK")
  | Some pre =>
      when (truthy pre)
        (print (ParameterCheckStatement E) ;;
         items <- iterate pre ;;
         for_each items (fun item =>
           match item with
           | PStr name =>
               let name := upper name in
               match parameters !! name with
               | Some v => print (tab +:+ name +:+ ": " +:+ str v)
               | None =>
                   print (tab +:+ name +:+ ": !!! PARAMETER NOT FOUND !!!")
               end
           | _ => raise (AttributeError "object has no attribute 'upper'")
           end) ;;
         print newline ;;
         check <- input (tab +:+ "Continue? (y/[n]): ") ;;
         when (negb (String.eqb check "y")) (sys_exit (PInt (-1))))
  end.

Definition _register (force : bool) : M world unit :=
  found <- entry_exists (parameter_file args) ;;
  when (negb found)
       (sys_exit (PStr (newline +:+ tab +:+
                        "SeisFlows parameter file not found: " +:+
                        parameter_file args +:+ newline))) ;;
  loaded <-
    (if endswith (parameter_file args) ".yaml" then
       text <- read_file (parameter_file args) ;;
       let doc := loadyaml text in
       match y_paths doc with
       | PathsAbsent => ret (y_parameters doc, ∅)
       | PathsDict d => ret (y_parameters doc, d)
       | PathsScalar _ =>
           raise (TypeError "argument of type 'NoneType' is not iterable")
       end
     else
       str_getattr "endwith" ;;
       if endswith (parameter_file args) ".py" then
         log (Warn (".py parameter and path files are deprecated in " +:+
                    "favor of a .yaml parameter file. Please consider " +:+
                    "switching as the use of legacy .py files may have " +:+
                    "unintended consequences at runtime")) ;;
         args_getattr "paths_file" ;;
         found <- entry_exists (path_file args) ;;
         when (negb found)
              (sys_exit (PStr (newline +:+ tab +:+
                               "Legacy parameter file requires " +:+
                               "corresponding path file" +:+ newline))) ;;
         parameters <- load_py (parameter_file args) ;;
         paths <- load_py (path_file args) ;;
         ret (parameters, paths)
       else
         raise (TypeError ("Unknown file format for " +:+
                           parameter_file args +:+ ", file must be " +:+
                           "'.yaml' (preferred) or '.py' (legacy)"))) ;;
  let parameters : gmap string pyval := fst loaded in
  let paths : gmap string pyval :=
    match snd loaded !! "WORKDIR" with
    | None => <["WORKDIR" := PStr (workdir args)]> (snd loaded)
    | Some _ => snd loaded
    end in
  when (negb force) (precheck parameters) ;;
  modify (set_registered parameters (format_paths E paths)).

(** *** [_config_logging] (lines 464-508) *)

(** The names [logging] knows a level by. *)
Definition level_names : list string :=
  ["CRITICAL"; "FATAL"; "ERROR"; "WARN"; "WARNING"; "INFO"; "DEBUG";
   "NOTSET"].

(** [logger.setLevel(level)]: the level is an integer or one of the level
    names. *)
Definition set_level (level : pyval) : M world unit :=
  match level with
  | PInt _ | PBool _ => ret tt
  | PStr name =>
      if bool_decide (name ∈ level_names) then ret tt
      else raise (ValueError ("Unknown level: " +:+ repr_str name))
  | _ =>
      raise (TypeError ("Level not an integer or a valid string: " +:+
                        str level))
  end.

(** The path is a directory: the working directory itself, the root, a
    sub-directory of the working directory, or a path outside it that is on
    disk. *)
Definition is_dir (w : world) (path : string) : bool :=
  if existsb (String.eqb path)
       [""; "."; "./"; "/"; workdir args; path_join (workdir args) ""]
  then true
  else match entry_of (workdir args) path with
       | Some name =>
           match resolve (lookup_entry name (wd w)) with
           | Some Directory => true
           | _ => false
           end
       | None => bool_decide (path ∈ extern w)
       end.

(** [open(path, "a")], as [logging.FileHandler] does it: the file is made
    when it is not there, which takes its directory to be there; a
    directory cannot be opened.  A path outside the working directory that
    is on disk is taken to be a file when it is opened. *)
Definition open_append (path : string) : M world unit :=
  w <- get ;;
  match entry_of (workdir args) path with
  | Some name =>
      match lookup_entry name (wd w) with
      | None => modify (set_wd (set_entry name (Plain (Regular ""))))
      | Some (Symlink None) =>
          modify (set_wd (set_entry name (Symlink (Some (Regular "")))))
      | Some (Plain Directory) | Some (Symlink (Some Directory)) =>
          raise (OSError "Is a directory")
      | Some _ => ret tt
      end
  | None =>
      if existsb (String.eqb path)
           [""; "."; "./"; "/"; workdir args; path_join (workdir args) ""]
      then raise (OSError "Is a directory")
      else if bool_decide (path ∈ extern w) then ret tt
      else if is_dir w (dirname path)
           then modify (set_extern (fun s => {[path]} ∪ s))
           else raise (OSError "No such file or directory")
  end.

Definition _config_logging : M world unit :=
  w <- get ;;
  match sys_parameters w, sys_paths w with
  | Some PAR, Some PATH =>
      let default := (PStr "DEBUG", PBool true, Some "./output_log.txt") in
      let '(level, verbose, filename) :=
        match PAR !! "LOG_LEVEL" with
        | None => default
        | Some level =>
            match PAR !! "VERBOSE" with
            | None => (level, PBool true, Some "./output_log.txt")
            | Some verbose =>
                match PATH !! "LOG" with
                | None => (level, verbose, Some "./output_log.txt")
                | Some filename => (level, verbose, filename)
                end
            end
        end in
      set_level level ;;
      match filename with
      | Some filename =>
          open_append filename ;;
          log (OpenLog level verbose filename)
      | None =>
          raise (TypeError ("expected str, bytes or os.PathLike object, " +:+
                            "not NoneType"))
      end
  | None, _ => raise (KeyError "seisflows_parameters")
  | _, None => raise (KeyError "seisflows_paths")
  end.

(** *** [submit] (lines 681-731) *)

Definition REQ_PATHS : list string :=
  ["SPECFEM_BIN"; "SPECFEM_DATA"; "MODEL_INIT"; "MODEL_TRUE";
   "DATA"; "LOCAL"; "MASK"].

(** Lines 711-716: the required paths that are given and do not exist. *)
Fixpoint paths_dont_exist (paths : gmap string (option string))
    (keys : list string) : M world (list string) :=
  match keys with
  | [] => ret []
  | key :: keys' =>
      missing <-
        match paths !! key with
        | Some (Some path) =>
            if negb (String.eqb path "") then
              found <- path_exists path ;;
              ret (if found then [] else [path])
            else ret []
        | _ => ret []
        end ;;
      others <- paths_dont_exist paths keys' ;;
      ret (missing ++ others)
  end.

(** Modelled from the spec: [init_seisflows] (seisflows3.config) is not
    among the sources; it builds the registry, which is recorded as an
    event. *)
Definition init_seisflows : M world unit := log InitSeisflows.

(** Modelled from the spec: the system module is not among the sources;
    [system.submit(workflow)] hands the run over to the Stage Driver, which
    reads the registered parameters.  The call is recorded, with the
    parameters as they are registered then; what the driver goes on to do
    (run the stages, write checkpoints) is not followed: the state in which
    [submit] returns here is the state in which the call is made. *)
Definition system_submit : M world unit :=
  w <- get ;;
  match sys_parameters w with
  | Some PAR => log (SystemSubmit PAR)
  | None => raise (KeyError "seisflows_parameters")
  end.

(** Lines 697-704: what [submit] does before it looks at the paths. *)
Definition submit_register (stop_after : option string) (force : bool)
    : M world unit :=
  par (Some "resume_from") (Some "") true ;;
  match stop_after with
  | Some stage => par (Some "STOP_AFTER") (Some stage) true
  | None => ret tt
  end ;;
  _register force ;;
  _config_logging.

(** Lines 706-722. *)
Definition submit_check_paths : M world unit :=
  w <- get ;;
  match self_paths w with
  | None => raise (TypeError "argument of type 'NoneType' is not iterable")
  | Some paths =>
      missing <- paths_dont_exist paths REQ_PATHS ;;
      match missing with
      | [] => ret tt
      | _ =>
          print (newline +:+ "The following paths do not exist:" +:+ newline) ;;
          for_each missing (fun path_ => print (tab +:+ path_)) ;;
          print newline ;;
          sys_exit PNone
      end
  end.

(** Lines 724-731. *)
Definition submit_launch : M world unit :=
  log (Mkdir (workdir args)) ;;
  log (Chdir (workdir args)) ;;
  init_seisflows ;;
  system_submit.

Definition submit (stop_after : option string) (force : bool)
    : M world unit :=
  submit_register stop_after force ;;
  submit_check_paths ;;
  submit_launch.

(** *** [clean] (lines 733-758) *)

Definition delete : list string := ["logs"; "output*"; "stats"; "scratch"].

Definition clean (force : bool) : M world unit :=
  check <-
    (if force then ret "y"
     else input (newline +:+ tab +:+ "This will remove all workflow objects, "
                 +:+ newline +:+ tab +:+ "leaving only the parameter file. "
                 +:+ newline +:+ tab +:+ "Are you sure you want to clean? "
                 +:+ "(y/[n]):" +:+ newline)) ;;
  when (String.eqb check "y")
    (for_each delete (fun pattern =>
       found <- glob pattern ;;
       for_each found (fun name =>
         let fid := path_join (workdir args) name in
         assert (negb (contains fid "parameters.yaml")) ;;
         link <- islink name ;;
         assert (negb link) ;;
         unix_rm name))).

(** *** [restart] (lines 793-802) *)

Definition restart (force : bool) : M world unit :=
  clean force ;;
  submit None force.

(** *** [setup] (lines 536-567) *)

Definition setup (symlink overwrite : bool) : M world unit :=
  let REPO_DIR := path_join (ROOT_DIR E) ".." in
  found <- entry_exists (parameter_file args) ;;
  when found
    (check <-
       (if negb overwrite then
          print (newline +:+ tab +:+ "Parameter file '" +:+
                 parameter_file args +:+ "' already exists" +:+ newline) ;;
          input (tab +:+ "Overwrite with blank file? (y/[n]): ")
        else ret "y") ;;
     when (String.eqb check "y") (unix_rm (parameter_file args))) ;;
  unix_cp_template ;;
  when symlink
    (let src_code := path_join (workdir args) "source_code" in
     found <- path_exists src_code ;;
     when (negb found)
       (unix_mkdir "source_code" ;;
        for_each (PACKAGES E) (fun package =>
          log (Ln (path_join REPO_DIR package) src_code)))).

(** *** [configure] (lines 569-659) *)

(** What is written to the open parameter file: the state is the text
    written so far. *)
Definition f_write (text : string) : M string unit :=
  modify (fun written => written +:+ text).

Definition TAB : string := "    ".

(** [attrs["docstr"]] and [attrs["default"]]. *)
Definition docstr_of (a : attrs) : M string string :=
  match a_docstr a with
  | Some d => ret d
  | None => raise (KeyError "docstr")
  end.

Definition default_of (a : attrs) : M string pyval :=
  match a_default a with
  | Some d => ret d
  | None => raise (KeyError "default")
  end.

(** [write_header] (lines 577-597). *)
Definition write_header (paths_or_parameters : manifest) (name : string)
    : M string unit :=
  let TOP := newline +:+ "# " +:+ repeat_char "=" 78 +:+ newline +:+ "#"
             +:+ newline +:+ "# " +:+ center 78 (upper name) +:+ newline
             +:+ "# " +:+ center 78 (repeat_char "-" (String.length name))
             +:+ newline +:+ "#" +:+ newline in
  let BOT := newline +:+ "# " +:+ repeat_char "=" 78 +:+ newline in
  f_write TOP ;;
  for_each paths_or_parameters (fun entry =>
    let key := fst entry in
    let a := snd entry in
    match a_type a with
    | Some t => f_write ("# " +:+ key +:+ " (" +:+ str t +:+ "):" +:+ newline)
    | None => f_write ("# " +:+ key +:+ ":" +:+ newline)
    end ;;
    doc <- docstr_of a ;;
    for_each (wrap E doc (77 - String.length TAB)) (fun docstr =>
      f_write ("#" +:+ TAB +:+ docstr +:+ newline))) ;;
  f_write BOT.

(** [write_paths_parameters] (lines 599-614). *)
Definition write_paths_parameters (paths_or_parameters : manifest)
    (indent : string) : M string unit :=
  for_each paths_or_parameters (fun entry =>
    let key := fst entry in
    d <- default_of (snd entry) ;;
    match d with
    | PList items =>
        f_write (key +:+ ":" +:+ newline) ;;
        for_each items (fun val =>
          f_write (TAB +:+ "- " +:+ str val +:+ newline))
    | PNone => f_write (indent +:+ key +:+ ":" +:+ newline)
    | _ => f_write (indent +:+ key +:+ ": " +:+ str d +:+ newline)
    end).

(** [d.update(new)] on dictionaries kept in insertion order. *)
Fixpoint dict_set (key : string) (a : attrs) (d : manifest) : manifest :=
  match d with
  | [] => [(key, a)]
  | (k, b) :: d' =>
      if String.eqb k key then (k, a) :: d' else (k, b) :: dict_set key a d'
  end.

Definition dict_update (d new : manifest) : manifest :=
  fold_left (fun acc entry => dict_set (fst entry) (snd entry) acc) new d.

(** Lines 638-642. *)
Fixpoint write_modules (names : list string) (seisflows_paths : manifest)
    : M string manifest :=
  match names with
  | [] => ret seisflows_paths
  | NAME :: names' =>
      let req := required E NAME in
      let seisflows_paths := dict_update seisflows_paths (req_paths req) in
      write_header (req_parameters req) NAME ;;
      write_paths_parameters (req_parameters req) "" ;;
      write_modules names' seisflows_paths
  end.

(** Lines 646-651. *)
Fixpoint relative_defaults (seisflows_paths : manifest) : M string manifest :=
  match seisflows_paths with
  | [] => ret []
  | (key, a) :: rest =>
      d <- default_of a ;;
      a' <- match d with
            | PNone => ret a
            | PStr p =>
                ret {| a_type := a_type a; a_docstr := a_docstr a;
                       a_default := Some (PStr (relpath E p)) |}
            | _ => raise (TypeError
                            "expected str, bytes or os.PathLike object")
            end ;;
      rest' <- relative_defaults rest ;;
      ret ((key, a') :: rest')
  end.

(** The body of the [with open(...)] block (lines 638-652). *)
Definition write_template : M string unit :=
  seisflows_paths <- write_modules (NAMES E) [] ;;
  write_header seisflows_paths "PATHS" ;;
  f_write ("PATHS:" +:+ newline) ;;
  seisflows_paths <-
    (if relative_paths args then relative_defaults seisflows_paths
     else ret seisflows_paths) ;;
  write_paths_parameters seisflows_paths "    ".

(** [with open(name, "a") as f: body]: what [body] wrote before it returned
    or raised is in the file when the block is left. *)
Definition with_open_append (name : string) (body : M string unit)
    : M world unit :=
  w <- get ;;
  match resolve (lookup_entry name (wd w)) with
  | Some Directory => raise (OSError "Is a directory")
  | found =>
      let old := match found with Some (Regular c) => c | _ => "" end in
      let '(result, written) := body "" in
      store_file name (old +:+ written) ;;
      match result with
      | Returns _ => ret tt
      | Raises e => raise e
      end
  end.

(** Lines 630-659, for any body of the [with] block. *)
Definition guarded_write (body : M string unit) : M world unit :=
  let temp_par_file := "." +:+ parameter_file args in
  unix_cp (parameter_file args) temp_par_file ;;
  try_except_else
    (with_open_append (parameter_file args) body)
    (fun e =>
       unix_rm (parameter_file args) ;;
       unix_cp temp_par_file (parameter_file args) ;;
       sys_exit (PStr (newline +:+ tab +:+
                       "seisflows configure failed with exception:" +:+
                       newline +:+ tab +:+ exn_str e +:+ newline)))
    (unix_rm temp_par_file).

(** Lines 575-628: what [configure] does before it touches the parameter
    file. *)
Definition configure_prepare : M world unit :=
  _register true ;;
  when (negb (endswith (parameter_file args) ".yaml"))
       (sys_exit (PStr (newline +:+ tab +:+
                        "seisflows configure only applicable to .yaml " +:+
                        "parameter files" +:+ newline))) ;;
  for_each (NAMES E) (fun NAME => log (ImportModule NAME)) ;;
  log ValidateSystemPaths.

Definition configure : M world unit :=
  configure_prepare ;;
  guarded_write write_template.

(** [configure] with any body in the [with] block: what the block of lines
    638-652 can come to when writing fails in a way [write_template] does
    not show (the disk is full, the operator interrupts). *)
Definition configure_with (body : M string unit) : M world unit :=
  configure_prepare ;;
  guarded_write body.


End Commands.

(** ** [clean] as a function on directories

    The two assertions of [clean] for one entry, and its two loops, read
    off the directory alone. *)

Definition is_link (o : option node) : bool :=
  match o with
  | Some (Symlink _) => true
  | _ => false
  end.

Definition guards_pass (wdir : string) (d : dir) (name : string) : bool :=
  negb (contains (path_join wdir name) "parameters.yaml")
  && negb (is_link (lookup_entry name d)).

Fixpoint sweep_names (wdir : string) (names : list string) (d : dir)
    : outcome unit * dir :=
  match names with
  | [] => (Returns tt, d)
  | name :: names' =>
      if guards_pass wdir d name
      then sweep_names wdir names' (remove_entry name d)
      else (Raises AssertionError, d)
  end.

Fixpoint sweep (wdir : string) (patterns : list string) (d : dir)
    : outcome unit * dir :=
  match patterns with
  | [] => (Returns tt, d)
  | pattern :: patterns' =>
      match sweep_names wdir (filter (fnmatch pattern) (map fst d)) d with
      | (Returns _, d') => sweep wdir patterns' d'
      | failed => failed
      end
  end.

(** The operator has agreed to the cleaning: by [--force], or by typing
    [y] at the prompt. *)
Definition confirmed (force : bool) (w : world) : Prop :=
  force = true \/ head (stdin w) = Some "y".

(** An entry [clean] looks for. *)
Definition is_artifact (name : string) : bool :=
  existsb (fun pattern => fnmatch pattern name) delete.

(** The body of the inner loop of [clean], and its prompt. *)
Definition clean_entry (args : Args) (name : string) : M world unit :=
  let fid := path_join (workdir args) name in
  assert (negb (contains fid "parameters.yaml")) ;;
  link <- islink name ;;
  assert (negb link) ;;
  unix_rm name.

Definition clean_prompt : string :=
  newline +:+ tab +:+ "This will remove all workflow objects, "
  +:+ newline +:+ tab +:+ "leaving only the parameter file. "
  +:+ newline +:+ tab +:+ "Are you sure you want to clean? "
  +:+ "(y/[n]):" +:+ newline.

(** A directory thinned out by removing entries by name. *)
Definition thinned (d d' : dir) : Prop :=
  exists keep : string -> bool, d' = filter (fun e => keep (fst e)) d.

Definition with_wd (d : dir) (w : world) : world := set_wd (fun _ => d) w.

(** An entry that the first assertion of [clean] refuses to remove. *)
Definition shielded (wdir n : string) : Prop :=
  contains (path_join wdir n) "parameters.yaml" = true.

(** ** Two commands in a row *)

(** A new process on the same disk and terminal. *)
Definition new_process (w : world) : world :=
  boot (wd w) (extern w) (stdin w) (trace w).

(** "Clean then submit", as the help text of [restart] has it
    ([seisflows clean; seisflows submit]): the two commands one after the
    other with the same force flag, each in a process of its own; the
    second is run however the first has ended. *)
Definition clean_then_submit (E : Env) (args : Args) (force : bool)
    (w : world) : outcome unit * world :=
  submit E args None force (new_process (snd (clean args force w))).

(** ** What [submit] hands to the Stage Driver *)

(** The parameters of the last hand-off on record. *)
Definition handed_off (w : world) : option (gmap string pyval) :=
  match last (trace w) with
  | Some (SystemSubmit p) => Some p
  | _ => None
  end.



(** The key of the entry a line of the document holds, if it holds one. *)
Definition entry_key (line : string) : option string :=
  match classify line with
  | YTop key _ | YSub key _ => Some key
  | _ => None
  end.


(** The events by which a run builds the registry or starts a job. *)
Definition is_launch (e : event) : bool :=
  match e with
  | InitSeisflows | SystemSubmit _ => true
  | _ => false
  end.

(** ** Lines and keys *)

Definition not_char (x : ascii) (c : ascii) : bool := negb (Ascii.eqb c x).

(** No line break in a string: neither a line feed nor a carriage
    return. *)
Definition one_line (s : string) : bool :=
  all_chars (fun c => not_char "010" c && not_char "013" c) s.

(** No carriage return in a string. *)
Definition no_cr (s : string) : bool := all_chars (not_char "013") s.

(** No colon in a string. *)
Definition no_colon (s : string) : bool := all_chars (not_char ":") s.

(** A line as [readlines] returns it: not empty, with no carriage return
    and no line feed but possibly its last character. *)
Fixpoint line_ok (s : string) : bool :=
  match s with
  | "" => false
  | String c s' =>
      if Ascii.eqb c "010" then String.eqb s' ""
      else not_char "013" c && (String.eqb s' "" || line_ok s')
  end.

(** The line ends with a newline. *)
Fixpoint terminated (s : string) : bool :=
  match s with
  | "" => false
  | String c s' =>
      match s' with
      | "" => Ascii.eqb c "010"
      | _ => terminated s'
      end
  end.

(** The lines of a file: all but the last one end with a newline. *)
Fixpoint lines_ok (ls : list string) : Prop :=
  match ls with
  | [] => True
  | l :: ls' =>
      line_ok l = true /\ (ls' = [] \/ terminated l = true) /\ lines_ok ls'
  end.

(** A parameter name that [par] and the reader of the document take for
    the same key: it has no white space and no colon, and starts neither a
    comment nor a list item. *)
Definition key_ok (key : string) : bool :=
  all_chars (fun c => negb (isspace c)) key
  && no_colon key
  && match key with
     | "" => false
     | String c _ => not_char "#" c && not_char "-" c
     end.



(** ** What a command leaves alone *)

(** [c] keeps the relation [R] between the state it starts in and the
    state it ends in, however it ends. *)
Definition keeps {A} (R : world -> world -> Prop) (c : M world A) : Prop :=
  forall w o w', c w = (o, w') -> R w w'.

(** The directory is as it was. *)
Definition same_dir (w w' : world) : Prop := wd w' = wd w.

(** Nothing has been launched: the events added build no registry and
    start no job. *)
Definition nothing_launched (w w' : world) : Prop :=
  exists evs, trace w' = trace w ++ evs
              /\ Forall (fun e => is_launch e = false) evs.



(** The lines [submit] prints for the paths that do not exist. *)
Definition missing_report (missing : list string) : list event :=
  Print (newline +:+ "The following paths do not exist:" +:+ newline)
  :: map (fun path_ => Print (tab +:+ path_)) missing ++ [Print newline].


(** The required paths that are given and are not on disk, as [submit]
    collects them (lines 711-716). *)
Definition missing_paths (args : Args) (w : world)
    (paths : gmap string (option string)) (keys : list string)
    : list string :=
  flat_map (fun key =>
    match paths !! key with
    | Some (Some path) =>
        if negb (String.eqb path "")
        then (if on_disk args w path then [] else [path])
        else []
    | _ => []
    end) keys.

Definition add_events (evs : list event) (w : world) : world :=
  fold_left (fun w e => add_event e w) evs w.

(** ** The entry [par] works on *)

(** The first line of the file that the test of [par] picks, with the lines
    before it and after it. *)
Fixpoint find_entry (key : string) (lines : list string)
    : option (list string * string * list string) :=
  match lines with
  | [] => None
  | line :: rest =>
      if par_match key line then Some ([], line, rest)
      else match find_entry key rest with
           | Some (pre, found, post) => Some (line :: pre, found, post)
           | None => None
           end
  end.

(** The state after the warning of lines 1000-1002, if it is given. *)
Definition warned (value : option string) (w : world) : world :=
  match value with
  | Some v =>
      if String.eqb (lower v) "none"
      then add_event
             (Warn "to set values to nonetype, use 'null' not 'none'") w
      else w
  | None => w
  end.

(** ** What [_register] registers *)

(** The paths a document gives: the entries of its [PATHS] section, none
    when it has no such section. *)
Definition document_paths (doc : yaml_doc) : gmap string pyval :=
  match y_paths doc with
  | PathsDict d => d
  | _ => ∅
  end.

(** Lines 435-437: [WORKDIR] is filled in when the document does not give
    it. *)
Definition with_workdir (wdir : string) (paths : gmap string pyval)
    : gmap string pyval :=
  match paths !! "WORKDIR" with
  | None => <["WORKDIR" := PStr wdir]> paths
  | Some _ => paths
  end.


(** The document has a [PATHS] section with entries, or none at all. *)
Definition paths_readable (doc : yaml_doc) : bool :=
  match y_paths doc with
  | PathsScalar _ => false
  | _ => true
  end.

(** ** Sample inputs *)

Module Sample.

Definition E : Env := {|
  NAMES := ["system"; "workflow"];
  PACKAGES := ["seisflows3"];
  ROOT_DIR := "/opt/seisflows3";
  template := "# blank parameter file" +:+ newline;
  ParameterCheckStatement := "Please check the parameters below";
  required := fun name =>
    if String.eqb name "system"
    then {| req_parameters :=
              [("TITLE", {| a_type := Some (PStr "str");
                            a_docstr := Some "name of the run";
                            a_default := Some PNone |})];
            req_paths :=
              [("LOG", {| a_type := None;
                          a_docstr := Some "log file";
                          a_default := Some (PStr "/work/output_log.txt") |})] |}
    else {| req_parameters :=
              [("BEGIN", {| a_type := Some (PStr "int");
                            a_docstr := None;
                            a_default := Some (PInt 1) |})];
            req_paths := [] |};
  flow := ["evaluate_initial_misfit"; "compute_gradient"; "line_search"];
  format_paths := fun paths =>
    (fun v => match v with PStr s => Some s | _ => None end) <$> paths;
  loadpy := fun _ => ∅;
  wrap := fun s _ => [s];
  relpath := fun s => s;
|}.

Definition args : Args := {|
  workdir := "/work";
  parameter_file := "parameters.yaml";
  path_file := "paths.py";
  relative_paths := false;
|}.

(** A parameter file that asks to resume from the second stage. *)
Definition document : string :=
  "TITLE: run" +:+ newline +:+
  "RESUME_FROM: compute_gradient" +:+ newline +:+
  "STOP_AFTER:" +:+ newline +:+
  "PRECHECK:" +:+ newline +:+
  "    - TITLE" +:+ newline +:+
  "PATHS:" +:+ newline +:+
  "    DATA: /data" +:+ newline.

(** A working directory ready to run: the data directory exists. *)
Definition ready : world :=
  boot [("parameters.yaml", Plain (Regular document))] {["/data"]} [] [].

(** The same, but the data directory is missing. *)
Definition no_data : world :=
  boot [("parameters.yaml", Plain (Regular document))] ∅ [] [].

(** A working directory after a run, with its scratch area on another
    file system. *)
Definition linked_scratch : world :=
  boot [("parameters.yaml", Plain (Regular document));
        ("output", Plain Directory);
        ("scratch", Symlink (Some Directory))] ∅ [] [].

(** The same, with the data directory in place. *)
Definition linked_scratch_with_data : world :=
  boot [("parameters.yaml", Plain (Regular document));
        ("output", Plain Directory);
        ("scratch", Symlink (Some Directory))] {["/data"]} [] [].

(** A parameter file without a [RESUME_FROM] entry, naming a data
    directory that is missing. *)
Definition no_resume_from : world :=
  boot [("parameters.yaml",
         Plain (Regular ("TITLE: run" +:+ newline +:+
                         "PRECHECK:" +:+ newline +:+
                         "    - TITLE" +:+ newline +:+
                         "PATHS:" +:+ newline +:+
                         "    DATA: /data" +:+ newline)))] ∅ [] [].

(** A working directory after a run. *)
Definition after_run : world :=
  boot [("parameters.yaml", Plain (Regular document));
        ("logs", Plain Directory);
        ("output", Plain Directory);
        ("output_log.txt", Plain (Regular "done"));
        ("scratch", Plain Directory)] ∅ [] [].

(** A parameter file called [output.yaml], chosen with [-p]. *)
Definition renamed_args : Args := {|
  workdir := "/work";
  parameter_file := "output.yaml";
  path_file := "paths.py";
  relative_paths := false;
|}.

Definition renamed : world :=
  boot [("output.yaml", Plain (Regular document));
        ("output", Plain Directory)] ∅ [] [].

(** The operator answers [n] when [setup] asks whether to overwrite. *)
Definition declined : world :=
  boot [("parameters.yaml", Plain (Regular document))] ∅ ["n"] [].

(** A legacy parameter file. *)
Definition legacy_args : Args := {|
  workdir := "/work";
  parameter_file := "parameters.py";
  path_file := "paths.py";
  relative_paths := false;
|}.

Definition legacy : world :=
  boot [("parameters.py", Plain (Regular "NT = 100"));
        ("paths.py", Plain (Regular "DATA = '/data'"))] ∅ [] [].

End Sample.

(** ** A package whose requirements are all documented *)

Module Documented.

Definition E : Env := {|
  NAMES := ["system"; "workflow"];
  PACKAGES := ["seisflows3"];
  ROOT_DIR := "/opt/seisflows3";
  template := "# blank parameter file" +:+ newline;
  ParameterCheckStatement := "Please check the parameters below";
  required := fun name =>
    if String.eqb name "system"
    then {| req_parameters :=
              [("TITLE", {| a_type := Some (PStr "str");
                            a_docstr := Some "name of the run";
                            a_default := Some PNone |})];
            req_paths :=
              [("LOG", {| a_type := None;
                          a_docstr := Some "log file";
                          a_default := Some (PStr "/work/output_log.txt") |})] |}
    else {| req_parameters :=
              [("BEGIN", {| a_type := Some (PStr "int");
                            a_docstr := Some "first iteration";
                            a_default := Some (PInt 1) |})];
            req_paths := [] |};
  flow := ["evaluate_initial_misfit"; "compute_gradient"; "line_search"];
  format_paths := fun paths =>
    (fun v => match v with PStr s => Some s | _ => None end) <$> paths;
  loadpy := fun _ => ∅;
  wrap := fun s _ => [s];
  relpath := fun s => s;
|}.

End Documented.

End SeisFlows.

(* ===================================================================== *)
(** * seisflows3/seisflows.py: commands on a live environment *)
(* ===================================================================== *)

Module Environment.

Import SeisFlows.

(** The commands that have a help parser of their own ([subparser_dict],
    lines 294-296); for every other command [sfparser] returns no
    sub-parser (lines 297-300). *)
Definition subparser_dict : list string :=
  ["check"; "par"; "inspect"; "edit"; "sempar"; "clean"; "restart"; "print"].

Section Methods.

Variable E : Env.
Variable args : Args.

(** The command the process was started with ([self._args.command]), the
    value of the [args] argument that the [check] and [print] commands
    have, and the value of the [dont_open] flag that the [edit] command
    has. *)
Variable command : option string.
Variable cli_args : list string.
Variable cli_dont_open : bool.

(** What lies outside the sources is taken as given and may raise or change
    the state: [tools.loadobj] with the assignment to [sys.modules], the
    [check] method of a loaded module, the line search and the checkpoint
    of the loaded [optimize] and [workflow] modules, the saving of a model
    by the loaded solver, [os.path.abspath], [subprocess.call] and the
    environment variable [EDITOR]. *)
Variable loadobj : string -> string -> M world unit.
Variable module_check : string -> M world unit.
Variable line_search_reset : M world (pyval * pyval).
Variable checkpoint : M world unit.
Variable save_model : string -> string -> M world unit.
Variable abspath : string -> string.
Variable subprocess_call : string -> string -> M world unit.
Variable environ_EDITOR : option string.

(** [self._subparser.print_help()]. *)
Definition subparser_print_help : M world unit :=
  match command with
  | Some c =>
      if bool_decide (c ∈ subparser_dict) then log PrintHelp
      else raise (AttributeError
                    "'NoneType' object has no attribute 'print_help'")
  | None =>
      raise (AttributeError "'NoneType' object has no attribute 'print_help'")
  end.

(** [self._args.args]: an argument of the [check] and [print] commands
    only (lines 220 and 235). *)
Definition args_args : M world (list string) :=
  match command with
  | Some c =>
      if bool_decide (c ∈ ["check"; "print"]) then ret cli_args
      else raise (AttributeError
                    "'Namespace' object has no attribute 'args'")
  | None =>
      raise (AttributeError "'Namespace' object has no attribute 'args'")
  end.

(** [self._args.dont_open]: a flag of the [edit] command only (line
    290). *)
Definition args_dont_open : M world bool :=
  match command with
  | Some c =>
      if String.eqb c "edit" then ret cli_dont_open
      else raise (AttributeError
                    "'Namespace' object has no attribute 'dont_open'")
  | None =>
      raise (AttributeError
               "'Namespace' object has no attribute 'dont_open'")
  end.

(** *** [_load_modules] (lines 510-534) *)

Definition state_file (NAME : string) : string :=
  path_join (path_join (workdir args) "output")
            ("seisflows_" +:+ NAME +:+ ".p").

(** The body of the first loop (lines 521-529). *)
Definition load_module (NAME : string) : M world unit :=
  let fullfile := state_file NAME in
  found <- path_exists args fullfile ;;
  when (negb found)
       (sys_exit (PStr (newline +:+ tab +:+
                        "Not a SeisFlows working directory, state file " +:+
                        "not found:" +:+ newline +:+ tab +:+ fullfile +:+
                        newline))) ;;
  loadobj NAME fullfile.

Definition _load_modules : M world unit :=
  log (Chdir (workdir args)) ;;
  for_each (NAMES E) load_module ;;
  for_each (NAMES E) module_check.

(** A call of [_load_modules], which takes no argument but [self], with
    the keyword arguments [keywords]. *)
Definition call_load_modules (keywords : list string) : M world unit :=
  match keywords with
  | [] => _load_modules
  | keyword :: _ =>
      raise (TypeError ("_load_modules() got an unexpected keyword " +:+
                        "argument '" +:+ keyword +:+ "'"))
  end.

(** [sys.modules["seisflows_NAME"]] in a process whose modules are those
    that [_load_modules] has loaded. *)
Definition sys_module (NAME : string) : M world unit :=
  if bool_decide (NAME ∈ NAMES E) then ret tt
  else raise (KeyError ("seisflows_" +:+ NAME)).

(** *** [resume] (lines 760-791) *)

(** Lines 779-784: what [resume] does before it loads the state files. *)
Definition resume_register (stop_after resume_from : option string)
    (force : bool) : M world unit :=
  match stop_after with
  | Some stage => par args (Some "STOP_AFTER") (Some stage) true
  | None => ret tt
  end ;;
  match resume_from with
  | Some stage => par args (Some "RESUME_FROM") (Some stage) true
  | None => ret tt
  end ;;
  _register E args force.

Definition resume (stop_after resume_from : option string) (force : bool)
    : M world unit :=
  resume_register stop_after resume_from force ;;
  _load_modules ;;
  _config_logging args ;;
  sys_module "workflow" ;;
  sys_module "system" ;;
  system_submit.

(** *** [reset] (lines 1121-1134) and [_reset_line_search] (1282-1294) *)

Definition _reset_line_search : M world unit :=
  sys_module "optimize" ;;
  sys_module "workflow" ;;
  steps <- line_search_reset ;;
  print ("Step Count: " +:+ str (fst steps) +:+ " -> " +:+ str (snd steps)) ;;
  checkpoint.

Definition reset (choice : option string) : M world unit :=
  when (negb (bool_decide (choice = Some "line_search")))
       (subparser_print_help ;; sys_exit (PInt 0)) ;;
  _register E args true ;;
  _load_modules ;;
  positional <- args_args ;;
  match positional with
  | [] => _reset_line_search
  | _ =>
      raise (TypeError
               ("_reset_line_search() takes 1 positional argument but " +:+
                pretty (S (length positional)) +:+ " were given"))
  end.

(** *** [convert] (lines 1167-1200) *)

Definition convert (name : string) (path : option string) : M world unit :=
  call_load_modules ["force"] ;;
  sys_module "solver" ;;
  sys_module "optimize" ;;
  w <- get ;;
  PATH <-
    match sys_paths w with
    | Some PATH => ret PATH
    | None => raise (KeyError "seisflows_paths")
    end ;;
  path <-
    match path with
    | Some p => ret p
    | None =>
        match PATH !! "OUTPUT" with
        | Some (Some output) => ret (path_join output name)
        | Some None =>
            raise (TypeError "expected str, bytes or os.PathLike object")
        | None => raise (KeyError "OUTPUT")
        end
    end ;;
  found <- path_exists args path ;;
  when found
       (sys_exit (PStr (newline +:+ tab +:+ path +:+
                        " exists and this action would overwrite the " +:+
                        "existing path" +:+ newline))) ;;
  save_model name path.

(** *** [edit] (lines 1032-1079) *)

(** [f"{module}"] for an argument that is a string or [None]. *)
Definition fmt_opt (s : option string) : string :=
  match s with
  | Some s => s
  | None => "None"
  end.

(** The loop of lines 1070-1079: it has no [break], so its [else] branch
    is run whenever it comes to its end. *)
Fixpoint edit_search (REPO_DIR name : string) (module : option string)
    (editor : string) (packages : list string) : M world unit :=
  match packages with
  | [] =>
      sys_exit (PStr (newline +:+ tab +:+ "seisflows." +:+ name +:+ "." +:+
                      fmt_opt module +:+ " not found" +:+ newline))
  | package :: rest =>
      let fid_try :=
        path_join (path_join (path_join REPO_DIR package) name)
                  (fmt_opt module +:+ ".py") in
      found <- path_exists args fid_try ;;
      if found then
        dont_open <- args_dont_open ;;
        if dont_open then
          sys_exit (PStr (newline +:+ fid_try +:+ newline))
        else
          subprocess_call editor fid_try ;;
          sys_exit (PStr (newline +:+ tab +:+ "Edited file: " +:+ fid_try
                          +:+ newline))
      else edit_search REPO_DIR name module editor rest
  end.

Definition edit (name module editor : option string) : M world unit :=
  match name with
  | None => subparser_print_help ;; sys_exit (PInt 0)
  | Some name =>
      let editor :=
        match editor with
        | Some e => if String.eqb e "" then environ_EDITOR else Some e
        | None => environ_EDITOR
        end in
      match editor with
      | None =>
          sys_exit (PStr (newline +:+ tab +:+
                          "$EDITOR environment variable not set, set " +:+
                          "manually" +:+ newline))
      | Some editor =>
          let REPO_DIR := abspath (path_join (ROOT_DIR E) "..") in
          when (negb (bool_decide (name ∈ NAMES E)))
               (sys_exit (PStr (newline +:+ tab +:+ name +:+
                                " not in SeisFlows3 names: " +:+
                                str (PList (map PStr (NAMES E))) +:+
                                newline))) ;;
          edit_search REPO_DIR name module editor (PACKAGES E)
      end
  end.

End Methods.

End Environment.

(* ===================================================================== *)
(** * More exceptions *)
(* ===================================================================== *)

Module PyMore.

(** The exceptions of [Py] and three more.  [UnboundLocalError] is raised
    when a local variable is read before any assignment to it has run; it
    carries the name of the variable. *)
Inductive exn_more :=
| Std (e : exn)
| UnboundLocalError (name : string)
| NotImplementedError (msg : string)
| IndexError (msg : string).

Inductive result (A : Type) :=
| Done (a : A)
| Failed (e : exn_more).
Arguments Done {A} a.
Arguments Failed {A} e.

(** The state-and-exception monad over these exceptions. *)
Definition Mx (S A : Type) : Type := S -> result A * S.

Definition retX {S A} (a : A) : Mx S A := fun s => (Done a, s).

Definition failX {S A} (e : exn_more) : Mx S A := fun s => (Failed e, s).

Definition bindX {S A B} (c : Mx S A) (k : A -> Mx S B) : Mx S B :=
  fun s =>
    match c s with
    | (Done a, s') => k a s'
    | (Failed e, s') => (Failed e, s')
    end.

(** A computation of [Py] run here. *)
Definition liftX {S A} (c : M S A) : Mx S A :=
  fun s =>
    match c s with
    | (Returns a, s') => (Done a, s')
    | (Raises e, s') => (Failed (Std e), s')
    end.

Definition whenX {S} (b : bool) (c : Mx S unit) : Mx S unit :=
  if b then c else retX tt.

(** Reading a local variable that holds [v], or nothing yet. *)
Definition load_local {S A} (v : option A) (name : string) : Mx S A :=
  match v with
  | Some a => retX a
  | None => failX (UnboundLocalError name)
  end.

End PyMore.

Export PyMore.

Declare Scope pymore_scope.
Delimit Scope pymore_scope with pymore.
Notation "x <- c1 ;; c2" := (bindX c1 (fun x => c2))
  (at level 20, c1 at level 99, c2 at level 200, only parsing) : pymore_scope.
Notation "c1 ;; c2" := (bindX c1 (fun _ => c2))
  (at level 100, c2 at level 200, only parsing, right associativity)
  : pymore_scope.

(* ===================================================================== *)
(** * seisflows/solver/specfem3d.py: generating the mesh *)
(* ===================================================================== *)

Module Mesher.

Local Open Scope pymore_scope.

(** The calls [generate_mesh] makes into the tools of the package
    ([unix.cd], [unix.cp] on what [glob] finds, [call_solver]). *)
Inductive call :=
| Cd (path : string)
| Cp (pattern dst : string)
| CallSolver (mpiexec executable : string).

(** The global path dictionary [PATH] and the calls made. *)
Record state := State {
  PATH : gmap string pyval;
  calls : list call;
}.

Definition log (c : call) : Mx state unit :=
  fun st => (Done tt, State (PATH st) (calls st ++ [c])).

(** [PATH.key], joined to a name by [os.path.join]. *)
Definition PATH_join (key name : string) : Mx state string :=
  fun st =>
    match PATH st !! key with
    | Some (PStr p) => (Done (path_join p name), st)
    | Some _ =>
        (Failed (Std (TypeError
                        "expected str, bytes or os.PathLike object")), st)
    | None => (Failed (Std (KeyError key)), st)
    end.

Section Methods.

(** What the base class and the tools provide is taken as given: the
    attributes [cwd] and [taskid], [exists], [getpar], [system.mpiexec],
    and the methods [initialize_solver_directories],
    [check_mesh_properties] and [export_model], which may raise or change
    the state. *)
Variable cwd : string.
Variable taskid : Z.
Variable exists_ : string -> bool.
Variable getpar : string -> string.
Variable mpiexec : string.
Variable initialize_solver_directories : Mx state unit.
Variable check_mesh_properties : string -> Mx state unit.
Variable export_model : string -> Mx state unit.

(** [model_databases] (lines 307-312). *)
Definition model_databases : string :=
  path_join (path_join cwd "OUTPUT_FILES") "DATABASES_MPI".

(** [kernel_databases] (lines 300-305). *)
Definition kernel_databases : string :=
  path_join (path_join cwd "OUTPUT_FILES") "DATABASES_MPI".

(** [generate_mesh] (lines 87-124).  The local variable [par] is assigned
    in the first branch only; the second branch reads it to build its
    message. *)
Definition generate_mesh (model_path model_name : string)
    (model_type : pyval) : Mx state unit :=
  let available_model_types := ["gll"] in
  initialize_solver_directories ;;
  log (Cd cwd) ;;
  liftX (assert (exists_ model_path)) ;;
  if in_strs model_type available_model_types then
    let par := strip (getpar "MODEL") in
    whenX (String.eqb par "gll")
      (check_mesh_properties model_path ;;
       let src := path_join model_path "*" in
       let dst := model_databases in
       log (Cp src dst) ;;
       log (CallSolver mpiexec "bin/xmeshfem3D") ;;
       log (CallSolver mpiexec "bin/xgenerate_databases")) ;;
    whenX (taskid =? 0)%Z
      (path <- PATH_join "OUTPUT" model_name ;;
       export_model path)
  else
    par <- load_local None "par" ;;
    failX (NotImplementedError ("MODEL=" +:+ par +:+ " not implemented")).

End Methods.

End Mesher.

(* ===================================================================== *)
(** * seisflows3/seisflows.py: the solver's parameter file *)
(* ===================================================================== *)

Module SolverParameters.

Import SeisFlows.

Local Open Scope pymore_scope.

(** ** More string methods *)

(** [s.split(sep)] for a separator of one character: the pieces between
    its occurrences; always at least one. *)
Fixpoint split_char (sep : ascii) (s : string) : list string :=
  match s with
  | "" => [""]
  | String c s' =>
      if Ascii.eqb c sep
      then "" :: split_char sep s'
      else match split_char sep s' with
           | [] => [String c ""]
           | p :: ps => String c p :: ps
           end
  end.

(** [s.split()]: the words between runs of white space. *)
Fixpoint split_ws (s : string) : list string :=
  match s with
  | "" => []
  | String c s' =>
      if isspace c then split_ws s'
      else match s' with
           | "" => [String c ""]
           | String d _ =>
               if isspace d then String c "" :: split_ws s'
               else match split_ws s' with
                    | [] => [String c ""]
                    | word :: words => String c word :: words
                    end
           end
  end.

(** [parts.count("")]. *)
Definition count_empty (parts : list string) : nat :=
  length (List.filter (fun p => String.eqb p "") parts).

(** [f"{s:<{w}}"]: left-justified in a field of width [w]. *)
Definition ljust (w : nat) (s : string) : string :=
  s +:+ repeat_char " " (w - String.length s).

(** [int(s)] for a string: white space around it, a sign, and decimal
    digits that single underscores may separate. *)
Fixpoint digits_ok (after_digit : bool) (s : string) : bool :=
  match s with
  | "" => after_digit
  | String c s' =>
      if is_digit c then digits_ok true s'
      else if Ascii.eqb c "_" then after_digit && digits_ok false s'
      else false
  end.

Fixpoint decimal (acc : Z) (s : string) : Z :=
  match s with
  | "" => acc
  | String c s' =>
      if is_digit c
      then decimal (10 * acc + Z.of_nat (nat_of_ascii c - 48)) s'
      else decimal acc s'
  end.

Definition py_int (s : string) : option Z :=
  let signed :=
    match strip s with
    | String "-" body => (true, body)
    | String "+" body => (false, body)
    | body => (false, body)
    end in
  if digits_ok false (snd signed)
  then Some (if fst signed then - decimal 0 (snd signed)
             else decimal 0 (snd signed))%Z
  else None.

(** [l[start:stop]] for a start within the list. *)
Definition py_slice {A} (l : list A) (start : nat) (stop : Z) : list A :=
  let len := Z.of_nat (length l) in
  let stop := if (stop <? 0)%Z then Z.max 0 (stop + len) else Z.min stop len in
  take (Z.to_nat stop - start) (drop start l).

(** The error of unpacking a list into two names. *)
Definition unpack_error (n : nat) : exn :=
  if n <? 2
  then ValueError ("not enough values to unpack (expected 2, got " +:+
                   pretty n +:+ ")")
  else ValueError "too many values to unpack (expected 2)".

(** A line that the loop of lines 900-924 takes for the velocity model: it
    has no equals sign and no hash, and fifteen words. *)
Definition is_model_line (line : string) : bool :=
  negb (contains (strip line) "=" || contains (strip line) "#")
  && (length (split_ws (strip line)) =? 15).

Section Methods.

Variable args : Args.

(** The command the process was started with. *)
Variable command : option string.

Definition MESHER_KEYWORD : string := "VELOCITY_MODEL".
Definition MESHER_INPUT_NUM : nat := 15.

(** The loop of lines 900-924; [i] counts the lines passed, [nbmodels] is
    the count read so far. *)
Fixpoint velocity_model (par_file : string) (value : option string)
    (lines : list string) (i : nat) (nbmodels : Z) (rest : list string)
    : Mx world unit :=
  match rest with
  | [] => retX tt
  | line :: rest' =>
      if contains (strip line) "=" || contains (strip line) "#" then
        velocity_model par_file value lines (S i) nbmodels rest'
      else if contains line "nbmodels " then
        match split_ws (strip line) with
        | [key; val] =>
            match py_int val with
            | Some n => velocity_model par_file value lines (S i) n rest'
            | None =>
                failX (Std (ValueError
                              ("invalid literal for int() with base 10: "
                               +:+ repr_str val)))
            end
        | words => failX (Std (unpack_error (length words)))
        end
      else
        let parts := split_ws (strip line) in
        if length parts =? MESHER_INPUT_NUM then
          let MODEL :=
            String.concat ""
              (py_slice lines i (Z.of_nat i + nbmodels + 1)) in
          match value with
          | None => liftX (print (newline +:+ MODEL))
          | Some value =>
              liftX (print (newline +:+ line +:+ newline +:+ "->")) ;;
              let lines := <[i := value +:+ newline]> lines in
              liftX (print (newline +:+ value)) ;;
              liftX (store_file par_file (writelines lines))
          end
        else velocity_model par_file value lines (S i) nbmodels rest'
  end.

(** The loop of lines 930-934: the width of the field of the names, if
    some line holds an equals sign. *)
Fixpoint field_width (lines : list string) : option nat :=
  match lines with
  | [] => None
  | line :: rest =>
      if contains line "="
      then Some (count_empty (split_char " " (strip line)))
      else field_width rest
  end.

(** The loop of lines 937-958. *)
Fixpoint standard (par_file parameter : string) (value : option string)
    (space : option nat) (lines : list string) (i : nat)
    (rest : list string) : Mx world unit :=
  match rest with
  | [] =>
      liftX (sys_exit (PStr (newline +:+ tab +:+ "'" +:+ parameter +:+
                             "' not found in parameter file" +:+ newline)))
  | line :: rest' =>
      width <- load_local space "space" ;;
      if contains (upper line) (ljust width parameter)
         && negb (first_char_is (Ascii.eqb "#") line)
      then
        match value with
        | Some value =>
            match split_char "=" line with
            | [current_par; current_val] =>
                let new_val :=
                  replace (strip current_val) (strip current_val) value in
                let lines :=
                  <[i := ljust width current_par +:+ "= " +:+ new_val
                         +:+ newline]> lines in
                liftX (print (newline +:+ tab +:+ strip current_par +:+
                              " = " +:+ strip current_val +:+ " -> " +:+
                              value +:+ newline)) ;;
                liftX (store_file par_file (writelines lines))
            | pieces => failX (Std (unpack_error (length pieces)))
            end
        | None => liftX (print (newline +:+ tab +:+ line))
        end
      else standard par_file parameter value space lines (S i) rest'
  end.

(** The file [sempar] reads (lines 884-887). *)
Definition solver_file (w : world) : string :=
  if node_exists (lookup_entry (parameter_file args) (wd w))
  then parameter_file args else "Par_file".

(** [sempar] (lines 839-958). *)
Definition sempar (parameter value : option string) : Mx world unit :=
  match parameter with
  | None =>
      liftX (Environment.subparser_print_help command) ;;
      liftX (sys_exit (PInt 0))
  | Some parameter =>
      let parameter := upper parameter in
      found <- liftX (entry_exists (parameter_file args)) ;;
      let par_file := if found then parameter_file args else "Par_file" in
      text <- liftX (read_file par_file) ;;
      let lines := readlines text in
      if String.eqb parameter MESHER_KEYWORD then
        velocity_model par_file value lines 0 1 lines ;;
        liftX (sys_exit (PInt 0))
      else
        standard par_file parameter value (field_width lines) lines 0 lines
  end.

End Methods.

(** ** A sample of a solver parameter file declaring three models *)

Definition model_1 : string :=
  "1 1 2600.d0 5800.d0 3500.0d0 0 0 10.d0 10.d0 0 0 0 0 0 0" +:+ newline.
Definition model_2 : string :=
  "2 1 2700.d0 6000.d0 3600.0d0 0 0 10.d0 10.d0 0 0 0 0 0 0" +:+ newline.
Definition model_3 : string :=
  "3 1 2800.d0 6200.d0 3700.0d0 0 0 10.d0 10.d0 0 0 0 0 0 0" +:+ newline.

Definition par_file_text : string :=
  "NPROC                           = 4" +:+ newline +:+
  "nbmodels                        = 3" +:+ newline +:+
  model_1 +:+ model_2 +:+ model_3.

Definition solver_directory : world :=
  boot [("Par_file", Plain (Regular par_file_text))] ∅ [] [].

End SolverParameters.

(* ===================================================================== *)
(** * seisflows3/seisflows.py: which class defined a method *)
(* ===================================================================== *)

Module Inspect.

Import SeisFlows.

(** A class as the search of [_inspect_class_that_defined_method] sees it:
    [__module__], [__name__], the names in [__dict__], and [__bases__]. *)
#[local] Set Warnings "-register-all".
Inductive cls :=
| Class (cls_module cls_name : string) (cls_dict : list string)
        (cls_bases : list cls).

Definition cls_module (c : cls) : string :=
  match c with Class m _ _ _ => m end.
Definition cls_name (c : cls) : string :=
  match c with Class _ n _ _ => n end.
Definition cls_dict (c : cls) : list string :=
  match c with Class _ _ d _ => d end.
Definition cls_bases (c : cls) : list cls :=
  match c with Class _ _ _ b => b end.

(** The number of classes in a hierarchy, each counted as often as it is
    reached. *)
Fixpoint cls_size (c : cls) : nat :=
  match c with
  | Class _ _ _ bases =>
      S ((fix sizes (l : list cls) : nat :=
            match l with
            | [] => 0
            | b :: l' => cls_size b + sizes l'
            end) bases)
  end.

(** The same for the classes of a list. *)
Definition total_size (classes : list cls) : nat :=
  list_sum (map cls_size classes).

(** A class with all its ancestors. *)
Fixpoint hierarchy (c : cls) : list cls :=
  c :: match c with
       | Class _ _ _ bases =>
           (fix all (l : list cls) : list cls :=
              match l with
              | [] => []
              | b :: l' => hierarchy b ++ all l'
              end) bases
       end.

(** [method_name in c.__dict__]. *)
Definition defines (method_name : string) (c : cls) : bool :=
  bool_decide (method_name ∈ cls_dict c).

(** [classes.pop()]: the last class of the list, and the others. *)
Definition pop (classes : list cls) : option (list cls * cls) :=
  match rev classes with
  | [] => None
  | c :: others => Some (rev others, c)
  end.

(** The loop of lines 1252-1258; it takes one turn for each class it
    looks at, [turns] at most. *)
Fixpoint search (turns : nat) (method_name : string) (classes : list cls)
    : option cls :=
  match turns with
  | O => None
  | S turns' =>
      match pop classes with
      | None => None
      | Some (classes, c) =>
          if defines method_name c then Some c
          else search turns' method_name (cls_bases c ++ classes)
      end
  end.

(** What [getattr(module, func)] gives: the name of its type, its
    [__name__] if it has one, and of its [__self__], if it has one, the
    truth value and the class. *)
Record attribute := {
  type_name : string;
  attr_name : option string;
  attr_self : option (bool * cls);
}.

Definition no_attribute (a : attribute) (name : string) : exn :=
  AttributeError ("'" +:+ type_name a +:+ "' object has no attribute '"
                  +:+ name +:+ "'").

Section Methods.

(** The loaded modules are taken as given: [sys.modules] by name, each
    module by what [getattr] gives for a name. *)
Variable sys_modules : string -> option (string -> option attribute).

(** [_inspect_class_that_defined_method] (lines 1221-1259). *)
Definition _inspect_class_that_defined_method (name func : string)
    : M world unit :=
  match sys_modules ("seisflows_" +:+ name) with
  | None =>
      sys_exit (PStr (newline +:+ tab +:+
                      "SeisFlows3 has no module named '" +:+ name +:+ "'"
                      +:+ newline))
  | Some module =>
      match module func with
      | None =>
          sys_exit (PStr (newline +:+ tab +:+ "SeisFlows." +:+ name +:+
                          " has no function '" +:+ func +:+ "'" +:+ newline))
      | Some method =>
          match attr_name method with
          | None => raise (no_attribute method "__name__")
          | Some method_name =>
              match attr_self method with
              | None => raise (no_attribute method "__self__")
              | Some (false, _) => raise (no_attribute method "im_class")
              | Some (true, class) =>
                  match search (cls_size class) method_name [class] with
                  | Some c =>
                      print (newline +:+ tab +:+ cls_module c +:+ "." +:+
                             cls_name c +:+ "." +:+ func +:+ newline)
                  | None =>
                      sys_exit (PStr (newline +:+ tab +:+
                                      "Error matching class for SeisFlows."
                                      +:+ name +:+ "." +:+ func +:+ newline))
                  end
              end
          end
      end
  end.

End Methods.

(** ** A sample hierarchy *)

Definition object : cls :=
  Class "builtins" "object" ["__init__"; "__repr__"] [].
Definition Base : cls :=
  Class "seisflows3.solver.base" "Base" ["check"; "eval_func"; "forward"]
        [object].
Definition Mixin : cls :=
  Class "seisflows3.plugins.mixin" "Mixin" ["forward"] [object].
Definition Specfem : cls :=
  Class "seisflows3.solver.specfem3d" "Specfem3D" ["check"] [Base; Mixin].

End Inspect.

(* ===================================================================== *)
(** * Properties *)
(* ===================================================================== *)

Example strip_line : strip "  RESUME_FROM: evaluate  " +:+ "|" = "RESUME_FROM: evaluate|".
Proof. reflexivity. Qed.
Example upper_ex : upper "resume_from" = "RESUME_FROM".
Proof. reflexivity. Qed.
Example split_ex : split_colon "A: b:c" = ["A"; " b"; "c"].
Proof. reflexivity. Qed.
Example split_ex2 : split_colon "A:" = ["A"; ""].
Proof. reflexivity. Qed.
Example replace_ex : replace "a-b-c" "-" "+" = "a+b+c".
Proof. reflexivity. Qed.
Example replace_empty : replace "" "" "x" = "x".
Proof. reflexivity. Qed.
Example readlines_ex :
  readlines ("a" +:+ String "010" "b" +:+ String "010" (String "010" "")) =
  ["a" +:+ String "010" ""; "b" +:+ String "010" ""; String "010" ""].
Proof. reflexivity. Qed.
Example readlines_ex2 : readlines ("a" +:+ String "010" "b") = ["a" +:+ String "010" ""; "b"].
Proof. reflexivity. Qed.
Example join_ex : path_join "/work" "output*" = "/work/output*".
Proof. reflexivity. Qed.
Example center_ex : center 5 "ab" = " ab  ".
Proof. reflexivity. Qed.
Example str_ex : str (PList [PStr "su"; PStr "SU"]) = "['su', 'SU']".
Proof. reflexivity. Qed.

(* ===================================================================== *)
(** * The SPECFEM3D solver checks *)
(* ===================================================================== *)

Section Specfem3D_checks.
Import Specfem3D.

Example check_passes :
  check (ret tt)
        (State (<["NT" := PInt 100]> (<["DT" := PStr "0.1"]>
                 (<["F0" := PInt 1]> {["FORMAT" := PStr "su"]}))) [])
  = (Returns tt,
     State (<["NT" := PInt 100]> (<["DT" := PStr "0.1"]>
              (<["F0" := PInt 1]> {["FORMAT" := PStr "su"]}))) []).
Proof. vm_compute. reflexivity. Qed.

Example check_rejects_format :
  fst (check (ret tt)
        (State (<["NT" := PInt 100]> (<["DT" := PStr "0.1"]>
                 (<["F0" := PInt 1]> {["FORMAT" := PStr "ascii"]}))) []))
  = Raises (PyException "'FORMAT' must be ['su', 'SU']").
Proof. vm_compute. reflexivity. Qed.

Lemma required_keys_ind (P : string -> Prop) :
  P "NT" -> P "DT" -> P "F0" -> P "FORMAT" ->
  forall k, k ∈ required_keys -> P k.
Proof.
  intros ? ? ? ? k Hk. unfold required_keys in Hk.
  repeat (apply elem_of_cons in Hk as [-> | Hk]; [assumption|]).
  by apply elem_of_nil in Hk.
Qed.

Ltac names_only :=
  match goal with
  | |- forall k', _ -> k' <> ?a -> names_key ?m k' = false =>
      apply (required_keys_ind (fun k' => k' <> a -> names_key m k' = false));
      intros ?; first [done | vm_compute; reflexivity]
  end.

(** C1 (as amended).  [check] is fail-fast: once the base class has been
    checked, it raises for the first of NT, DT, F0, FORMAT that the
    parameters lack, names that key in its message and names no other
    required key. *)
Theorem check_fail_fast (base_check : M state unit) (st st' : state)
    (k : string) :
  base_check st = (Returns tt, st') ->
  first_missing (PAR st') = Some k ->
  exists msg,
    check base_check st = (Raises (PyException msg), st')
    /\ names_key msg k = true
    /\ forall k', k' ∈ required_keys -> k' <> k -> names_key msg k' = false.
Proof.
  intros Hbase Hfirst.
  unfold first_missing, required_keys, List.find in Hfirst.
  cbv [check bind in_PAR PAR_attr get when ret raise]. rewrite Hbase.
  destruct (PAR st' !! "NT") as [nt|] eqn:Hnt;
    [destruct (PAR st' !! "DT") as [dt|] eqn:Hdt;
       [destruct (PAR st' !! "F0") as [f0|] eqn:Hf0;
          [destruct (PAR st' !! "FORMAT") as [fmt|] eqn:Hfmt|]|]|];
    simpl in Hfirst; try discriminate Hfirst; injection Hfirst as <-;
    (eexists; split;
     [ simpl; rewrite ?Hnt; simpl; rewrite ?Hdt; simpl; rewrite ?Hf0; simpl;
       rewrite ?Hfmt; reflexivity
     | split; [vm_compute; reflexivity | names_only] ]).
Qed.

Lemma check_fail_fast_witness :
  exists msg,
    check (ret tt) (State {["NT" := PInt 100]} [])
    = (Raises (PyException msg), State {["NT" := PInt 100]} [])
    /\ names_key msg "DT" = true
    /\ forall k', k' ∈ required_keys -> k' <> "DT" -> names_key msg k' = false.
Proof.
  apply (check_fail_fast (ret tt) (State {["NT" := PInt 100]} [])
                         (State {["NT" := PInt 100]} []) "DT").
  - reflexivity.
  - vm_compute. reflexivity.
Defined.

(** C1 (counterexample).  With empty parameters both NT and DT are missing,
    yet the report of [check] names NT only: the check is not
    accumulate-all. *)
Lemma check_not_accumulate_all :
  ~ accumulate_all (ret tt) (State ∅ []).
Proof.
  intros H.
  specialize (H (State ∅ []) eq_refl "DT").
  assert (Hin : "DT" ∈ required_keys) by (unfold required_keys; set_solver).
  specialize (H Hin eq_refl).
  vm_compute in H. discriminate.
Qed.

(** C10.  [eval_func] raises [NameError] for the undefined name
    [Specfem3d] whatever its arguments and whatever the base class does;
    the state is untouched, so neither the base class's [eval_func] nor
    [rename_data] has been called. *)
Theorem eval_func_raises_NameError
    (base_eval_func : list pyval -> M state unit) (args : list pyval)
    (st : state) :
  eval_func base_eval_func args st
  = (Raises (NameError "name 'Specfem3d' is not defined"), st).
Proof. reflexivity. Qed.

End Specfem3D_checks.

(* ===================================================================== *)
(** * Running a command step by step *)
(* ===================================================================== *)

Lemma bind_returns {S A B} (c : M S A) (k : A -> M S B) s a s' :
  c s = (Returns a, s') -> bind c k s = k a s'.
Proof. unfold bind. by intros ->. Qed.

Lemma bind_raises {S A B} (c : M S A) (k : A -> M S B) s e s' :
  c s = (Raises e, s') -> bind c k s = (Raises e, s').
Proof. unfold bind. by intros ->. Qed.

Lemma bind_inv {S A B} (c : M S A) (k : A -> M S B) s o s' :
  bind c k s = (o, s') ->
  (exists a s1, c s = (Returns a, s1) /\ k a s1 = (o, s'))
  \/ (exists e, c s = (Raises e, s') /\ o = Raises e).
Proof.
  unfold bind. destruct (c s) as [[a|e] s1]; intros H.
  - left. eauto.
  - right. injection H as <- <-. eauto.
Qed.

Lemma for_each_nil {S A} (body : A -> M S unit) s :
  for_each [] body s = (Returns tt, s).
Proof. reflexivity. Qed.

Lemma for_each_cons {S A} (x : A) (l : list A) (body : A -> M S unit) :
  for_each (x :: l) body = bind (body x) (fun _ => for_each l body).
Proof. reflexivity. Qed.

(* ===================================================================== *)
(** * The command-line class *)
(* ===================================================================== *)

Import SeisFlows.

(** ** What commands leave alone *)

Section keeping.
Context {R : world -> world -> Prop}.
Hypothesis R_refl : forall w, R w w.
Hypothesis R_trans : forall a b c, R a b -> R b c -> R a c.

Lemma keeps_ret {A} (a : A) : keeps R (ret a).
Proof. intros w o w' [= <- <-]. apply R_refl. Qed.

Lemma keeps_raise {A} e : keeps R (@raise world A e).
Proof. intros w o w' [= <- <-]. apply R_refl. Qed.

Lemma keeps_get : keeps R get.
Proof. intros w o w' [= <- <-]. apply R_refl. Qed.

Lemma keeps_bind {A B} (c : M world A) (k : A -> M world B) :
  keeps R c -> (forall a, keeps R (k a)) -> keeps R (bind c k).
Proof.
  intros Hc Hk w o w' Hrun. apply bind_inv in Hrun as [(a & w1 & H1 & H2)|(e & H1 & _)].
  - eapply R_trans; [eapply Hc, H1 | eapply Hk, H2].
  - eapply Hc, H1.
Qed.

Lemma keeps_when b c : keeps R c -> keeps R (when b c).
Proof. intros Hc. destruct b; [done | apply keeps_ret]. Qed.

Lemma keeps_for_each {A} (l : list A) body :
  (forall x, keeps R (body x)) -> keeps R (for_each l body).
Proof.
  intros Hb. induction l as [|x l IH]; [apply keeps_ret|].
  apply keeps_bind; [apply Hb | by intros _].
Qed.

Lemma keeps_modify f : (forall w, R w (f w)) -> keeps R (modify f).
Proof. intros Hf w o w' [= <- <-]. apply Hf. Qed.
End keeping.

Ltac keeps_go refl trans prim_keeps prim :=
  repeat (first
    [ prim_keeps
    | apply (keeps_ret refl)
    | apply (keeps_raise refl)
    | apply (keeps_get refl)
    | apply (keeps_bind trans); [|intros ?]
    | apply (keeps_when refl)
    | apply (keeps_for_each refl trans); intros ?
    | apply keeps_modify; intros ?; prim
    | match goal with
      | |- keeps _ (let _ := _ in _) => cbv zeta
      | |- keeps _ (match ?x with _ => _ end) => destruct x
      | |- keeps _ (sys_exit _) => unfold sys_exit
      | |- keeps _ (print _) => unfold print
      | |- keeps _ (log _) => unfold log
      | |- keeps _ (entry_exists _) => unfold entry_exists
      | |- keeps _ (path_exists _ _) => unfold path_exists
      | |- keeps _ (read_file _) => unfold read_file
      | |- keeps _ (str_getattr _) => unfold str_getattr
      | |- keeps _ (args_getattr _) => unfold args_getattr
      | |- keeps _ (load_py _ _) => unfold load_py
      | |- keeps _ (iterate _) => unfold iterate
      end ]).

(** *** The directory *)

Lemma same_dir_refl w : same_dir w w.
Proof. done. Qed.
Lemma same_dir_trans a b c : same_dir a b -> same_dir b c -> same_dir a c.
Proof. unfold same_dir. congruence. Qed.

Lemma input_same_dir prompt : keeps same_dir (input prompt).
Proof.
  intros w o w'. unfold input. destruct (stdin w); by intros [= <- <-].
Qed.

Ltac same_dir_go :=
  keeps_go same_dir_refl same_dir_trans
           ltac:(apply input_same_dir) ltac:(done).

Lemma register_same_dir E args force : keeps same_dir (_register E args force).
Proof.
  unfold _register, precheck. same_dir_go.
Qed.

Lemma configure_prepare_same_dir E args :
  keeps same_dir (configure_prepare E args).
Proof.
  unfold configure_prepare.
  keeps_go same_dir_refl same_dir_trans
           ltac:(apply register_same_dir) ltac:(done).
Qed.


(** ** Registration *)

Lemma entry_exists_eq name w :
  entry_exists name w = (Returns (node_exists (lookup_entry name (wd w))), w).
Proof. reflexivity. Qed.

(** C9.  When the parameter file exists and its name does not end in
    [.yaml], [_register] raises [AttributeError] on the misspelt
    [endwith]; the state is untouched, so no legacy parameter or path file
    has been loaded. *)
Theorem register_legacy_raises (E : Env) (args : Args) (force : bool)
    (w : world) :
  node_exists (lookup_entry (parameter_file args) (wd w)) = true ->
  endswith (parameter_file args) ".yaml" = false ->
  _register E args force w
  = (Raises (AttributeError "'str' object has no attribute 'endwith'"), w).
Proof.
  intros Hex Hyaml. unfold _register.
  erewrite bind_returns by apply entry_exists_eq.
  rewrite Hex. erewrite bind_returns by reflexivity.
  rewrite Hyaml.
  erewrite bind_raises; [reflexivity|].
  erewrite bind_raises; reflexivity.
Qed.

Lemma register_legacy_raises_witness :
  _register Sample.E Sample.legacy_args false Sample.legacy
  = (Raises (AttributeError "'str' object has no attribute 'endwith'"),
     Sample.legacy).
Proof.
  apply (register_legacy_raises Sample.E Sample.legacy_args false
                                Sample.legacy); reflexivity.
Defined.


(** ** Cleaning *)

Lemma names_filter (k : string -> bool) (d : dir) :
  map fst (filter (fun e => k (fst e)) d) = filter (fun n => k n) (map fst d).
Proof.
  induction d as [|e d IH]; [done|].
  change (map fst (e :: d)) with (fst e :: map fst d).
  rewrite !filter_cons. destruct (decide (k e.1)); [|done].
  change (map fst (e :: filter (fun e => k e.1) d))
    with (fst e :: map fst (filter (fun e => k e.1) d)).
  by rewrite IH.
Qed.

Lemma names_remove n d :
  map fst (remove_entry n d)
  = filter (fun m => negb (String.eqb m n)) (map fst d).
Proof. apply (names_filter (fun m => negb (String.eqb m n))). Qed.

Lemma not_in_names_remove n d : n ∉ map fst (remove_entry n d).
Proof.
  rewrite names_remove. intros H. apply list_elem_of_filter in H as [H _].
  by rewrite String.eqb_refl in H.
Qed.

Lemma in_names_remove n m d :
  m <> n -> m ∈ map fst d -> m ∈ map fst (remove_entry n d).
Proof.
  intros Hne Hin. rewrite names_remove. apply list_elem_of_filter. split; [|done].
  apply negb_prop_intro. intros H. apply Is_true_true in H.
  by apply String.eqb_eq in H.
Qed.

Lemma lookup_entry_Some n d x :
  lookup_entry n d = Some x -> n ∈ map fst d.
Proof.
  induction d as [|[m y] d IH]; simpl; [done|].
  destruct (String.eqb m n) eqn:Hmn.
  - apply String.eqb_eq in Hmn as ->. intros _. apply list_elem_of_here.
  - intros H. apply list_elem_of_further. auto.
Qed.


Lemma thinned_refl d : thinned d d.
Proof.
  exists (fun _ => true). induction d as [|e d IH]; [done|].
  rewrite filter_cons, decide_True by done. f_equal. exact IH.
Qed.

Lemma thinned_trans d1 d2 d3 : thinned d1 d2 -> thinned d2 d3 -> thinned d1 d3.
Proof.
  intros [k1 ->] [k2 ->]. exists (fun n => k1 n && k2 n).
  rewrite list_filter_filter. apply list_filter_iff.
  intros e. simpl. destruct (k1 e.1), (k2 e.1); simpl; tauto.
Qed.

Lemma thinned_remove n d : thinned d (remove_entry n d).
Proof. by exists (fun m => negb (String.eqb m n)). Qed.

Lemma thinned_names d d' n : thinned d d' -> n ∈ map fst d' -> n ∈ map fst d.
Proof.
  intros [k ->]. rewrite names_filter. intros H.
  by apply list_elem_of_filter in H as [_ H].
Qed.


Lemma filter_iff_on {A} (P Q : A -> Prop)
    `{!forall x, Decision (P x), !forall x, Decision (Q x)} (l : list A) :
  (forall x, x ∈ l -> (P x <-> Q x)) -> filter P l = filter Q l.
Proof.
  induction l as [|a l IH]; intros Hall; [done|].
  assert (IH' : filter P l = filter Q l).
  { apply IH. intros x Hx. apply Hall. by apply list_elem_of_further. }
  destruct (decide (P a)) as [Ha|Ha].
  - rewrite !filter_cons_True; [by rewrite IH'| |done].
    apply Hall; [apply list_elem_of_here | done].
  - rewrite !filter_cons_False; [done| |done].
    intros HQ. apply Ha, Hall; [apply list_elem_of_here | done].
Qed.

(** What [glob] finds in a thinned directory: what it found before and is
    still there, in the same order. *)
Lemma glob_thinned pattern d d' :
  thinned d d' ->
  filter (fnmatch pattern) (map fst d')
  = filter (fun n => n ∈ map fst d') (filter (fnmatch pattern) (map fst d)).
Proof.
  intros [k ->]. rewrite names_filter, !list_filter_filter.
  apply filter_iff_on. intros n Hn. rewrite list_elem_of_filter. tauto.
Qed.

Section sweeping.
Variable wdir : string.

Lemma sweep_names_thinned ns d o d' :
  sweep_names wdir ns d = (o, d') -> thinned d d'.
Proof.
  revert d. induction ns as [|n ns IH]; intros d; simpl.
  - intros [= _ <-]. apply thinned_refl.
  - destruct (guards_pass wdir d n).
    + intros H. eapply thinned_trans; [apply thinned_remove | eauto].
    + intros [= _ <-]. apply thinned_refl.
Qed.

(** After a sweep that succeeded none of the swept names is left. *)
Lemma sweep_names_gone ns d d' n :
  sweep_names wdir ns d = (Returns tt, d') -> n ∈ ns -> n ∉ map fst d'.
Proof.
  revert d. induction ns as [|m ns IH]; intros d; simpl.
  - intros _ Hn. by apply elem_of_nil in Hn.
  - destruct (guards_pass wdir d m); [|done].
    intros Hs Hn Hin. apply elem_of_cons in Hn as [->|Hn]; [|by eapply IH].
    apply sweep_names_thinned in Hs.
    by eapply not_in_names_remove, thinned_names.
Qed.

(** Sweeping again, over what is left of the names, stops where the first
    sweep stopped and removes nothing. *)
Lemma sweep_names_again ns d o d' :
  (forall n, n ∈ ns ->
             contains (path_join wdir n) "parameters.yaml" = true ->
             n ∈ map fst d) ->
  sweep_names wdir ns d = (o, d') ->
  sweep_names wdir (filter (fun n => n ∈ map fst d') ns) d' = (o, d').
Proof.
  revert d. induction ns as [|n ns IH]; intros d Hin; simpl;
    [by intros [= <- <-]|].
  destruct (guards_pass wdir d n) eqn:Hg.
  - intros Hs. rewrite filter_cons_False.
    + apply (IH (remove_entry n d)); [|done].
      intros m Hm Hbad. apply in_names_remove.
      * intros Heq. subst m. unfold guards_pass in Hg.
        rewrite Hbad in Hg. discriminate Hg.
      * apply Hin; [by apply list_elem_of_further | done].
    + intros Hn. apply sweep_names_thinned in Hs.
      by eapply not_in_names_remove, thinned_names.
  - intros [= <- <-]. rewrite filter_cons_True.
    + simpl. by rewrite Hg.
    + unfold guards_pass in Hg. apply andb_false_iff in Hg as [Hg|Hg].
      * apply negb_false_iff in Hg. apply Hin; [apply list_elem_of_here|done].
      * apply negb_false_iff in Hg. unfold is_link in Hg.
        destruct (lookup_entry n d) eqn:Hl; [|done].
        by eapply lookup_entry_Some.
Qed.

(** [sweep] is idempotent, failures included: a second pass stops at the
    same assertion, or succeeds as the first did, and removes nothing. *)
Lemma sweep_again ps d o d' :
  sweep wdir ps d = (o, d') ->
  thinned d d' /\ sweep wdir ps d' = (o, d').
Proof.
  revert d. induction ps as [|p ps IH]; intros d; simpl.
  - intros [= <- <-]. split; [apply thinned_refl | done].
  - destruct (sweep_names wdir (filter (fnmatch p) (map fst d)) d)
      as [[[]|e] d1] eqn:Hs.
    + intros Hrest. destruct (IH _ Hrest) as [Hthin Hagain].
      pose proof (sweep_names_thinned _ _ _ _ Hs) as Hthin1.
      assert (Hthin2 : thinned d d') by (by eapply thinned_trans).
      split; [done|].
      assert (Hnone : filter (fnmatch p) (map fst d') = []).
      { destruct (filter (fnmatch p) (map fst d')) as [|n l] eqn:Hf; [done|].
        assert (Hn : n ∈ filter (fnmatch p) (map fst d'))
          by (rewrite Hf; apply list_elem_of_here).
        apply list_elem_of_filter in Hn as [Hmatch Hn].
        exfalso. eapply (sweep_names_gone _ _ _ n Hs).
        - apply list_elem_of_filter. split; [done|]. by eapply thinned_names.
        - by eapply thinned_names. }
      by rewrite Hnone.
    + intros [= <- <-].
      pose proof (sweep_names_thinned _ _ _ _ Hs) as Hthin1.
      split; [done|].
      rewrite (glob_thinned p d d1) by done.
      rewrite (sweep_names_again _ d (Raises e) d1); [reflexivity| |exact Hs].
      intros n Hn _. by apply list_elem_of_filter in Hn as [_ Hn].
Qed.
End sweeping.


Lemma with_wd_same w : with_wd (wd w) w = w.
Proof. by destruct w. Qed.

Lemma with_wd_twice d d' w : with_wd d' (with_wd d w) = with_wd d' w.
Proof. done. Qed.

Lemma set_wd_with_wd f w : set_wd f w = with_wd (f (wd w)) w.
Proof. done. Qed.

Section cleaning.
Variable args : Args.


Lemma clean_entry_eq name w :
  clean_entry args name w
  = if guards_pass (workdir args) (wd w) name
    then (Returns tt, with_wd (remove_entry name (wd w)) w)
    else (Raises AssertionError, w).
Proof.
  unfold clean_entry, guards_pass, is_link.
  destruct (contains _ _); [done|].
  cbv [bind assert negb islink get ret raise unix_rm modify andb].
  by destruct (lookup_entry name (wd w)) as [[|]|].
Qed.

Lemma clean_names_sweep ns w :
  for_each ns (clean_entry args) w
  = (fst (sweep_names (workdir args) ns (wd w)),
     with_wd (snd (sweep_names (workdir args) ns (wd w))) w).
Proof.
  revert w. induction ns as [|n ns IH]; intros w; simpl.
  - by rewrite with_wd_same.
  - unfold bind. rewrite clean_entry_eq.
    destruct (guards_pass _ _ _).
    + by rewrite IH.
    + simpl. by rewrite with_wd_same.
Qed.

Lemma clean_patterns_sweep ps w :
  for_each ps (fun pattern =>
     found <- glob pattern ;; for_each found (clean_entry args)) w
  = (fst (sweep (workdir args) ps (wd w)),
     with_wd (snd (sweep (workdir args) ps (wd w))) w).
Proof.
  revert w. induction ps as [|p ps IH]; intros w; simpl.
  - by rewrite with_wd_same.
  - unfold bind at 1. unfold bind at 1. unfold glob at 1.
    cbv [bind get ret]. rewrite clean_names_sweep.
    destruct (sweep_names _ _ _) as [[[]|e] d1]; simpl; [|done].
    by rewrite IH.
Qed.


Lemma clean_result force w o w' :
  confirmed force w ->
  clean args force w = (o, w') ->
  sweep (workdir args) delete (wd w) = (o, wd w').
Proof.
  intros Hc.
  change (clean args force)
    with (check <- (if force then ret "y" else input clean_prompt) ;;
          when (String.eqb check "y")
               (for_each delete (fun pattern =>
                  found <- glob pattern ;; for_each found (clean_entry args)))).
  destruct force.
  - erewrite bind_returns by reflexivity.
    rewrite String.eqb_refl. unfold when.
    rewrite clean_patterns_sweep.
    destruct (sweep _ delete _) as [o' d']. simpl. by intros [= <- <-].
  - destruct Hc as [|Hc]; [done|].
    unfold bind at 1. unfold input.
    destruct (stdin w) as [|a rest]; [done|].
    simpl in Hc. injection Hc as ->.
    rewrite String.eqb_refl. unfold when.
    rewrite clean_patterns_sweep. simpl wd.
    destruct (sweep _ delete _) as [o' d']. simpl. by intros [= <- <-].
Qed.

(** C5 (as amended).  Cleaning twice, with confirmation both times, leaves
    the directory as cleaning once does: the second run removes nothing, and
    it ends as the first did, without error when the first ended without
    error and with the same failed assertion otherwise. *)
Theorem clean_twice force w o1 w1 o2 w2 :
  confirmed force w ->
  clean args force w = (o1, w1) ->
  confirmed force w1 ->
  clean args force w1 = (o2, w2) ->
  wd w2 = wd w1 /\ o2 = o1.
Proof.
  intros Hc1 H1 Hc2 H2.
  apply clean_result in H1; [|done]. apply clean_result in H2; [|done].
  apply sweep_again in H1 as [_ H1]. rewrite H1 in H2.
  by injection H2 as <- <-.
Qed.
End cleaning.

Lemma lookup_remove_ne n m d :
  n <> m -> lookup_entry n (remove_entry m d) = lookup_entry n d.
Proof.
  intros Hne. unfold remove_entry.
  induction d as [|[k x] d IH]; [done|].
  rewrite filter_cons. simpl.
  destruct (String.eqb k m) eqn:Hkm; simpl.
  - apply String.eqb_eq in Hkm as ->.
    assert (String.eqb m n = false) as -> by (apply String.eqb_neq; congruence).
    exact IH.
  - destruct (String.eqb k n); [done | exact IH].
Qed.

Section frame.
Variable wdir : string.

Lemma sweep_names_frame ns d o d' n :
  sweep_names wdir ns d = (o, d') ->
  n ∉ ns \/ shielded wdir n ->
  lookup_entry n d' = lookup_entry n d.
Proof.
  revert d. induction ns as [|m ns IH]; intros d; simpl.
  - by intros [= _ <-].
  - destruct (guards_pass wdir d m) eqn:Hg; [|by intros [= _ <-]].
    intros Hs Hn.
    assert (Hne : n <> m).
    { intros ->. destruct Hn as [Hn|Hn].
      - apply Hn, list_elem_of_here.
      - unfold guards_pass, shielded in *. rewrite Hn in Hg. discriminate. }
    rewrite (IH _ Hs).
    + by apply lookup_remove_ne.
    + destruct Hn as [Hn|Hn]; [left|by right].
      intros Hin. by apply Hn, list_elem_of_further.
Qed.

Lemma sweep_frame ps d o d' n :
  sweep wdir ps d = (o, d') ->
  (forall p, p ∈ ps -> fnmatch p n = false) \/ shielded wdir n ->
  lookup_entry n d' = lookup_entry n d.
Proof.
  revert d. induction ps as [|p ps IH]; intros d; simpl.
  - by intros [= _ <-].
  - destruct (sweep_names wdir _ d) as [[[]|e] d1] eqn:Hs; intros Hrest Hn.
    + rewrite (IH _ Hrest).
      * eapply sweep_names_frame; [exact Hs|].
        destruct Hn as [Hn|Hn]; [left|by right].
        intros Hin. apply list_elem_of_filter in Hin as [Hm _].
        rewrite Hn in Hm; [done | apply list_elem_of_here].
      * destruct Hn as [Hn|Hn]; [left|by right].
        intros q Hq. by apply Hn, list_elem_of_further.
    + injection Hrest as <- <-.
      eapply sweep_names_frame; [exact Hs|].
      destruct Hn as [Hn|Hn]; [left|by right].
      intros Hin. apply list_elem_of_filter in Hin as [Hm _].
      rewrite Hn in Hm; [done | apply list_elem_of_here].
Qed.
End frame.

Section clean_any.
Variable args : Args.

(** What any run of [clean] comes to: the directory is left alone, or
    swept; the process keeps what it holds. *)
Lemma clean_cases force w o w' :
  clean args force w = (o, w') ->
  (wd w' = wd w \/ sweep (workdir args) delete (wd w) = (o, wd w'))
  /\ extern w' = extern w
  /\ sys_parameters w' = sys_parameters w
  /\ sys_paths w' = sys_paths w
  /\ self_paths w' = self_paths w
  /\ self_parameters w' = self_parameters w.
Proof.
  change (clean args force)
    with (check <- (if force then ret "y" else input clean_prompt) ;;
          when (String.eqb check "y")
               (for_each delete (fun pattern =>
                  found <- glob pattern ;; for_each found (clean_entry args)))).
  destruct force.
  - erewrite bind_returns by reflexivity.
    rewrite String.eqb_refl. unfold when.
    rewrite clean_patterns_sweep.
    destruct (sweep _ delete _) as [o' d']. simpl.
    intros [= <- <-]. simpl. auto 10.
  - unfold bind at 1. unfold input.
    destruct (stdin w) as [|a rest]; [intros [= <- <-]; simpl; auto 10|].
    destruct (String.eqb a "y"); unfold when.
    + rewrite clean_patterns_sweep. simpl wd.
      destruct (sweep _ delete _) as [o' d']. simpl.
      intros [= <- <-]. simpl. auto 10.
    + intros [= <- <-]. simpl. auto 10.
Qed.

(** [clean] removes nothing but what its four patterns match, and never
    an entry whose path holds the text [parameters.yaml]. *)
Lemma clean_frame force w o w' name :
  clean args force w = (o, w') ->
  is_artifact name = false
  \/ contains (path_join (workdir args) name) "parameters.yaml" = true ->
  lookup_entry name (wd w') = lookup_entry name (wd w).
Proof.
  intros Hc Hn. apply clean_cases in Hc as [[->|Hs] _]; [done|].
  eapply sweep_frame; [exact Hs|].
  destruct Hn as [Hn|Hn]; [left|by right].
  intros p Hp. unfold is_artifact in Hn.
  destruct (fnmatch p name) eqn:Hm; [|done].
  assert (existsb (fun pattern => fnmatch pattern name) delete = true) as Hex.
  { apply existsb_exists. exists p. split; [|done].
    by apply list_elem_of_In. }
  congruence.
Qed.

Lemma clean_keeps_default_parameter_file force w o w' :
  clean args force w = (o, w') ->
  lookup_entry "parameters.yaml" (wd w')
  = lookup_entry "parameters.yaml" (wd w).
Proof. intros Hc. eapply clean_frame; [exact Hc|]. by left. Qed.

Lemma clean_new_process force w o w' :
  clean args force w = (o, w') -> new_process w = w -> new_process w' = w'.
Proof.
  intros Hc Hw. apply clean_cases in Hc as (_ & _ & H1 & H2 & H3 & H4).
  destruct w, w'. simpl in *. unfold new_process, boot in *. simpl in *.
  injection Hw as -> -> -> ->. by subst.
Qed.
End clean_any.


Lemma clean_twice_witness :
  wd (snd (clean Sample.args true
             (snd (clean Sample.args true Sample.after_run))))
  = wd (snd (clean Sample.args true Sample.after_run))
  /\ fst (clean Sample.args true
            (snd (clean Sample.args true Sample.after_run)))
     = fst (clean Sample.args true Sample.after_run).
Proof.
  apply (clean_twice Sample.args true Sample.after_run).
  - left. reflexivity.
  - apply surjective_pairing.
  - left. reflexivity.
  - apply surjective_pairing.
Defined.

(** C5 (counterexample).  With the scratch area a symbolic link, [clean]
    fails on its assertion, and fails again when run a second time: the
    second run does not complete without error. *)
Lemma clean_twice_fails_on_link :
  fst (clean Sample.args true
         (snd (clean Sample.args true Sample.linked_scratch)))
  = Raises AssertionError.
Proof. vm_compute. reflexivity. Qed.

(** C6.  A parameter file called [output.yaml] (option [-p]) matches the
    pattern [output*] and passes both assertions: [clean] deletes it. *)
Theorem clean_deletes_renamed_parameter_file :
  file_content (parameter_file Sample.renamed_args) (wd Sample.renamed)
  = Some Sample.document
  /\ clean Sample.renamed_args true Sample.renamed
     = (Returns tt, with_wd [] Sample.renamed)
  /\ lookup_entry (parameter_file Sample.renamed_args)
       (wd (snd (clean Sample.renamed_args true Sample.renamed))) = None.
Proof. vm_compute. auto. Qed.


(** ** Restarting *)

(** C7 (as amended).  Whenever the cleaning ends without error, [restart]
    on a working directory ends in the same state, with the same events on
    record (the hand-off to the Stage Driver among them), as the two
    commands [clean] and [submit] run one after the other with the same
    force flag, each in a process of its own. *)
Theorem restart_is_clean_then_submit (E : Env) (args : Args) (force : bool)
    (d : dir) (ext : gset string) (input : list string) (out : list event)
    (w1 : world) :
  clean args force (boot d ext input out) = (Returns tt, w1) ->
  restart E args force (boot d ext input out)
  = clean_then_submit E args force (boot d ext input out).
Proof.
  intros Hc. unfold restart, clean_then_submit, bind. rewrite Hc. simpl.
  by rewrite (clean_new_process _ _ _ _ _ Hc).
Qed.

Lemma restart_is_clean_then_submit_witness :
  restart Sample.E Sample.args true Sample.after_run
  = clean_then_submit Sample.E Sample.args true Sample.after_run.
Proof.
  apply (restart_is_clean_then_submit Sample.E Sample.args true
           (wd Sample.after_run) ∅ [] []
           (snd (clean Sample.args true Sample.after_run))).
  vm_compute. reflexivity.
Defined.

(** C7 (counterexample).  With the scratch area a symbolic link, [clean]
    fails on its assertion once it has removed the output directory.
    [restart] stops there: nothing is handed to the Stage Driver.  The two
    commands run one after the other go on: [submit] hands the workflow
    off. *)
Lemma restart_stops_where_clean_fails :
  fst (restart Sample.E Sample.args true Sample.linked_scratch_with_data)
  = Raises AssertionError
  /\ handed_off
       (snd (restart Sample.E Sample.args true
               Sample.linked_scratch_with_data)) = None
  /\ fst (clean_then_submit Sample.E Sample.args true
            Sample.linked_scratch_with_data) = Returns tt
  /\ is_Some (handed_off
                (snd (clean_then_submit Sample.E Sample.args true
                        Sample.linked_scratch_with_data))).
Proof.
  split; [by vm_compute|]. split; [by vm_compute|].
  split; [by vm_compute|]. vm_compute. eauto.
Qed.

(** ** Setting up *)

(** C3.  [setup] without [--overwrite], on a working directory that holds
    a parameter file: the condition is reported and the operator asked, the
    operator answers [n], and the parameter file is replaced by the blank
    template all the same. *)
Theorem setup_overwrites_when_declined :
  let w' := snd (setup Sample.E Sample.args false false Sample.declined) in
  file_content "parameters.yaml" (wd Sample.declined) = Some Sample.document
  /\ trace w' =
       [Print (newline +:+ tab +:+
               "Parameter file 'parameters.yaml' already exists" +:+ newline);
        Prompt (tab +:+ "Overwrite with blank file? (y/[n]): ")]
  /\ stdin w' = []
  /\ file_content "parameters.yaml" (wd w') = Some (template Sample.E)
  /\ wd w' <> wd Sample.declined.
Proof. vm_compute. repeat split; auto. discriminate. Qed.

(** ** Configuring *)

(** *** Entries *)

Lemma lookup_set_eq n x d : lookup_entry n (set_entry n x d) = Some x.
Proof.
  induction d as [|[m y] d IH]; simpl.
  - by rewrite String.eqb_refl.
  - destruct (String.eqb m n) eqn:Hmn; simpl; rewrite Hmn; [done | exact IH].
Qed.

Lemma lookup_set_ne n m x d :
  n <> m -> lookup_entry n (set_entry m x d) = lookup_entry n d.
Proof.
  intros Hne. induction d as [|[k y] d IH]; simpl.
  - by assert (String.eqb m n = false) as -> by (apply String.eqb_neq; congruence).
  - destruct (String.eqb k m) eqn:Hkm; simpl.
    + apply String.eqb_eq in Hkm as ->.
      by assert (String.eqb m n = false) as -> by (apply String.eqb_neq; congruence).
    + destruct (String.eqb k n); [done | exact IH].
Qed.

Lemma lookup_remove_eq n d : lookup_entry n (remove_entry n d) = None.
Proof.
  unfold remove_entry. induction d as [|[k y] d IH]; [done|].
  rewrite filter_cons. simpl. destruct (String.eqb k n) eqn:Hkn; simpl.
  - exact IH.
  - by rewrite Hkn.
Qed.

Lemma dot_name_differs (s : string) : "." +:+ s <> s.
Proof.
  intros H.
  assert (Hlen : String.length ("." +:+ s) = S (String.length s))
    by reflexivity.
  rewrite H in Hlen. lia.
Qed.













Section restoring.
Variable E : Env.
Variable args : Args.

Lemma store_file_regular name text old w :
  file_content name (wd w) = Some old ->
  exists x, store_file name text w
            = (Returns tt, with_wd (set_entry name x (wd w)) w)
            /\ resolve (Some x) = Some (Regular text).
Proof.
  unfold file_content, store_file, bind, get, modify.
  destruct (lookup_entry name (wd w)) as [[[c|]|[[c|]|]]|]; simpl; try done;
    intros _; eexists; split; reflexivity.
Qed.


End restoring.

(** [configure] is [configure_with] on the template writing, and every
    exception that writing raises by itself is an [Exception]. *)
Lemma configure_eq E args :
  configure E args = configure_with E args (write_template E args).
Proof. reflexivity. Qed.



(** ** Submitting *)

(** *** Launches *)

Lemma nothing_launched_refl w : nothing_launched w w.
Proof. exists []. by rewrite app_nil_r. Qed.

Lemma nothing_launched_trans a b c :
  nothing_launched a b -> nothing_launched b c -> nothing_launched a c.
Proof.
  intros (e1 & H1 & F1) (e2 & H2 & F2). exists (e1 ++ e2). split.
  - by rewrite H2, H1, app_assoc.
  - by apply Forall_app.
Qed.

Lemma nothing_launched_event e w :
  is_launch e = false -> nothing_launched w (add_event e w).
Proof. intros He. exists [e]. split; [done|]. by repeat constructor. Qed.

Lemma input_nothing_launched prompt : keeps nothing_launched (input prompt).
Proof.
  intros w o w'. unfold input.
  destruct (stdin w); intros [= <- <-]; by apply nothing_launched_event.
Qed.

Ltac quiet_prim :=
  first [ apply nothing_launched_refl
        | apply nothing_launched_event; reflexivity
        | exists []; split; [by rewrite app_nil_r | constructor] ].

Ltac quiet_go prim_keeps :=
  keeps_go nothing_launched_refl nothing_launched_trans
           ltac:(first [apply input_nothing_launched | prim_keeps])
           ltac:(quiet_prim).

Lemma store_file_nothing_launched name text :
  keeps nothing_launched (store_file name text).
Proof. unfold store_file. quiet_go fail. Qed.

Lemma par_loop_nothing_launched args parameter value skip seen rest :
  keeps nothing_launched (par_loop args parameter value skip seen rest).
Proof.
  revert seen. induction rest as [|line rest IH]; intros seen; simpl.
  - quiet_go fail.
  - destruct (par_match parameter line); [|apply IH].
    quiet_go ltac:(apply store_file_nothing_launched).
Qed.

Lemma par_nothing_launched args parameter value skip :
  keeps nothing_launched (par args parameter value skip).
Proof.
  unfold par. quiet_go ltac:(apply par_loop_nothing_launched).
Qed.

Lemma register_nothing_launched E args force :
  keeps nothing_launched (_register E args force).
Proof. unfold _register, precheck. quiet_go fail. Qed.

Lemma config_logging_nothing_launched args :
  keeps nothing_launched (_config_logging args).
Proof. unfold _config_logging, set_level, open_append. quiet_go fail. Qed.

Lemma submit_register_nothing_launched E args stop_after force :
  keeps nothing_launched (submit_register E args stop_after force).
Proof.
  unfold submit_register.
  quiet_go ltac:(first [ apply par_nothing_launched
                       | apply register_nothing_launched
                       | apply config_logging_nothing_launched ]).
Qed.

(** *** The paths [submit] requires *)

Section required_paths.
Variable E : Env.
Variable args : Args.

Lemma paths_dont_exist_eq paths keys w :
  paths_dont_exist args paths keys w
  = (Returns (missing_paths args w paths keys), w).
Proof.
  induction keys as [|key keys IH]; [done|].
  simpl. unfold bind at 1.
  assert (Hkey :
    (match paths !! key with
     | Some (Some path) =>
         if negb (String.eqb path "")
         then found <- path_exists args path ;;
              ret (if found then [] else [path])
         else ret []
     | _ => ret []
     end) w
    = (Returns (match paths !! key with
                | Some (Some path) =>
                    if negb (String.eqb path "")
                    then (if on_disk args w path then [] else [path])
                    else []
                | _ => []
                end), w)).
  { destruct (paths !! key) as [[path|]|]; [|done|done].
    by destruct (negb (String.eqb path "")). }
  rewrite Hkey. unfold bind. by rewrite IH.
Qed.

Lemma missing_paths_spec paths keys w path :
  path ∈ missing_paths args w paths keys
  <-> exists key, key ∈ keys /\ paths !! key = Some (Some path)
                  /\ path <> "" /\ on_disk args w path = false.
Proof.
  unfold missing_paths. rewrite list_elem_of_In, in_flat_map. split.
  - intros (key & Hkey & Hin). exists key.
    apply list_elem_of_In in Hkey. split; [done|].
    destruct (paths !! key) as [[p|]|]; [|done|done].
    destruct (String.eqb p "") eqn:Hp; [done|]. simpl in Hin.
    destruct (on_disk args w p) eqn:Hd; [done|].
    destruct Hin as [->|[]]. apply String.eqb_neq in Hp. done.
  - intros (key & Hkey & Hp & Hne & Hd). exists key.
    apply list_elem_of_In in Hkey. split; [done|]. rewrite Hp.
    apply String.eqb_neq in Hne. rewrite Hne, Hd. simpl. by left.
Qed.

Lemma print_each (f : string -> string) l w :
  for_each l (fun x => print (f x)) w
  = (Returns tt, add_events (map (fun x => Print (f x)) l) w).
Proof.
  revert w. induction l as [|x l IH]; intros w; [done|].
  simpl. unfold bind. unfold print at 1, log, modify. by rewrite IH.
Qed.

Lemma trace_add_events evs w : trace (add_events evs w) = trace w ++ evs.
Proof.
  revert w. induction evs as [|e evs IH]; intros w; simpl.
  - by rewrite app_nil_r.
  - rewrite IH. simpl. by rewrite <- app_assoc.
Qed.

Lemma wd_add_events evs w : wd (add_events evs w) = wd w.
Proof.
  revert w. induction evs as [|e evs IH]; intros w; simpl; [done|].
  by rewrite IH.
Qed.

Lemma submit_check_paths_missing w paths m ms :
  self_paths w = Some paths ->
  missing_paths args w paths REQ_PATHS = m :: ms ->
  submit_check_paths args w
  = (Raises (SystemExit PNone), add_events (missing_report (m :: ms)) w).
Proof.
  intros Hp Hm. unfold submit_check_paths, bind at 1, get. rewrite Hp.
  erewrite bind_returns by apply paths_dont_exist_eq. rewrite Hm.
  erewrite bind_returns by reflexivity.
  erewrite bind_returns by apply print_each.
  erewrite bind_returns by reflexivity.
  unfold sys_exit, raise, missing_report, add_events, modify, print, log.
  simpl. by rewrite fold_left_app.
Qed.

(** C8 (as amended).  When the steps of [submit] that come before the
    check of the paths have succeeded on a parameter file of ASCII text (the
    resetting of [RESUME_FROM], the setting of [STOP_AFTER] when asked for,
    the registration with its precheck, the configuration of the log), and
    some required path is registered (neither null nor empty) and is not on
    disk, [submit] exits after printing the paths that do not exist:
    exactly the required paths that are registered and not on disk.
    Nothing has been launched by then: no registry built, no job
    started. *)
Theorem submit_reports_missing_paths stop_after force w text w1 paths key
    path :
  file_content (parameter_file args) (wd w) = Some text ->
  isascii text = true ->
  submit_register E args stop_after force w = (Returns tt, w1) ->
  self_paths w1 = Some paths ->
  key ∈ REQ_PATHS ->
  paths !! key = Some (Some path) ->
  path <> "" ->
  on_disk args w1 path = false ->
  exists missing w2,
    submit E args stop_after force w = (Raises (SystemExit PNone), w2)
    /\ trace w2 = trace w1 ++ missing_report missing
    /\ wd w2 = wd w1
    /\ (forall p, p ∈ missing <->
          exists k, k ∈ REQ_PATHS /\ paths !! k = Some (Some p)
                    /\ p <> "" /\ on_disk args w1 p = false)
    /\ nothing_launched w w2.
Proof.
  intros _ _ Hreg Hpaths Hkey Hpath Hne Hdisk.
  assert (Hin : path ∈ missing_paths args w1 paths REQ_PATHS)
    by (apply missing_paths_spec; eauto 6).
  destruct (missing_paths args w1 paths REQ_PATHS) as [|m ms] eqn:Hm;
    [by apply elem_of_nil in Hin|].
  exists (m :: ms), (add_events (missing_report (m :: ms)) w1).
  split; [|split; [|split; [|split]]].
  - unfold submit. erewrite bind_returns by exact Hreg.
    erewrite bind_raises; [done|].
    by eapply submit_check_paths_missing.
  - apply trace_add_events.
  - apply wd_add_events.
  - intros p. rewrite <- Hm. apply missing_paths_spec.
  - eapply nothing_launched_trans.
    + eapply submit_register_nothing_launched, Hreg.
    + exists (missing_report (m :: ms)). split; [apply trace_add_events|].
      unfold missing_report. constructor; [done|].
      apply Forall_app. split; [|by repeat constructor].
      apply Forall_forall. intros e He.
      apply list_elem_of_fmap in He as (p & -> & _). done.
Qed.
End required_paths.

Lemma submit_reports_missing_paths_witness :
  exists missing w2,
    submit Sample.E Sample.args None true Sample.no_data
    = (Raises (SystemExit PNone), w2)
    /\ trace w2
       = trace (snd (submit_register Sample.E Sample.args None true
                       Sample.no_data)) ++ missing_report missing
    /\ wd w2
       = wd (snd (submit_register Sample.E Sample.args None true
                    Sample.no_data))
    /\ (forall p, p ∈ missing <->
          exists k, k ∈ REQ_PATHS
                    /\ format_paths Sample.E
                         (<["WORKDIR" := PStr "/work"]>
                            {["DATA" := PStr "/data"]}) !! k
                       = Some (Some p)
                    /\ p <> ""
                    /\ on_disk Sample.args
                         (snd (submit_register Sample.E Sample.args None true
                                 Sample.no_data)) p = false)
    /\ nothing_launched Sample.no_data w2.
Proof.
  apply (submit_reports_missing_paths Sample.E Sample.args None true
           Sample.no_data Sample.document _ _ "DATA" "/data").
  - reflexivity.
  - vm_compute. reflexivity.
  - vm_compute. reflexivity.
  - vm_compute. reflexivity.
  - unfold REQ_PATHS. set_solver.
  - vm_compute. reflexivity.
  - discriminate.
  - vm_compute. reflexivity.
Defined.

(** C8 (counterexample).  The parameter file gives the required path
    [DATA], which is not on disk, and has no [RESUME_FROM] entry.  [submit]
    exits at its first step, on the entry it cannot find: the state is as
    it was, so the missing path has not been reported. *)
Lemma submit_exits_before_the_report :
  document_paths
    (loadyaml ("TITLE: run" +:+ newline +:+
               "PRECHECK:" +:+ newline +:+
               "    - TITLE" +:+ newline +:+
               "PATHS:" +:+ newline +:+
               "    DATA: /data" +:+ newline)) !! "DATA"
  = Some (PStr "/data")
  /\ on_disk Sample.args Sample.no_resume_from "/data" = false
  /\ submit Sample.E Sample.args None true Sample.no_resume_from
     = (Raises (SystemExit
                  (PStr (newline +:+ tab +:+
                         "'RESUME_FROM' not found in parameter file"
                         +:+ newline))),
        Sample.no_resume_from)
  /\ trace Sample.no_resume_from = [].
Proof.
  split; [by vm_compute|]. split; [by vm_compute|].
  split; [by vm_compute|]. reflexivity.
Qed.

(** ** Handing off to the Stage Driver *)

(** ** Strings *)

Lemma app_cons c a b : String c a +:+ b = String c (a +:+ b).
Proof. reflexivity. Qed.

Lemma app_nil b : "" +:+ b = b.
Proof. reflexivity. Qed.

Lemma app_nil_r_str a : a +:+ "" = a.
Proof. induction a as [|c a IH]; [done|]. by rewrite ?app_cons, IH. Qed.

Lemma app_assoc_str a b c : (a +:+ b) +:+ c = a +:+ (b +:+ c).
Proof. induction a as [|x a IH]; [done|]. by rewrite ?app_cons, IH. Qed.

Lemma length_app_str a b :
  String.length (a +:+ b) = String.length a + String.length b.
Proof. induction a as [|x a IH]; [done|]. rewrite ?app_cons. simpl. by rewrite IH. Qed.

Lemma all_chars_app p a b :
  all_chars p (a +:+ b) = all_chars p a && all_chars p b.
Proof.
  induction a as [|x a IH]; [done|]. rewrite ?app_cons. simpl.
  by rewrite IH, andb_assoc.
Qed.

Lemma prefix_app a b : String.prefix a (a +:+ b) = true.
Proof.
  induction a as [|x a IH]; [by destruct b|]. rewrite ?app_cons. simpl.
  destruct (ascii_dec x x); [exact IH | done].
Qed.

Lemma prefix_split a s : String.prefix a s = true -> exists r, s = a +:+ r.
Proof.
  revert s. induction a as [|x a IH]; intros s.
  - intros _. by exists s.
  - destruct s as [|y s]; simpl; [done|].
    destruct (ascii_dec x y) as [->|]; [|done].
    intros H. destruct (IH _ H) as [r ->]. by exists r.
Qed.

Lemma prefix_length a s : String.prefix a s = true -> String.length a <= String.length s.
Proof. intros H. apply prefix_split in H as [r ->]. rewrite length_app_str. lia. Qed.

(** *** [in] on strings of the same length *)

Lemma contains_length s sub :
  contains s sub = true -> String.length sub <= String.length s.
Proof.
  induction s as [|c s IH].
  - destruct sub; simpl; [lia | done].
  - change (contains (String c s) sub)
      with (String.prefix sub (String c s) || contains s sub).
    intros H. apply orb_true_iff in H as [H|H].
    + by apply prefix_length in H.
    + apply IH in H. simpl. lia.
Qed.

Lemma contains_short s sub :
  contains s sub = true -> String.length s <= String.length sub -> s = sub.
Proof.
  intros Hc Hl. destruct s as [|c s].
  - by destruct sub.
  - change (contains (String c s) sub)
      with (String.prefix sub (String c s) || contains s sub) in Hc.
    apply orb_true_iff in Hc as [Hc|Hc].
    + apply prefix_split in Hc as [r Hr]. rewrite Hr in *.
      rewrite length_app_str in Hl.
      destruct r; [by rewrite app_nil_r_str|]. simpl in Hl. lia.
    + apply contains_length in Hc. simpl in Hl. lia.
Qed.

(** *** Slices and strips *)

Lemma length_slice_to n s : String.length (slice_to n s) <= n.
Proof.
  revert s. induction n as [|n IH]; intros [|c s]; simpl; try lia.
  specialize (IH s). lia.
Qed.

Lemma slice_to_split n s : exists r, s = slice_to n s +:+ r.
Proof.
  revert s. induction n as [|n IH]; intros [|c s]; simpl; eauto.
  destruct (IH s) as [r Hr]. exists r. by rewrite ?app_cons, <- Hr.
Qed.

Lemma lstrip_split s :
  exists ws, s = ws +:+ lstrip s /\ all_chars isspace ws = true.
Proof.
  induction s as [|c s IH]; simpl.
  - by exists "".
  - destruct (isspace c) eqn:Hc.
    + destruct IH as (ws & Hs & Hws). exists (String c ws).
      rewrite ?app_cons, <- Hs. simpl. by rewrite Hc, Hws.
    + by exists "".
Qed.

Lemma lstrip_spaces ws s :
  all_chars isspace ws = true -> lstrip (ws +:+ s) = lstrip s.
Proof.
  induction ws as [|c ws IH]; [done|]. simpl. rewrite ?app_cons.
  intros H. apply andb_true_iff in H as [Hc Hws]. simpl. rewrite Hc. auto.
Qed.

Lemma rstrip_split s : exists r, s = rstrip s +:+ r.
Proof.
  induction s as [|c s IH]; simpl.
  - by exists "".
  - destruct IH as [r Hr]. destruct (rstrip s) as [|d t] eqn:Ht.
    + destruct (isspace c).
      * by exists (String c s).
      * exists s. done.
    + exists r. by rewrite Hr at 1.
Qed.

(** The test of [par] finds the parameter at the start of the line, after
    white space only. *)
Lemma par_match_split key line :
  par_match key line = true ->
  exists ws rest,
    line = ws +:+ (key +:+ ":") +:+ rest
    /\ all_chars isspace ws = true
    /\ exists r, strip line = (key +:+ ":") +:+ r.
Proof.
  unfold par_match. intros H. apply andb_true_iff in H as [H _].
  apply contains_short in H.
  2:{ etrans; [apply length_slice_to|].
      rewrite length_app_str. simpl. lia. }
  destruct (slice_to_split (String.length key + 1) (strip line)) as [r1 Hr1].
  rewrite H in Hr1. unfold strip in Hr1.
  destruct (rstrip_split (lstrip line)) as [r2 Hr2]. rewrite Hr1 in Hr2.
  destruct (lstrip_split line) as (ws & Hl & Hws).
  exists ws, (r1 +:+ r2). split; [|split; [done|]].
  - rewrite Hl at 1. by rewrite Hr2, app_assoc_str.
  - exists r1. done.
Qed.

(** *** Splitting at colons *)

Lemma split_colon_nonempty s : split_colon s <> [].
Proof.
  induction s as [|c s IH]; simpl; [done|].
  destruct (Ascii.eqb c ":"); [done|]. by destruct (split_colon s).
Qed.

Lemma split_colon_app a b :
  no_colon a = true -> split_colon (a +:+ String ":" b) = a :: split_colon b.
Proof.
  induction a as [|c a IH]; [done|].
  intros H. apply andb_true_iff in H as [Hc Ha].
  unfold not_char in Hc. apply negb_true_iff in Hc.
  change (split_colon (String c a +:+ String ":" b))
    with (if Ascii.eqb c ":" then "" :: split_colon (a +:+ String ":" b)
          else match split_colon (a +:+ String ":" b) with
               | [] => [String c ""]
               | p :: ps => String c p :: ps
               end).
  by rewrite Hc, IH.
Qed.

Lemma app_colon a key rest :
  a +:+ (key +:+ ":") +:+ rest = (a +:+ key) +:+ String ":" rest.
Proof. by rewrite !app_assoc_str. Qed.

Lemma split_colon_two s a b :
  split_colon s = [a; b] -> no_colon a = true.
Proof.
  revert a b. induction s as [|c s IH]; intros a b; simpl; [done|].
  destruct (Ascii.eqb c ":") eqn:Hc.
  - by intros [= <- _].
  - destruct (split_colon s) as [|p ps] eqn:Hs; [done|].
    intros [= <- ->].
    change (no_colon (String c p)) with (not_char ":" c && no_colon p).
    unfold not_char. rewrite Hc. simpl. by eapply IH.
Qed.

Lemma spaces_no_colon ws : all_chars isspace ws = true -> no_colon ws = true.
Proof.
  induction ws as [|c ws IH]; [done|].
  change (all_chars isspace (String c ws))
    with (isspace c && all_chars isspace ws).
  change (no_colon (String c ws)) with (not_char ":" c && no_colon ws).
  intros H. apply andb_true_iff in H as [Hc Hws]. rewrite IH by done.
  rewrite andb_true_r. unfold not_char.
  destruct (Ascii.eqb c ":") eqn:Heq; [|done].
  apply Ascii.eqb_eq in Heq as ->. done.
Qed.

(** The piece before the first colon of a line that [par] picks. *)
Lemma par_match_first_piece key line cp rest :
  key_ok key = true ->
  par_match key line = true ->
  split_colon line = cp :: rest ->
  strip cp = key /\ no_colon cp = true
  /\ exists r, line = cp +:+ String ":" r.
Proof.
  intros Hk Hm Hs.
  destruct (par_match_split _ _ Hm) as (ws & r & -> & Hws & _).
  unfold key_ok in Hk. apply andb_true_iff in Hk as [Hk Hfirst].
  apply andb_true_iff in Hk as [Hnospace Hnocolon].
  assert (Hcp : no_colon (ws +:+ key) = true).
  { unfold no_colon. rewrite all_chars_app. apply andb_true_iff.
    split; [by apply spaces_no_colon | done]. }
  rewrite app_colon, split_colon_app in Hs by done.
  injection Hs as <- _. split; [|split; [done|]].
  2:{ exists r. apply app_colon. }
  unfold strip. rewrite lstrip_spaces by done.
  clear -Hnospace Hfirst.
  assert (Hl : lstrip key = key).
  { destruct key as [|c key]; [done|]. simpl in *.
    apply andb_true_iff in Hnospace as [Hc _].
    apply negb_true_iff in Hc. by rewrite Hc. }
  rewrite Hl. clear Hl Hfirst.
  induction key as [|c key IH]; [done|]. simpl in *.
  apply andb_true_iff in Hnospace as [Hc Hrest].
  rewrite IH by done. apply negb_true_iff in Hc. rewrite Hc.
  by destruct key.
Qed.

(** *** [replace] *)

Lemma prefix_refl s : String.prefix s s = true.
Proof.
  induction s as [|c s IH]; [done|]. simpl.
  by destruct (ascii_dec c c).
Qed.

Lemma replace_go_skip old new s k :
  String.length s <= k -> replace_go old new s k = "".
Proof.
  revert k. induction s as [|c s IH]; intros k; [done|]. simpl.
  destruct k; [lia|]. intros H. apply IH. lia.
Qed.

Lemma replace_self s v : replace s s v = v.
Proof.
  destruct s as [|c s]; [done|].
  unfold replace.
  change (replace_go (String c s) v (String c s) 0)
    with (if String.prefix (String c s) (String c s)
          then v +:+ replace_go (String c s) v s (String.length (String c s) - 1)
          else String c (replace_go (String c s) v s 0)).
  rewrite prefix_refl, replace_go_skip by (simpl; lia).
  apply app_nil_r_str.
Qed.

(** *** Lines *)

Lemma universal_newlines_cons c s :
  universal_newlines (String c s)
  = if Ascii.eqb c "013"
    then String "010"
           (universal_newlines
              match s with
              | String c' s'' => if Ascii.eqb c' "010" then s'' else s
              | "" => ""
              end)
    else String c (universal_newlines s).
Proof.
  simpl. destruct (Ascii.eqb c "013"); [|done].
  destruct s as [|c' s'']; [done|]. by destruct (Ascii.eqb c' "010").
Qed.

(** What has been read holds no carriage return. *)
Lemma universal_newlines_no_cr s : no_cr (universal_newlines s) = true.
Proof.
  assert (H : forall n s, String.length s <= n ->
                          no_cr (universal_newlines s) = true).
  { clear s. induction n as [|n IH]; intros [|c s] Hlen; try done.
    - simpl in Hlen. lia.
    - rewrite universal_newlines_cons. simpl in Hlen.
      destruct (Ascii.eqb c "013") eqn:Hc.
      + change (no_cr (String "010" ?t)) with (no_cr t).
        apply IH. destruct s as [|c' s'']; [simpl; lia|].
        destruct (Ascii.eqb c' "010"); simpl in *; lia.
      + change (no_cr (String c ?t)) with (not_char "013" c && no_cr t).
        unfold not_char. rewrite Hc. simpl. apply IH. lia. }
  by apply (H (String.length s)).
Qed.

(** Text without carriage returns is read as it is. *)
Lemma universal_newlines_id s : no_cr s = true -> universal_newlines s = s.
Proof.
  induction s as [|c s IH]; [done|].
  change (no_cr (String c s)) with (not_char "013" c && no_cr s).
  intros H. apply andb_true_iff in H as [Hc Hs].
  unfold not_char in Hc. apply negb_true_iff in Hc.
  rewrite universal_newlines_cons, Hc. by rewrite IH.
Qed.

Lemma lines_of_cons c t :
  lines_of (String c t)
  = if Ascii.eqb c "010" then String c "" :: lines_of t
    else match lines_of t with
         | [] => [String c ""]
         | x :: xs => String c x :: xs
         end.
Proof. reflexivity. Qed.

Lemma line_ok_step c l :
  line_ok (String c l)
  = if Ascii.eqb c "010" then String.eqb l ""
    else not_char "013" c && (String.eqb l "" || line_ok l).
Proof. reflexivity. Qed.

Lemma line_ok_cons c l :
  Ascii.eqb c "010" = false -> Ascii.eqb c "013" = false ->
  line_ok l = true -> line_ok (String c l) = true.
Proof.
  intros Hc Hr Hl. rewrite line_ok_step, Hc, Hl. unfold not_char.
  rewrite Hr. simpl. apply orb_true_r.
Qed.

Lemma line_ok_nonempty l : line_ok l = true -> l <> "".
Proof. by destruct l. Qed.

Lemma terminated_cons c l :
  l <> "" -> terminated (String c l) = terminated l.
Proof. by destruct l. Qed.

Lemma line_ok_single c :
  Ascii.eqb c "010" = false -> Ascii.eqb c "013" = false ->
  line_ok (String c "") = true.
Proof.
  intros Hc Hr. rewrite line_ok_step, Hc. unfold not_char. by rewrite Hr.
Qed.

Lemma lines_of_ok text : no_cr text = true -> lines_ok (lines_of text).
Proof.
  induction text as [|c t IH]; [done|].
  change (no_cr (String c t)) with (not_char "013" c && no_cr t).
  intros H. apply andb_true_iff in H as [Hr Ht].
  unfold not_char in Hr. apply negb_true_iff in Hr.
  specialize (IH Ht). rewrite lines_of_cons.
  destruct (Ascii.eqb c "010") eqn:Hc.
  - apply Ascii.eqb_eq in Hc as ->.
    split; [reflexivity|]. split; [by right | exact IH].
  - destruct (lines_of t) as [|l ls].
    + split; [by apply line_ok_single|]. split; [by left | done].
    + destruct IH as (Hl & Hterm & Hls).
      split; [by apply line_ok_cons|]. split; [|done].
      destruct Hterm as [->|Hterm]; [by left|right].
      rewrite terminated_cons; [done | by apply line_ok_nonempty].
Qed.

Lemma line_ok_no_cr l : line_ok l = true -> no_cr l = true.
Proof.
  induction l as [|c l IH]; [done|]. rewrite line_ok_step.
  change (no_cr (String c l)) with (not_char "013" c && no_cr l).
  destruct (Ascii.eqb c "010") eqn:Hc.
  - intros Hl. apply String.eqb_eq in Hl as ->.
    apply Ascii.eqb_eq in Hc as ->. done.
  - intros H. apply andb_true_iff in H as [-> H]. simpl.
    apply orb_true_iff in H as [H|H]; [|auto].
    apply String.eqb_eq in H as ->. done.
Qed.

Lemma lines_of_line l t :
  line_ok l = true -> terminated l = true ->
  lines_of (l +:+ t) = l :: lines_of t.
Proof.
  induction l as [|c l IH]; [done|].
  change (String c l +:+ t) with (String c (l +:+ t)).
  rewrite lines_of_cons, line_ok_step.
  destruct (Ascii.eqb c "010") eqn:Hc.
  - intros Hl _. apply String.eqb_eq in Hl as ->. done.
  - intros Hl Ht. apply andb_true_iff in Hl as [_ Hl].
    destruct l as [|d l]; [simpl in Ht; congruence|].
    simpl in Hl. rewrite IH; [done|exact Hl|exact Ht].
Qed.

Lemma lines_of_last l : line_ok l = true -> lines_of l = [l].
Proof.
  induction l as [|c l IH]; [done|]. rewrite lines_of_cons, line_ok_step.
  destruct (Ascii.eqb c "010") eqn:Hc.
  - intros Hl. apply String.eqb_eq in Hl as ->. done.
  - intros Hl. apply andb_true_iff in Hl as [_ Hl].
    destruct l as [|d l]; [done|]. simpl in Hl. by rewrite IH.
Qed.

Lemma lines_of_writelines ls : lines_ok ls -> lines_of (writelines ls) = ls.
Proof.
  unfold writelines. induction ls as [|l ls IH]; [done|].
  intros (Hl & Hterm & Hls). destruct ls as [|l' ls].
  - simpl. by apply lines_of_last.
  - destruct Hterm as [|Hterm]; [done|].
    change (String.concat "" (l :: l' :: ls))
      with (l +:+ String.concat "" (l' :: ls)).
    rewrite lines_of_line by done. by rewrite IH.
Qed.

Lemma writelines_no_cr ls : lines_ok ls -> no_cr (writelines ls) = true.
Proof.
  unfold writelines. induction ls as [|l ls IH]; [done|].
  intros (Hl & _ & Hls). apply line_ok_no_cr in Hl.
  destruct ls as [|l' ls]; [done|].
  change (String.concat "" (l :: l' :: ls))
    with (l +:+ String.concat "" (l' :: ls)).
  unfold no_cr in *. rewrite all_chars_app, Hl. simpl. by apply IH.
Qed.

(** The lines of a file as they are read. *)
Lemma readlines_ok text : lines_ok (readlines text).
Proof. apply lines_of_ok, universal_newlines_no_cr. Qed.

(** Lines that are written are read back as they were. *)
Lemma readlines_writelines ls : lines_ok ls -> readlines (writelines ls) = ls.
Proof.
  intros Hok. unfold readlines.
  rewrite universal_newlines_id by (by apply writelines_no_cr).
  by apply lines_of_writelines.
Qed.

Lemma lines_ok_replace pre l post new :
  lines_ok (pre ++ l :: post) ->
  line_ok new = true -> terminated new = true ->
  lines_ok (pre ++ new :: post).
Proof.
  intros H Hn Ht. induction pre as [|x pre IH]; simpl in *.
  - destruct H as (_ & _ & H). auto.
  - destruct H as (Hx & Hterm & H). split; [done|]. split; [|auto].
    destruct Hterm as [Hnil|Hterm]; [|by right].
    by destruct pre.
Qed.

Lemma lines_ok_elem ls l : lines_ok ls -> l ∈ ls -> line_ok l = true.
Proof.
  induction ls as [|x ls IH]; intros H Hl; [by apply elem_of_nil in Hl|].
  destruct H as (Hx & _ & H).
  apply elem_of_cons in Hl as [->|Hl]; auto.
Qed.

Lemma one_line_cons c s :
  one_line (String c s)
  = not_char "010" c && not_char "013" c && one_line s.
Proof. reflexivity. Qed.

(** A line that has a colon has no line break before it. *)
Lemma line_ok_before_colon a b :
  line_ok (a +:+ String ":" b) = true -> one_line a = true.
Proof.
  induction a as [|c a IH]; [done|].
  change (String c a +:+ String ":" b) with (String c (a +:+ String ":" b)).
  rewrite line_ok_step, one_line_cons. unfold not_char.
  assert (Hne : String.eqb (a +:+ String ":" b) "" = false) by (by destruct a).
  rewrite Hne. destruct (Ascii.eqb c "010"); [done|]. simpl.
  intros H. apply andb_true_iff in H as [-> H]. simpl. by apply IH.
Qed.

(** The line [par] writes. *)
Lemma new_line_ok a v :
  one_line a = true -> one_line v = true ->
  line_ok (a +:+ ": " +:+ v +:+ newline) = true
  /\ terminated (a +:+ ": " +:+ v +:+ newline) = true.
Proof.
  intros Ha Hv.
  assert (Htail : forall s, one_line s = true ->
            line_ok (s +:+ newline) = true
            /\ terminated (s +:+ newline) = true).
  { induction s as [|c s IH]; [done|].
    rewrite one_line_cons.
    intros H. apply andb_true_iff in H as [Hc Hs].
    apply andb_true_iff in Hc as [Hc Hr].
    unfold not_char in Hc, Hr. apply negb_true_iff in Hc, Hr.
    destruct (IH Hs) as [H1 H2]. rewrite app_cons. split.
    - by apply line_ok_cons.
    - rewrite terminated_cons; [done|]. by destruct s. }
  replace (a +:+ ": " +:+ v +:+ newline)
    with ((a +:+ ": " +:+ v) +:+ newline)
    by (by rewrite !app_assoc_str).
  apply Htail. unfold one_line. rewrite !all_chars_app.
  unfold one_line in Ha, Hv. by rewrite Ha, Hv.
Qed.

(** ** The reader of the document *)

Lemma classify_entry line :
  match classify line with
  | YTop key value | YSub key value =>
      exists a b rest, split_colon line = a :: b :: rest
                       /\ key = strip a /\ value = strip b
  | _ => True
  end.
Proof.
  unfold classify.
  destruct (String.eqb (strip line) "" || startswith (strip line) "#"); [done|].
  destruct (startswith (strip line) "- "); [done|].
  destruct (split_colon line) as [|a [|b rest]]; [done|done|].
  destruct (first_char_is isspace line); eauto 6.
Qed.

Lemma entry_key_first_piece line key :
  entry_key line = Some key ->
  exists a b rest, split_colon line = a :: b :: rest /\ key = strip a.
Proof.
  unfold entry_key. pose proof (classify_entry line) as H.
  destruct (classify line) as [|k v|k v|v]; try done;
    intros [= <-]; destruct H as (a & b & rest & Hs & -> & _); eauto.
Qed.




(** ** Editing the parameter file *)

Lemma store_file_content name text w w' :
  store_file name text w = (Returns tt, w') ->
  file_content name (wd w') = Some text.
Proof.
  unfold store_file, bind, get, modify, file_content.
  destruct (lookup_entry name (wd w)) as [[[c|]|[[c|]|]]|];
    intros [= <-]; simpl; by rewrite lookup_set_eq.
Qed.

Section editing.
Variable args : Args.


End editing.




(** The lines of the file once [par] has rewritten one of them. *)
Lemma readlines_edited key text pre line post cp cv v :
  key_ok key = true ->
  readlines text = pre ++ line :: post ->
  par_match key line = true ->
  split_colon line = [cp; cv] ->
  one_line v = true ->
  readlines (writelines (pre ++ (cp +:+ ": " +:+ v +:+ newline) :: post))
  = pre ++ (cp +:+ ": " +:+ v +:+ newline) :: post.
Proof.
  intros Hk Hr Hm Hs Hv.
  pose proof (readlines_ok text) as Hok. rewrite Hr in Hok.
  destruct (par_match_first_piece _ _ _ _ Hk Hm Hs) as (_ & _ & r & Hline).
  assert (Hcp : one_line cp = true).
  { apply (line_ok_before_colon cp r). rewrite <- Hline.
    eapply lines_ok_elem; [exact Hok|].
    apply elem_of_app. right. apply list_elem_of_here. }
  destruct (new_line_ok cp v Hcp Hv) as [H1 H2].
  apply readlines_writelines. by eapply lines_ok_replace.
Qed.


Section resetting.
Variable args : Args.


End resetting.

(** *** The registered parameters *)







Section handing_off.
Variable E : Env.
Variable args : Args.



End handing_off.



(* ===================================================================== *)
(** * Further properties of the commands *)
(* ===================================================================== *)

Section check_all.
Import Specfem3D.

Lemma in_PAR_eq key st :
  in_PAR key st = (Returns (bool_decide (is_Some (PAR st !! key))), st).
Proof. reflexivity. Qed.

(** X1.  Once the base class has checked, [check] passes exactly when the
    four keys are present and [FORMAT] is the text [su] or [SU]; it fails
    with an [Exception] otherwise, and in both cases leaves the state as the
    base class left it. *)
Theorem check_passes_iff (base_check : M state unit) (st st' : state) :
  base_check st = (Returns tt, st') ->
  exists o,
    check base_check st = (o, st')
    /\ (o = Returns tt <->
        (forall k, k ∈ required_keys -> is_Some (PAR st' !! k))
        /\ (PAR st' !! "FORMAT" = Some (PStr "su")
            \/ PAR st' !! "FORMAT" = Some (PStr "SU")))
    /\ (o <> Returns tt -> exists msg, o = Raises (PyException msg)).
Proof.
  intros Hb. unfold check, bind at 1. rewrite Hb.
  assert (Hkeys : forall P : string -> Prop,
            (forall k, k ∈ required_keys -> P k)
            <-> P "NT" /\ P "DT" /\ P "F0" /\ P "FORMAT").
  { intros P. unfold required_keys. split.
    - intros H. repeat split; apply H; set_solver.
    - intros (?&?&?&?) k Hk.
      repeat (apply elem_of_cons in Hk as [->|Hk]; [done|]).
      by apply elem_of_nil in Hk. }
  cbv [bind in_PAR get ret when raise PAR_attr].
  destruct (PAR st' !! "NT") as [nt|] eqn:Hnt; simpl.
  2:{ eexists; split; [reflexivity|]. split; [|eauto].
      split; [discriminate|]. intros [H _]. apply Hkeys in H as (H&_).
      rewrite Hnt in H. by destruct H. }
  destruct (PAR st' !! "DT") as [dt|] eqn:Hdt; simpl.
  2:{ eexists; split; [reflexivity|]. split; [|eauto].
      split; [discriminate|]. intros [H _]. apply Hkeys in H as (_&H&_).
      rewrite Hdt in H. by destruct H. }
  destruct (PAR st' !! "F0") as [f0|] eqn:Hf0; simpl.
  2:{ eexists; split; [reflexivity|]. split; [|eauto].
      split; [discriminate|]. intros [H _]. apply Hkeys in H as (_&_&H&_).
      rewrite Hf0 in H. by destruct H. }
  destruct (PAR st' !! "FORMAT") as [fmt|] eqn:Hfmt; simpl.
  2:{ eexists; split; [reflexivity|]. split; [|eauto].
      split; [discriminate|]. intros [_ [H|H]]; discriminate H. }
  rewrite ?Hfmt. simpl.
  destruct (eq_str fmt "su" || (eq_str fmt "SU" || false)) eqn:Hin; simpl.
  - eexists; split; [reflexivity|]. split; [|done].
    split; [intros _|done]. split.
    + apply Hkeys. rewrite Hnt, Hdt, Hf0, Hfmt. eauto.
    + destruct fmt as [| | |s|]; simpl in Hin; try discriminate.
      apply orb_true_iff in Hin as [Hin|Hin].
      * apply String.eqb_eq in Hin as ->. by left.
      * rewrite orb_false_r in Hin. apply String.eqb_eq in Hin as ->.
        by right.
  - eexists; split; [reflexivity|]. split; [|eauto].
    split; [discriminate|]. intros [_ [[= ->]|[= ->]]]; discriminate Hin.
Qed.

Lemma check_passes_iff_witness :
  exists o,
    check (ret tt) (State {["FORMAT" := PStr "Su"]} [])
    = (o, State {["FORMAT" := PStr "Su"]} [])
    /\ (o = Returns tt <->
        (forall k, k ∈ required_keys ->
                   is_Some (({["FORMAT" := PStr "Su"]} : gmap string pyval) !! k))
        /\ (({["FORMAT" := PStr "Su"]} : gmap string pyval) !! "FORMAT"
            = Some (PStr "su")
            \/ ({["FORMAT" := PStr "Su"]} : gmap string pyval) !! "FORMAT"
               = Some (PStr "SU")))
    /\ (o <> Returns tt -> exists msg, o = Raises (PyException msg)).
Proof.
  apply (check_passes_iff (ret tt) (State {["FORMAT" := PStr "Su"]} [])).
  reflexivity.
Defined.
End check_all.

(** ** Showing and setting parameters *)

Lemma find_entry_Some key lines pre line post :
  find_entry key lines = Some (pre, line, post) ->
  lines = pre ++ line :: post
  /\ par_match key line = true
  /\ Forall (fun x => par_match key x = false) pre.
Proof.
  revert pre. induction lines as [|l ls IH]; intros pre; [done|].
  simpl. destruct (par_match key l) eqn:Hm.
  - intros [= <- <- <-]. by repeat split.
  - destruct (find_entry key ls) as [[[p f] q]|]; [|done].
    intros [= <- <- <-]. destruct (IH p eq_refl) as (-> & ? & ?).
    repeat split; [done|]. by constructor.
Qed.

Lemma find_entry_None key lines :
  find_entry key lines = None ->
  Forall (fun x => par_match key x = false) lines.
Proof.
  induction lines as [|l ls IH]; [constructor|].
  simpl. destruct (par_match key l) eqn:Hm; [done|].
  destruct (find_entry key ls) as [[[p f] q]|]; [done|].
  intros _. constructor; [done | by apply IH].
Qed.

Lemma find_entry_first key pre line post :
  Forall (fun x => par_match key x = false) pre ->
  par_match key line = true ->
  find_entry key (pre ++ line :: post) = Some (pre, line, post).
Proof.
  induction 1 as [|x pre Hx _ IH]; intros Hm; simpl.
  - by rewrite Hm.
  - by rewrite Hx, IH.
Qed.

Section showing_and_setting.
Variable args : Args.

(** What the loop of [par] comes to. *)
Lemma par_loop_eq key value skip seen rest w :
  par_loop args key value skip seen rest w
  = match find_entry key rest with
    | None =>
        (Raises (SystemExit
                   (PStr (newline +:+ tab +:+ "'" +:+ key +:+
                          "' not found in parameter file" +:+ newline))), w)
    | Some (pre, line, post) =>
        par_loop args key value skip (seen ++ pre) (line :: post) w
    end.
Proof.
  revert seen. induction rest as [|l ls IH]; intros seen; [done|].
  simpl. destruct (par_match key l) eqn:Hm.
  - by rewrite app_nil_r, Hm.
  - rewrite IH. destruct (find_entry key ls) as [[[p f] q]|]; [|done].
    by rewrite <- app_assoc.
Qed.

(** What [par] comes to on a parameter file that can be read. *)
Lemma par_reads name value skip text w :
  file_content (parameter_file args) (wd w) = Some text ->
  par args (Some name) value skip w
  = par_loop args (upper name) value skip [] (readlines text)
             (warned value w).
Proof.
  unfold file_content. intros Hf. unfold par.
  unfold bind at 1. rewrite entry_exists_eq. unfold node_exists.
  destruct (resolve (lookup_entry (parameter_file args) (wd w)))
    as [[c|]|] eqn:Hr; [|done|done].
  injection Hf as ->. simpl.
  unfold bind at 1. cbv [ret].
  assert (Hwd : wd (warned value w) = wd w).
  { unfold warned. destruct value as [v|]; [|done].
    by destruct (String.eqb (lower v) "none"). }
  assert (Hwarn :
    when (match value with
          | Some v => String.eqb (lower v) "none"
          | None => false
          end)
         (log (Warn "to set values to nonetype, use 'null' not 'none'")) w
    = (Returns tt, warned value w)).
  { unfold warned. destruct value as [v|]; [|done].
    by destruct (String.eqb (lower v) "none"). }
  unfold bind at 1. rewrite Hwarn.
  unfold bind at 1. unfold read_file at 1, bind at 1, get at 1.
  by rewrite Hwd, Hr.
Qed.

(** A parameter file that is missing. *)
Lemma par_missing_file name value skip w :
  node_exists (lookup_entry (parameter_file args) (wd w)) = false ->
  par args (Some name) value skip w
  = (Raises (SystemExit
               (PStr (newline +:+ tab +:+ "parameter file '" +:+
                      parameter_file args +:+ "' does not exist"
                      +:+ newline))), w).
Proof.
  intros Hn. unfold par. unfold bind at 1. rewrite entry_exists_eq, Hn.
  reflexivity.
Qed.

Lemma wd_warned value w : wd (warned value w) = wd w.
Proof.
  unfold warned. destruct value as [v|]; [|done].
  by destruct (String.eqb (lower v) "none").
Qed.

Lemma warned_None w : warned None w = w.
Proof. done. Qed.

(** X2.  On a parameter file of ASCII text in which the test of line 1009
    picks no line for the parameter (no line that is not a comment starts,
    after white space, with the upper-cased name and a colon; an empty file
    is one such), [par] exits with the message that the parameter is not
    found, whether it was asked to show or to set; the directory, the
    pending input and the registered parameters are as they were. *)
Theorem par_not_found name value skip text w :
  file_content (parameter_file args) (wd w) = Some text ->
  isascii text = true ->
  isascii name = true ->
  find_entry (upper name) (readlines text) = None ->
  exists w',
    par args (Some name) value skip w
    = (Raises (SystemExit
                 (PStr (newline +:+ tab +:+ "'" +:+ upper name +:+
                        "' not found in parameter file" +:+ newline))), w')
    /\ wd w' = wd w /\ stdin w' = stdin w
    /\ sys_parameters w' = sys_parameters w.
Proof.
  intros Hf _ _ Hn. exists (warned value w).
  rewrite (par_reads _ _ _ _ _ Hf), par_loop_eq, Hn.
  split; [done|]. unfold warned. destruct value as [v|]; [|done].
  by destruct (String.eqb (lower v) "none").
Qed.

Lemma par_show_eq name skip text pre line post w :
  file_content (parameter_file args) (wd w) = Some text ->
  find_entry (upper name) (readlines text) = Some (pre, line, post) ->
  par args (Some name) None skip w
  = (Returns tt,
     if skip then w else add_event (Print (newline +:+ tab +:+ line)) w).
Proof.
  intros Hf Hn. rewrite (par_reads _ _ _ _ _ Hf), par_loop_eq, Hn.
  apply find_entry_Some in Hn as (_ & Hm & _).
  simpl. rewrite Hm. by destruct skip.
Qed.

(** X3.  On a parameter file of ASCII text, [par] without a value prints
    the first line, as it is read, that the test of line 1009 picks for the
    parameter (nothing with [skip_print]) and returns; it changes nothing
    else, and the file is not written. *)
Theorem par_shows_first_entry name skip text pre line post w :
  file_content (parameter_file args) (wd w) = Some text ->
  isascii text = true ->
  isascii name = true ->
  find_entry (upper name) (readlines text) = Some (pre, line, post) ->
  par args (Some name) None skip w
  = (Returns tt,
     if skip then w else add_event (Print (newline +:+ tab +:+ line)) w).
Proof. intros Hf _ _. by apply par_show_eq. Qed.

Lemma store_file_again name text w w1 :
  store_file name text w = (Returns tt, w1) ->
  store_file name text w1 = (Returns tt, w1).
Proof.
  unfold store_file, bind, get, modify.
  assert (Hset : forall x d, lookup_entry name (set_entry name x d) = Some x).
  { intros x d. induction d as [|[n y] d IH]; simpl.
    - by rewrite String.eqb_refl.
    - destruct (String.eqb n name) eqn:Hn; simpl; by rewrite Hn. }
  assert (Hidem : forall x d,
            set_entry name x (set_entry name x d) = set_entry name x d).
  { intros x d. induction d as [|[n y] d IH]; simpl.
    - by rewrite String.eqb_refl.
    - destruct (String.eqb n name) eqn:Hn; simpl; rewrite Hn; [done|].
      by rewrite IH. }
  destruct (lookup_entry name (wd w)) as [[[c|]|[[c|]|]]|] eqn:Hl;
    try discriminate; intros [= <-]; simpl; rewrite Hset;
    unfold set_wd; simpl; by rewrite Hidem.
Qed.

(** What a run of [par] that sets a value and returns has done. *)
Lemma par_set_inv name v skip w w1 :
  par args (Some name) (Some v) skip w = (Returns tt, w1) ->
  exists text pre line post cp cv w0,
    file_content (parameter_file args) (wd w) = Some text
    /\ find_entry (upper name) (readlines text) = Some (pre, line, post)
    /\ split_colon line = [cp; cv]
    /\ wd w0 = wd w
    /\ store_file (parameter_file args)
         (writelines (pre ++ (cp +:+ ": " +:+ v +:+ newline) :: post)) w0
       = (Returns tt, w1).
Proof.
  intros H.
  destruct (node_exists (lookup_entry (parameter_file args) (wd w))) eqn:Hn.
  2:{ by rewrite par_missing_file in H. }
  destruct (file_content (parameter_file args) (wd w)) as [text|] eqn:Hf.
  2:{ exfalso. revert H. unfold par. unfold bind at 1.
      rewrite entry_exists_eq, Hn. simpl. unfold file_content in Hf.
      destruct (String.eqb (lower v) "none");
        cbv [bind when ret log modify read_file get]; simpl;
        by destruct (resolve (lookup_entry (parameter_file args) (wd w)))
          as [[c'|]|]. }
  rewrite (par_reads _ _ _ _ _ Hf), par_loop_eq in H.
  destruct (find_entry (upper name) (readlines text)) as [[[pre line] post]|]
    eqn:Hfind; [|done].
  pose proof (find_entry_Some _ _ _ _ _ Hfind) as (_ & Hm & _).
  simpl in H. rewrite Hm in H.
  destruct (split_colon line) as [|cp [|cv [|x more]]] eqn:Hs;
    try (by unfold raise in H).
  rewrite replace_self in H.
  apply bind_inv in H as [([] & w0 & H0 & H)|(e & _ & [=])].
  exists text, pre, line, post, cp, cv, w0. repeat split; try done.
  destruct (negb skip); injection H0 as <-; simpl; apply (wd_warned (Some v)).
Qed.

(** The line [par] writes is picked by its test again. *)
Lemma rstrip_keep a b :
  all_chars (fun c => negb (isspace c)) a = true ->
  rstrip (a +:+ b) = a +:+ rstrip b.
Proof.
  induction a as [|c a IH]; [done|]. simpl. intros [Hc Ha]%andb_true_iff.
  rewrite !app_cons. simpl. rewrite (IH Ha).
  apply negb_true_iff in Hc. rewrite Hc.
  by destruct (a +:+ rstrip b).
Qed.

Lemma lstrip_keep s :
  match s with "" => True | String c _ => isspace c = false end ->
  lstrip s = s.
Proof. destruct s as [|c s]; [done|]. simpl. by intros ->. Qed.

Lemma slice_to_app a b : slice_to (String.length a) (a +:+ b) = a.
Proof.
  induction a as [|c a IH]; simpl.
  - by destruct b.
  - by rewrite IH.
Qed.

Lemma contains_refl s : contains s s = true.
Proof.
  destruct s as [|c s]; [done|].
  change (contains (String c s) (String c s))
    with (String.prefix (String c s) (String c s) || contains s (String c s)).
  by rewrite prefix_refl.
Qed.

Lemma split_colon_inj_head a b ra rb :
  no_colon a = true -> no_colon b = true ->
  a +:+ String ":" ra = b +:+ String ":" rb -> a = b.
Proof.
  revert b. induction a as [|c a IH]; intros [|d b]; try done.
  - intros _ Hb. rewrite app_nil, app_cons. intros [= <- _].
    by cbv in Hb.
  - intros Ha _. rewrite app_nil, app_cons. intros [= -> _].
    by cbv in Ha.
  - intros Ha Hb. unfold no_colon in Ha, Hb. simpl in Ha, Hb.
    apply andb_true_iff in Ha as [_ Ha]. apply andb_true_iff in Hb as [_ Hb].
    rewrite !app_cons. intros [= -> H]. f_equal. by apply (IH b).
Qed.

Lemma key_ok_parts key :
  key_ok key = true ->
  all_chars (fun c => negb (isspace c)) key = true
  /\ no_colon key = true
  /\ exists c k, key = String c k /\ isspace c = false
                 /\ Ascii.eqb c "#" = false.
Proof.
  unfold key_ok. intros [[Hs Hc]%andb_true_iff Hk]%andb_true_iff.
  repeat split; try done. destruct key as [|c k]; [done|].
  exists c, k. split; [done|]. simpl in Hs.
  apply andb_true_iff in Hs as [Hs _]. apply negb_true_iff in Hs.
  apply andb_true_iff in Hk as [Hk _]. unfold not_char in Hk.
  by apply negb_true_iff in Hk.
Qed.

Lemma first_char_is_app p a b :
  a <> "" -> first_char_is p (a +:+ b) = first_char_is p a.
Proof. by destruct a. Qed.

Lemma par_match_new_line key line cp cv v :
  key_ok key = true ->
  par_match key line = true ->
  split_colon line = [cp; cv] ->
  strip cp = key
  /\ no_colon cp = true
  /\ par_match key (cp +:+ ": " +:+ v +:+ newline) = true.
Proof.
  intros Hk Hm Hs.
  destruct (par_match_first_piece _ _ _ _ Hk Hm Hs) as (Hcp & Hnc & r & Hl).
  split; [done|]. split; [done|].
  destruct (par_match_split _ _ Hm) as (ws & rest & Hl' & Hws & _).
  destruct (key_ok_parts _ Hk) as (Hns & Hkc & c & k & Hkey & Hc & Hh).
  assert (Hcpw : cp = ws +:+ key).
  { rewrite app_colon in Hl'. rewrite Hl in Hl'.
    apply split_colon_inj_head in Hl'; [done|done|].
    unfold no_colon. rewrite all_chars_app.
    apply andb_true_iff. split; [by apply spaces_no_colon | done]. }
  unfold par_match. apply andb_true_iff. split.
  - unfold strip. rewrite Hcpw, !app_assoc_str, lstrip_spaces by done.
    rewrite lstrip_keep by (rewrite Hkey, app_cons; done).
    replace (key +:+ ": " +:+ v +:+ newline)
      with ((key +:+ ":") +:+ " " +:+ v +:+ newline)
      by (by rewrite app_assoc_str).
    rewrite rstrip_keep.
    2:{ rewrite all_chars_app, Hns. done. }
    replace (String.length key + 1) with (String.length (key +:+ ":"))
      by (rewrite length_app_str; done).
    rewrite slice_to_app. apply contains_refl.
  - unfold par_match in Hm. apply andb_true_iff in Hm as [_ Hm].
    rewrite Hl in Hm.
    assert (Hne : cp <> "").
    { rewrite Hcpw, Hkey. destruct ws; done. }
    rewrite first_char_is_app in Hm by done.
    by rewrite first_char_is_app.
Qed.

(** X4.  What has been set is what is shown.  On a parameter file of
    ASCII text, for a parameter name that, upper-cased, has no white space
    and no colon and starts with neither [#] nor [-], and an ASCII value
    [v] of one line (no line feed, no carriage return): once [par] has set
    [v], showing the parameter prints the line [KEY: v], with the key as it
    stood in the file, indentation included. *)
Theorem par_set_then_show name v skip text w w1 :
  file_content (parameter_file args) (wd w) = Some text ->
  isascii text = true ->
  isascii name = true ->
  isascii v = true ->
  key_ok (upper name) = true ->
  one_line v = true ->
  par args (Some name) (Some v) skip w = (Returns tt, w1) ->
  exists cp,
    strip cp = upper name
    /\ par args (Some name) None false w1
       = (Returns tt,
          add_event (Print (newline +:+ tab +:+ cp +:+ ": " +:+ v
                            +:+ newline)) w1).
Proof.
  intros _ _ _ _ Hk Hv H. clear text.
  apply par_set_inv in H
    as (text & pre & line & post & cp & cv & w0 & Hf & Hfind & Hs & _ & H).
  pose proof (find_entry_Some _ _ _ _ _ Hfind) as (Hl & Hm & Hpre).
  destruct (par_match_new_line _ _ _ _ v Hk Hm Hs) as (Hcp & _ & Hnew).
  exists cp. split; [done|].
  apply store_file_content in H.
  apply (par_show_eq name false _ pre _ post _ H).
  rewrite (readlines_edited (upper name) text pre line post cp cv v)
    by done.
  by apply find_entry_first.
Qed.

(** X5.  Setting the same value again changes nothing.  On a parameter
    file of ASCII text, for a parameter name as in X4 and an ASCII value of
    one line that holds no colon: when [par] has set the value, setting it
    a second time returns as well and leaves the working directory as the
    first run left it. *)
Theorem par_set_again name v skip text w w1 :
  file_content (parameter_file args) (wd w) = Some text ->
  isascii text = true ->
  isascii name = true ->
  isascii v = true ->
  key_ok (upper name) = true ->
  one_line v = true ->
  no_colon v = true ->
  par args (Some name) (Some v) skip w = (Returns tt, w1) ->
  exists w2,
    par args (Some name) (Some v) skip w1 = (Returns tt, w2)
    /\ wd w2 = wd w1.
Proof.
  intros _ _ _ _ Hk Hv Hc H. clear text.
  apply par_set_inv in H
    as (text & pre & line & post & cp & cv & w0 & Hf & Hfind & Hs & _ & H).
  pose proof (find_entry_Some _ _ _ _ _ Hfind) as (Hl & Hm & Hpre).
  destruct (par_match_new_line _ _ _ _ v Hk Hm Hs) as (Hcp & Hnc & Hnew).
  pose proof (store_file_content _ _ _ _ H) as Hf1.
  rewrite (par_reads _ _ _ _ _ Hf1), par_loop_eq.
  rewrite (readlines_edited (upper name) text pre line post cp cv v)
    by done.
  rewrite (find_entry_first _ _ _ _ Hpre Hnew).
  set (ww := warned (Some v) w1).
  assert (Hww : wd ww = wd w1) by apply wd_warned. clearbody ww.
  simpl. rewrite Hnew.
  assert (Hline : split_colon (cp +:+ ": " +:+ v +:+ newline)
                  = cp :: split_colon (" " +:+ v +:+ newline)).
  { rewrite <- split_colon_app by done. by rewrite (app_cons ":"). }
  rewrite Hline.
  assert (Hrest : split_colon (" " +:+ v +:+ newline)
                  = [" " +:+ v +:+ newline]).
  { assert (Hno : forall s, no_colon s = true -> split_colon s = [s]).
    { induction s as [|c s IHs]; [done|]. simpl.
      intros [Hc1 Hs1]%andb_true_iff. unfold not_char in Hc1.
      apply negb_true_iff in Hc1. rewrite Hc1, (IHs Hs1). done. }
    apply Hno. unfold no_colon. rewrite !all_chars_app.
    fold (no_colon v). by rewrite Hc. }
  rewrite Hrest, replace_self.
  apply store_file_again in H as Hagain.
  assert (Hst : forall w', wd w' = wd w1 ->
            exists w2, store_file (parameter_file args)
              (writelines (pre ++ (cp +:+ ": " +:+ v +:+ newline) :: post)) w'
              = (Returns tt, w2) /\ wd w2 = wd w1).
  { intros w' Hw'. revert Hagain. unfold store_file, bind, get, modify.
    rewrite Hw'.
    destruct (lookup_entry (parameter_file args) (wd w1))
      as [[[c|]|[[c|]|]]|]; try discriminate;
      intros [= Hagain]; eexists; (split; [reflexivity|]);
      unfold set_wd; simpl; rewrite Hw';
      by rewrite <- Hagain at 2. }
  unfold bind at 1.
  destruct skip; simpl.
  - destruct (Hst ww Hww) as (w2 & -> & ?). by exists w2.
  - destruct (Hst (add_event
                     (Print (newline +:+ tab +:+ strip cp +:+ ": " +:+
                             strip (" " +:+ v +:+ newline) +:+ " -> " +:+ v
                             +:+ newline)) ww))
      as (w2 & -> & ?); [done|].
    by exists w2.
Qed.

Lemma par_too_many_values name v skip text pre line post w :
  file_content (parameter_file args) (wd w) = Some text ->
  find_entry (upper name) (readlines text) = Some (pre, line, post) ->
  2 < length (split_colon line) ->
  exists w',
    par args (Some name) (Some v) skip w
    = (Raises (ValueError "too many values to unpack (expected 2)"), w')
    /\ wd w' = wd w.
Proof.
  intros Hf Hfind Hlen. exists (warned (Some v) w).
  rewrite (par_reads _ _ _ _ _ Hf), par_loop_eq, Hfind.
  apply find_entry_Some in Hfind as (_ & Hm & _).
  simpl. rewrite Hm.
  destruct (split_colon line) as [|a [|b [|c more]]];
    simpl in Hlen; try lia.
  split; [done | apply (wd_warned (Some v))].
Qed.

(** X6.  A line with a second colon cannot be edited.  On a parameter
    file of ASCII text, when the first line, as it is read, that the test
    of line 1009 picks for the parameter holds more than one colon (a time,
    a URL, a comment with a colon), [par] with a value raises [ValueError]
    on the unpacking of line 1013 and leaves the directory as it was. *)
Theorem par_second_colon name v skip text pre line post w :
  file_content (parameter_file args) (wd w) = Some text ->
  isascii text = true ->
  isascii name = true ->
  find_entry (upper name) (readlines text) = Some (pre, line, post) ->
  2 < length (split_colon line) ->
  exists w',
    par args (Some name) (Some v) skip w
    = (Raises (ValueError "too many values to unpack (expected 2)"), w')
    /\ wd w' = wd w.
Proof. intros Hf _ _. by apply par_too_many_values. Qed.

Lemma split_colon_with_colon s :
  no_colon s = false -> 2 <= length (split_colon s).
Proof.
  induction s as [|c s IH]; [done|]. intros H.
  unfold no_colon in H. simpl in H. unfold not_char in H at 1. simpl.
  destruct (Ascii.eqb c ":") eqn:Hc.
  - simpl. pose proof (split_colon_nonempty s).
    destruct (split_colon s); [done | simpl; lia].
  - simpl in H. specialize (IH H).
    destruct (split_colon s); simpl in *; lia.
Qed.

(** X7.  A value with a colon in it can be set once only.  On a
    parameter file of ASCII text, for a parameter name as in X4 and an
    ASCII value of one line that holds a colon: [par] sets the value, and
    from then on every attempt to set the parameter, to whatever value,
    raises [ValueError] and leaves the directory as it is. *)
Theorem par_colon_value_sticks name v skip text w w1 v' skip' :
  file_content (parameter_file args) (wd w) = Some text ->
  isascii text = true ->
  isascii name = true ->
  isascii v = true ->
  key_ok (upper name) = true ->
  one_line v = true ->
  no_colon v = false ->
  par args (Some name) (Some v) skip w = (Returns tt, w1) ->
  exists w2,
    par args (Some name) (Some v') skip' w1
    = (Raises (ValueError "too many values to unpack (expected 2)"), w2)
    /\ wd w2 = wd w1.
Proof.
  intros _ _ _ _ Hk Hv Hc H. clear text.
  apply par_set_inv in H
    as (text & pre & line & post & cp & cv & w0 & Hf & Hfind & Hs & _ & H).
  pose proof (find_entry_Some _ _ _ _ _ Hfind) as (Hl & Hm & Hpre).
  destruct (par_match_new_line _ _ _ _ v Hk Hm Hs) as (Hcp & Hnc & Hnew).
  pose proof (store_file_content _ _ _ _ H) as Hf1.
  apply (par_too_many_values name v' skip' _ pre
           (cp +:+ ": " +:+ v +:+ newline) post w1 Hf1).
  - rewrite (readlines_edited (upper name) text pre line post cp cv v)
      by done.
    by apply find_entry_first.
  - assert (Hline : split_colon (cp +:+ ": " +:+ v +:+ newline)
                    = cp :: split_colon (" " +:+ v +:+ newline)).
    { rewrite <- split_colon_app by done. by rewrite (app_cons ":"). }
    rewrite Hline, length_cons.
    assert (no_colon (" " +:+ v +:+ newline) = false) as Hno.
    { unfold no_colon. rewrite !all_chars_app. fold (no_colon v).
      by rewrite Hc. }
    apply split_colon_with_colon in Hno. lia.
Qed.

End showing_and_setting.

Lemma par_not_found_witness :
  exists w',
    par Sample.args (Some "nproc") None false Sample.ready
    = (Raises (SystemExit
                 (PStr (newline +:+ tab +:+ "'" +:+ upper "nproc" +:+
                        "' not found in parameter file" +:+ newline))), w')
    /\ wd w' = wd Sample.ready /\ stdin w' = stdin Sample.ready
    /\ sys_parameters w' = sys_parameters Sample.ready.
Proof.
  apply (par_not_found Sample.args "nproc" None false Sample.document
           Sample.ready).
  - reflexivity.
  - vm_compute. reflexivity.
  - vm_compute. reflexivity.
  - vm_compute. reflexivity.
Defined.

Lemma par_shows_first_entry_witness :
  par Sample.args (Some "title") None false Sample.ready
  = (Returns tt,
     add_event (Print (newline +:+ tab +:+ "TITLE: run" +:+ newline))
               Sample.ready).
Proof.
  apply (par_shows_first_entry Sample.args "title" false Sample.document
           [] ("TITLE: run" +:+ newline)
           (List.tl (readlines Sample.document)) Sample.ready).
  - reflexivity.
  - vm_compute. reflexivity.
  - vm_compute. reflexivity.
  - vm_compute. reflexivity.
Defined.

Lemma par_set_then_show_witness :
  exists cp,
    strip cp = upper "title"
    /\ par Sample.args (Some "title") None false
         (snd (par Sample.args (Some "title") (Some "new") true Sample.ready))
       = (Returns tt,
          add_event (Print (newline +:+ tab +:+ cp +:+ ": " +:+ "new"
                            +:+ newline))
            (snd (par Sample.args (Some "title") (Some "new") true
                    Sample.ready))).
Proof.
  apply (par_set_then_show Sample.args "title" "new" true Sample.document
           Sample.ready).
  - reflexivity.
  - vm_compute. reflexivity.
  - vm_compute. reflexivity.
  - vm_compute. reflexivity.
  - vm_compute. reflexivity.
  - vm_compute. reflexivity.
  - vm_compute. reflexivity.
Defined.

Lemma par_set_again_witness :
  exists w2,
    par Sample.args (Some "title") (Some "new") true
      (snd (par Sample.args (Some "title") (Some "new") true Sample.ready))
    = (Returns tt, w2)
    /\ wd w2
       = wd (snd (par Sample.args (Some "title") (Some "new") true
                    Sample.ready)).
Proof.
  apply (par_set_again Sample.args "title" "new" true Sample.document
           Sample.ready).
  - reflexivity.
  - vm_compute. reflexivity.
  - vm_compute. reflexivity.
  - vm_compute. reflexivity.
  - vm_compute. reflexivity.
  - vm_compute. reflexivity.
  - vm_compute. reflexivity.
  - vm_compute. reflexivity.
Defined.

Lemma par_second_colon_witness :
  exists w',
    par Sample.args (Some "begin") (Some "12:30") false
      (boot [("parameters.yaml",
              Plain (Regular ("BEGIN: 09:00" +:+ newline)))] ∅ [] [])
    = (Raises (ValueError "too many values to unpack (expected 2)"), w')
    /\ wd w'
       = wd (boot [("parameters.yaml",
                    Plain (Regular ("BEGIN: 09:00" +:+ newline)))] ∅ [] []).
Proof.
  apply (par_second_colon Sample.args "begin" "12:30" false
           ("BEGIN: 09:00" +:+ newline) [] ("BEGIN: 09:00" +:+ newline) []).
  - reflexivity.
  - vm_compute. reflexivity.
  - vm_compute. reflexivity.
  - vm_compute. reflexivity.
  - vm_compute. lia.
Defined.

Lemma par_colon_value_sticks_witness :
  exists w2,
    par Sample.args (Some "title") (Some "plain") true
      (snd (par Sample.args (Some "title") (Some "a:b") true Sample.ready))
    = (Raises (ValueError "too many values to unpack (expected 2)"), w2)
    /\ wd w2
       = wd (snd (par Sample.args (Some "title") (Some "a:b") true
                    Sample.ready)).
Proof.
  apply (par_colon_value_sticks Sample.args "title" "a:b" true
           Sample.document Sample.ready _ "plain" true).
  - reflexivity.
  - vm_compute. reflexivity.
  - vm_compute. reflexivity.
  - vm_compute. reflexivity.
  - vm_compute. reflexivity.
  - vm_compute. reflexivity.
  - vm_compute. reflexivity.
  - vm_compute. reflexivity.
Defined.

(** ** Registering a document *)

Section registering.
Variable E : Env.
Variable args : Args.

Lemma read_file_eq name text w :
  file_content name (wd w) = Some text ->
  read_file name w = (Returns text, w).
Proof.
  unfold file_content, read_file, bind, get.
  destruct (resolve (lookup_entry name (wd w))) as [[c|]|]; [|done|done].
  by intros [= ->].
Qed.

Lemma file_content_exists name text d :
  file_content name d = Some text ->
  node_exists (lookup_entry name d) = true.
Proof.
  unfold file_content, node_exists.
  by destruct (resolve (lookup_entry name d)) as [[c|]|].
Qed.

(** What [_register] comes to on a [.yaml] parameter file that can be
    read. *)
Lemma register_yaml force text w :
  file_content (parameter_file args) (wd w) = Some text ->
  endswith (parameter_file args) ".yaml" = true ->
  paths_readable (loadyaml text) = true ->
  _register E args force w
  = (when (negb force) (precheck E (y_parameters (loadyaml text))) ;;
     modify (set_registered (y_parameters (loadyaml text))
               (format_paths E
                  (with_workdir (workdir args)
                     (document_paths (loadyaml text)))))) w.
Proof.
  intros Hf Hy Hp. unfold _register.
  unfold bind at 1. rewrite entry_exists_eq.
  rewrite (file_content_exists _ _ _ Hf). simpl.
  unfold bind at 1. cbv [ret]. unfold bind at 1. rewrite Hy.
  unfold bind at 1. rewrite (read_file_eq _ _ _ Hf).
  unfold paths_readable, document_paths, with_workdir in *.
  destruct (y_paths (loadyaml text)) as [|v|d]; try done.
Qed.




(** X9.  A document without a [PRECHECK] entry. *)
Theorem register_needs_precheck text w :
  file_content (parameter_file args) (wd w) = Some text ->
  endswith (parameter_file args) ".yaml" = true ->
  paths_readable (loadyaml text) = true ->
  y_parameters (loadyaml text) !! "PRECHECK" = None ->
  _register E args false w = (Raises (KeyError "PRECHECK"), w)
  /\ exists w',
       _register E args true w = (Returns tt, w')
       /\ sys_parameters w' = Some (y_parameters (loadyaml text)).
Proof.
  intros Hf Hy Hp Hpre. rewrite !(register_yaml _ _ _ Hf Hy Hp). simpl.
  split.
  - unfold bind, precheck. by rewrite Hpre.
  - eexists. split; [reflexivity|]. done.
Qed.

(** X10.  The paths that are registered. *)
Theorem register_paths force text w w' :
  file_content (parameter_file args) (wd w) = Some text ->
  endswith (parameter_file args) ".yaml" = true ->
  _register E args force w = (Returns tt, w') ->
  exists paths,
    self_paths w' = Some (format_paths E paths)
    /\ sys_paths w' = Some (format_paths E paths)
    /\ (forall key, key <> "WORKDIR" ->
          paths !! key = document_paths (loadyaml text) !! key)
    /\ paths !! "WORKDIR"
       = match document_paths (loadyaml text) !! "WORKDIR" with
         | Some given => Some given
         | None => Some (PStr (workdir args))
         end.
Proof.
  intros Hf Hy H.
  destruct (paths_readable (loadyaml text)) eqn:Hp.
  2:{ exfalso. revert H. unfold _register.
      unfold bind at 1. rewrite entry_exists_eq.
      rewrite (file_content_exists _ _ _ Hf). simpl.
      unfold bind at 1. cbv [ret]. unfold bind at 1. rewrite Hy.
      unfold bind at 1. rewrite (read_file_eq _ _ _ Hf).
      unfold paths_readable in Hp.
      by destruct (y_paths (loadyaml text)). }
  rewrite (register_yaml _ _ _ Hf Hy Hp) in H.
  apply bind_inv in H as [([] & w1 & _ & H)|(e & _ & [=])].
  injection H as <-. simpl.
  exists (with_workdir (workdir args) (document_paths (loadyaml text))).
  split; [done|]. split; [done|]. unfold with_workdir.
  destruct (document_paths (loadyaml text) !! "WORKDIR") as [given|] eqn:Hw.
  - by rewrite Hw.
  - split.
    + intros key Hk. by rewrite lookup_insert_ne.
    + by rewrite lookup_insert_eq.
Qed.

End registering.


Lemma register_needs_precheck_witness :
  _register Sample.E Sample.args false
    (boot [("parameters.yaml", Plain (Regular ("TITLE: run" +:+ newline)))]
          ∅ [] [])
  = (Raises (KeyError "PRECHECK"),
     boot [("parameters.yaml", Plain (Regular ("TITLE: run" +:+ newline)))]
          ∅ [] [])
  /\ exists w',
       _register Sample.E Sample.args true
         (boot [("parameters.yaml",
                 Plain (Regular ("TITLE: run" +:+ newline)))] ∅ [] [])
       = (Returns tt, w')
       /\ sys_parameters w'
          = Some (y_parameters (loadyaml ("TITLE: run" +:+ newline))).
Proof.
  apply (register_needs_precheck Sample.E Sample.args
           ("TITLE: run" +:+ newline)).
  - reflexivity.
  - reflexivity.
  - vm_compute. reflexivity.
  - vm_compute. reflexivity.
Defined.

Lemma register_paths_witness :
  exists paths,
    self_paths (snd (_register Sample.E Sample.args true Sample.ready))
    = Some (format_paths Sample.E paths)
    /\ sys_paths (snd (_register Sample.E Sample.args true Sample.ready))
       = Some (format_paths Sample.E paths)
    /\ (forall key, key <> "WORKDIR" ->
          paths !! key = document_paths (loadyaml Sample.document) !! key)
    /\ paths !! "WORKDIR"
       = match document_paths (loadyaml Sample.document) !! "WORKDIR" with
         | Some given => Some given
         | None => Some (PStr (workdir Sample.args))
         end.
Proof.
  apply (register_paths Sample.E Sample.args true Sample.document
           Sample.ready).
  - reflexivity.
  - reflexivity.
  - vm_compute. reflexivity.
Defined.

(** ** Configuring, once more *)

Section configuring.
Variable E : Env.
Variable args : Args.

(** X11.  The guard of [configure] against parameter files that are not
    [.yaml] is never reached. *)
Theorem configure_guard_unreachable w :
  endswith (parameter_file args) ".yaml" = false ->
  configure E args w
  = (Raises
       (if node_exists (lookup_entry (parameter_file args) (wd w))
        then AttributeError "'str' object has no attribute 'endwith'"
        else SystemExit
               (PStr (newline +:+ tab +:+
                      "SeisFlows parameter file not found: " +:+
                      parameter_file args +:+ newline))), w).
Proof.
  intros Hy. unfold configure, configure_prepare, _register.
  unfold bind at 1. unfold bind at 1. unfold bind at 1.
  rewrite entry_exists_eq.
  destruct (node_exists (lookup_entry (parameter_file args) (wd w)));
    [|done].
  simpl. unfold bind at 1. cbv [ret]. unfold bind at 1. rewrite Hy.
  reflexivity.
Qed.

(** The [try] block of [configure] with a body that returns. *)
Lemma guarded_write_appends (body : M string unit) w text written :
  file_content (parameter_file args) (wd w) = Some text ->
  body "" = (Returns tt, written) ->
  exists w',
    guarded_write args body w = (Returns tt, w')
    /\ file_content (parameter_file args) (wd w') = Some (text +:+ written)
    /\ lookup_entry ("." +:+ parameter_file args) (wd w') = None
    /\ (forall name, name <> parameter_file args ->
                     name <> "." +:+ parameter_file args ->
                     lookup_entry name (wd w') = lookup_entry name (wd w)).
Proof.
  intros Htext Hbody.
  set (pf := parameter_file args) in *.
  set (tmp := "." +:+ pf).
  assert (Hne : tmp <> pf) by apply dot_name_differs.
  unfold guarded_write. fold pf. fold tmp.
  assert (Hres : resolve (lookup_entry pf (wd w)) = Some (Regular text)).
  { unfold file_content in Htext.
    by destruct (resolve (lookup_entry pf (wd w))) as [[c|]|]; simplify_eq. }
  set (w1 := with_wd (set_entry tmp (Plain (Regular text)) (wd w)) w).
  assert (Hcp : unix_cp pf tmp w = (Returns tt, w1)).
  { unfold unix_cp, bind, get. by rewrite Hres. }
  erewrite bind_returns by exact Hcp.
  assert (Htext1 : file_content pf (wd w1) = Some text).
  { unfold file_content. simpl. by rewrite lookup_set_ne, Hres. }
  destruct (store_file_regular pf (text +:+ written) text w1 Htext1)
    as (x & Hstore & Hx).
  set (w2 := with_wd (set_entry pf x (wd w1)) w1) in *.
  assert (Hopen : with_open_append pf body w1 = (Returns tt, w2)).
  { unfold with_open_append. unfold bind at 1. unfold get.
    unfold file_content in Htext1.
    destruct (resolve (lookup_entry pf (wd w1))) as [[c|]|] eqn:Hr;
      simplify_eq.
    rewrite Hbody. by erewrite bind_returns by exact Hstore. }
  unfold try_except_else. rewrite Hopen.
  eexists. split; [reflexivity|]. simpl. split; [|split].
  - unfold file_content. rewrite lookup_remove_ne by done.
    rewrite lookup_set_eq. by rewrite Hx.
  - apply lookup_remove_eq.
  - intros name Hpf Htmp. rewrite lookup_remove_ne by done.
    rewrite lookup_set_ne by done. by rewrite lookup_set_ne.
Qed.


(** X12.  A run of [configure] that succeeds appends to the parameter file
    and leaves no copy behind. *)
Theorem configure_appends w w1 text written :
  configure_prepare E args w = (Returns tt, w1) ->
  file_content (parameter_file args) (wd w) = Some text ->
  write_template E args "" = (Returns tt, written) ->
  exists w',
    configure E args w = (Returns tt, w')
    /\ file_content (parameter_file args) (wd w') = Some (text +:+ written)
    /\ lookup_entry ("." +:+ parameter_file args) (wd w') = None
    /\ (forall name, name <> parameter_file args ->
                     name <> "." +:+ parameter_file args ->
                     lookup_entry name (wd w') = lookup_entry name (wd w)).
Proof.
  intros Hprep Htext Hbody.
  pose proof (configure_prepare_same_dir E args _ _ _ Hprep) as Hdir.
  unfold same_dir in Hdir. unfold configure.
  erewrite bind_returns by exact Hprep.
  destruct (guarded_write_appends (write_template E args) w1 text written)
    as (w' & Hg & Hdoc & Htmp & Hrest); [by rewrite Hdir | done |].
  exists w'. rewrite Hdir in Hrest. done.
Qed.


End configuring.

(** ** Setting up, in general *)

Section setting_up.
Variable E : Env.
Variable args : Args.

Lemma input_inv prompt w o w' :
  input prompt w = (o, w') -> wd w' = wd w.
Proof. unfold input. destruct (stdin w); by intros [= <- <-]. Qed.

(** What the first lines of [setup] (549-558) leave of the directory. *)
Lemma setup_asks overwrite w o w1 :
  (found <- entry_exists (parameter_file args) ;;
   when found
     (check <-
        (if negb overwrite then
           print (newline +:+ tab +:+ "Parameter file '" +:+
                  parameter_file args +:+ "' already exists" +:+ newline) ;;
           input (tab +:+ "Overwrite with blank file? (y/[n]): ")
         else ret "y") ;;
      when (String.eqb check "y") (unix_rm (parameter_file args)))) w
  = (o, w1) ->
  wd w1 = wd w \/ wd w1 = remove_entry (parameter_file args) (wd w).
Proof.
  unfold bind at 1. rewrite entry_exists_eq.
  destruct (node_exists (lookup_entry (parameter_file args) (wd w)));
    simpl; [|intros [= <- <-]; by left].
  intros H.
  apply bind_inv in H as [(check & w2 & H2 & H)|(e & H2 & ->)].
  - assert (Hw2 : wd w2 = wd w).
    { destruct overwrite; simpl in H2.
      - by injection H2 as <- <-.
      - apply bind_inv in H2 as [([] & w3 & H3 & H2)|(e & [=] & _)].
        injection H3 as <-. by apply input_inv in H2. }
    destruct (String.eqb check "y"); simpl in H.
    + injection H as <- <-. right. simpl. by rewrite Hw2.
    + injection H as <- <-. by left.
  - left. destruct overwrite; simpl in H2; [done|].
    apply bind_inv in H2 as [([] & w3 & H3 & H2)|(e' & [=] & _)].
    injection H3 as <-. by apply input_inv in H2.
Qed.

Lemma setup_steps symlink overwrite w w' :
  setup E args symlink overwrite w = (Returns tt, w') ->
  exists w1,
    (wd w1 = wd w \/ wd w1 = remove_entry (parameter_file args) (wd w))
    /\ (wd w' = set_entry template_name (Plain (Regular (template E))) (wd w1)
        \/ wd w' = set_entry "source_code" (Plain Directory)
                     (set_entry template_name
                        (Plain (Regular (template E))) (wd w1))).
Proof.
  unfold setup. cbv zeta. intros H.
  apply bind_inv in H as [(found & w0 & H0 & H)|(e & _ & [=])].
  injection H0 as <- <-.
  apply bind_inv in H as [([] & w1 & H1 & H)|(e & _ & [=])].
  exists w1. split.
  { eapply setup_asks. unfold bind at 1. rewrite entry_exists_eq.
    exact H1. }
  apply bind_inv in H as [([] & w2 & H2 & H)|(e & _ & [=])].
  injection H2 as <-.
  destruct symlink; simpl in H; [|injection H as <-; by left].
  apply bind_inv in H as [(found & w3 & H3 & H)|(e & _ & [=])].
  injection H3 as <- <-.
  destruct (on_disk args _ _); simpl in H; [injection H as <-; by left|].
  apply bind_inv in H as [([] & w4 & H4 & H)|(e & _ & [=])].
  assert (Hw4 : wd w4
                = set_entry "source_code" (Plain Directory)
                    (set_entry template_name
                       (Plain (Regular (template E))) (wd w1))
                \/ wd w4 = set_entry template_name
                             (Plain (Regular (template E))) (wd w1)).
  { revert H4. unfold unix_mkdir, bind, get, modify. simpl.
    destruct (lookup_entry "source_code" _);
      intros [= <-]; simpl; [by right | by left]. }
  assert (Hloop : forall l w5 w6,
            for_each l (fun package =>
              log (Ln (path_join (path_join (ROOT_DIR E) "..") package)
                      (path_join (workdir args) "source_code"))) w5
            = (Returns tt, w6) -> wd w6 = wd w5).
  { induction l as [|p l IH]; intros w5 w6; simpl.
    - by intros [= <-].
    - unfold bind, log, modify. simpl. intros H6. by apply IH in H6. }
  apply Hloop in H. rewrite H. destruct Hw4 as [->| ->]; [by right | by left].
Qed.

Lemma setup_template symlink overwrite w w' :
  setup E args symlink overwrite w = (Returns tt, w') ->
  file_content "parameters.yaml" (wd w') = Some (template E).
Proof.
  intros H. apply setup_steps in H as (w1 & _ & [-> | ->]);
    unfold file_content.
  - by rewrite lookup_set_eq.
  - rewrite lookup_set_ne by done. by rewrite lookup_set_eq.
Qed.

(** X14.  After [setup] the working directory holds the blank template. *)
Theorem setup_leaves_template symlink overwrite w w' :
  setup E args symlink overwrite w = (Returns tt, w') ->
  file_content "parameters.yaml" (wd w') = Some (template E).
Proof. apply setup_template. Qed.

(** X15.  A parameter file of another name is deleted by [setup
    --overwrite], and not made anew. *)
Theorem setup_deletes_named_file symlink w w' :
  node_exists (lookup_entry (parameter_file args) (wd w)) = true ->
  parameter_file args <> "parameters.yaml" ->
  parameter_file args <> "source_code" ->
  setup E args symlink true w = (Returns tt, w') ->
  lookup_entry (parameter_file args) (wd w') = None
  /\ file_content "parameters.yaml" (wd w') = Some (template E).
Proof.
  intros Hex Hn1 Hn2 H. split; [|by eapply setup_template].
  revert H. unfold setup. cbv zeta.
  unfold bind at 1. rewrite entry_exists_eq, Hex. simpl.
  erewrite bind_returns by reflexivity.
  erewrite bind_returns by reflexivity.
  destruct symlink; simpl.
  2:{ intros [= <-]. simpl. rewrite lookup_set_ne by done.
      apply lookup_remove_eq. }
  unfold bind at 1. unfold path_exists at 1, bind at 1, get at 1.
  cbv [ret]. destruct (on_disk args _ _); simpl.
  { intros [= <-]. simpl. rewrite lookup_set_ne by done.
    apply lookup_remove_eq. }
  intros H.
  apply bind_inv in H as [([] & w4 & H4 & H)|(e & _ & [=])].
  assert (Hloop : forall l w5 w6,
            for_each l (fun package =>
              log (Ln (path_join (path_join (ROOT_DIR E) "..") package)
                      (path_join (workdir args) "source_code"))) w5
            = (Returns tt, w6) -> wd w6 = wd w5).
  { induction l as [|p l IH]; intros w5 w6; simpl.
    - by intros [= <-].
    - unfold bind, log, modify. simpl. intros H6. by apply IH in H6. }
  apply Hloop in H. rewrite H.
  revert H4. unfold unix_mkdir, bind, get, modify. simpl.
  destruct (lookup_entry "source_code" _); intros [= <-]; simpl.
  - rewrite lookup_set_ne by done. apply lookup_remove_eq.
  - rewrite lookup_set_ne by done. rewrite lookup_set_ne by done.
    apply lookup_remove_eq.
Qed.

End setting_up.

Lemma configure_guard_unreachable_witness :
  configure Sample.E Sample.legacy_args Sample.legacy
  = (Raises
       (if node_exists (lookup_entry (parameter_file Sample.legacy_args)
                          (wd Sample.legacy))
        then AttributeError "'str' object has no attribute 'endwith'"
        else SystemExit
               (PStr (newline +:+ tab +:+
                      "SeisFlows parameter file not found: " +:+
                      parameter_file Sample.legacy_args +:+ newline))),
     Sample.legacy).
Proof.
  apply (configure_guard_unreachable Sample.E Sample.legacy_args
           Sample.legacy).
  reflexivity.
Defined.

Lemma configure_appends_witness :
  exists w',
    configure Documented.E Sample.args Sample.ready = (Returns tt, w')
    /\ file_content (parameter_file Sample.args) (wd w')
       = Some (Sample.document
               +:+ snd (write_template Documented.E Sample.args ""))
    /\ lookup_entry ("." +:+ parameter_file Sample.args) (wd w') = None
    /\ (forall name, name <> parameter_file Sample.args ->
                     name <> "." +:+ parameter_file Sample.args ->
                     lookup_entry name (wd w')
                     = lookup_entry name (wd Sample.ready)).
Proof.
  apply (configure_appends Documented.E Sample.args Sample.ready
           (snd (configure_prepare Documented.E Sample.args Sample.ready))).
  - vm_compute. reflexivity.
  - reflexivity.
  - vm_compute. reflexivity.
Defined.


Lemma setup_leaves_template_witness :
  file_content "parameters.yaml"
    (wd (snd (setup Sample.E Sample.args true false Sample.declined)))
  = Some (template Sample.E).
Proof.
  apply (setup_leaves_template Sample.E Sample.args true false
           Sample.declined).
  vm_compute. reflexivity.
Defined.

Lemma setup_deletes_named_file_witness :
  lookup_entry (parameter_file Sample.renamed_args)
    (wd (snd (setup Sample.E Sample.renamed_args false true Sample.renamed)))
  = None
  /\ file_content "parameters.yaml"
       (wd (snd (setup Sample.E Sample.renamed_args false true
                   Sample.renamed)))
     = Some (template Sample.E).
Proof.
  apply (setup_deletes_named_file Sample.E Sample.renamed_args false
           Sample.renamed).
  - reflexivity.
  - discriminate.
  - discriminate.
  - vm_compute. reflexivity.
Defined.

(** ** Cleaning, restarting and submitting, once more *)

Lemma sweep_gone wdir ps d d' n :
  sweep wdir ps d = (Returns tt, d') ->
  (exists p, p ∈ ps /\ fnmatch p n = true) ->
  n ∉ map fst d'.
Proof.
  revert d. induction ps as [|p ps IH]; intros d H (q & Hq & Hm).
  { by apply elem_of_nil in Hq. }
  simpl in H.
  destruct (sweep_names wdir (filter (fnmatch p) (map fst d)) d)
    as [[[]|e] d1] eqn:Hs; [|done].
  destruct (sweep_again wdir ps d1 _ _ H) as [Hthin _].
  apply elem_of_cons in Hq as [->|Hq].
  - intros Hin. apply (thinned_names _ _ _ Hthin) in Hin as Hin1.
    pose proof (sweep_names_thinned wdir _ _ _ _ Hs) as Hthin1.
    apply (thinned_names _ _ _ Hthin1) in Hin1 as Hin0.
    apply (sweep_names_gone wdir _ _ _ n Hs); [|done].
    apply list_elem_of_filter. split; [by rewrite Hm | done].
  - apply (IH d1 H). by exists q.
Qed.

Lemma not_in_names_lookup n (d : dir) :
  n ∉ map fst d -> lookup_entry n d = None.
Proof.
  induction d as [|[k x] d IH]; [done|]. simpl.
  intros Hn. apply not_elem_of_cons in Hn as [Hk Hn].
  destruct (String.eqb k n) eqn:Hkn.
  - apply String.eqb_eq in Hkn. by subst.
  - by apply IH.
Qed.

Section more_commands.
Variable E : Env.
Variable args : Args.

(** X16.  In a working directory whose own path holds no pattern
    character of [glob] (no [*], [?] or [[]), after a run of [clean] that
    the operator agreed to and that ended without error, nothing that its
    patterns match is left: no entry called [logs], [stats] or [scratch],
    and none whose name starts with [output]. *)
Theorem clean_leaves_no_artifact force w w' name :
  has_magic (workdir args) = false ->
  confirmed force w ->
  clean args force w = (Returns tt, w') ->
  is_artifact name = true ->
  lookup_entry name (wd w') = None.
Proof.
  intros _ Hc H Ha. apply (clean_result args force w _ _ Hc) in H.
  apply not_in_names_lookup.
  apply (sweep_gone _ _ _ _ _ H).
  unfold is_artifact in Ha. apply existsb_exists in Ha as (p & Hp & Hm).
  exists p. split; [by apply list_elem_of_In | done].
Qed.

(** What [clean] does when the operator does not agree. *)
Lemma clean_declined answer rest w :
  stdin w = answer :: rest ->
  answer <> "y" ->
  clean args false w
  = (Returns tt,
     World (wd w) (extern w) rest (trace w ++ [Prompt clean_prompt])
           (sys_parameters w) (sys_paths w) (self_paths w)
           (self_parameters w)).
Proof.
  intros Hin Hans. unfold clean. simpl. unfold bind, input. rewrite Hin.
  apply String.eqb_neq in Hans. by rewrite Hans.
Qed.

(** X17.  Declining the cleaning does not stop [restart]: the workflow is
    submitted on the directory as it is. *)
Theorem restart_declined_still_submits answer rest w :
  stdin w = answer :: rest ->
  answer <> "y" ->
  exists w1,
    clean args false w = (Returns tt, w1)
    /\ wd w1 = wd w
    /\ stdin w1 = rest
    /\ restart E args false w = submit E args None false w1.
Proof.
  intros Hin Hans. pose proof (clean_declined answer rest w Hin Hans) as Hc.
  eexists. split; [exact Hc|].
  split; [done|]. split; [done|].
  unfold restart. by erewrite bind_returns by exact Hc.
Qed.

(** X18.  A parameter file without a [RESUME_FROM] line cannot be
    submitted.  On a parameter file of ASCII text in which the test of
    [par] picks no line for [RESUME_FROM], [submit] exits at its first
    step with the message that [RESUME_FROM] is not found; the state is as
    it was: nothing is written, registered or launched. *)
Theorem submit_needs_resume_from_line stop_after force text w :
  file_content (parameter_file args) (wd w) = Some text ->
  isascii text = true ->
  find_entry "RESUME_FROM" (readlines text) = None ->
  submit E args stop_after force w
  = (Raises (SystemExit
               (PStr (newline +:+ tab +:+
                      "'RESUME_FROM' not found in parameter file"
                      +:+ newline))), w).
Proof.
  intros Hf _ Hn. unfold submit, submit_register.
  unfold bind at 1. unfold bind at 1. unfold bind at 1.
  rewrite (par_reads args "resume_from" (Some "") true text w Hf).
  change (upper "resume_from") with "RESUME_FROM".
  rewrite par_loop_eq, Hn. reflexivity.
Qed.

(** X19.  A workflow is handed off only when every required path that is
    given is on disk.  Whenever [submit], on a parameter file of ASCII text,
    gets as far as the call [system.submit], the steps before the check of
    the paths had succeeded, every required path that is registered with a
    value that is not empty was on disk then, and the run went on with
    [unix.mkdir], [unix.cd], [init_seisflows] and the call itself, in that
    order, on the parameters as registered. *)
Theorem submit_launches_with_paths stop_after force text w w' :
  file_content (parameter_file args) (wd w) = Some text ->
  isascii text = true ->
  submit E args stop_after force w = (Returns tt, w') ->
  exists w1 paths p,
    submit_register E args stop_after force w = (Returns tt, w1)
    /\ self_paths w1 = Some paths
    /\ sys_parameters w1 = Some p
    /\ (forall key path,
          key ∈ REQ_PATHS -> paths !! key = Some (Some path) ->
          path <> "" -> on_disk args w1 path = true)
    /\ trace w'
       = trace w1 ++ [Mkdir (workdir args); Chdir (workdir args);
                      InitSeisflows; SystemSubmit p].
Proof.
  unfold submit. intros _ _ H.
  apply bind_inv in H as [([] & w1 & H1 & H)|(e & _ & [=])].
  apply bind_inv in H as [([] & w2 & H2 & H)|(e & _ & [=])].
  destruct (self_paths w1) as [paths|] eqn:Hp.
  2:{ revert H2. unfold submit_check_paths. unfold bind at 1, get.
      by rewrite Hp. }
  destruct (missing_paths args w1 paths REQ_PATHS) as [|m ms] eqn:Hm.
  2:{ by rewrite (submit_check_paths_missing args w1 paths m ms Hp Hm)
        in H2. }
  assert (w2 = w1) as ->.
  { revert H2. unfold submit_check_paths. unfold bind at 1, get.
    rewrite Hp. erewrite bind_returns by apply paths_dont_exist_eq.
    rewrite Hm. by intros [= <-]. }
  revert H. unfold submit_launch, init_seisflows, system_submit, log, modify,
    bind, get. simpl.
  destruct (sys_parameters w1) as [p|] eqn:Hsp; [|done].
  intros [= <-]. exists w1, paths, p. simpl.
  repeat split; try done.
  - intros key path Hk Hpath Hne.
    destruct (on_disk args w1 path) eqn:Hd; [done|].
    assert (path ∈ missing_paths args w1 paths REQ_PATHS) as Hin.
    { apply missing_paths_spec. by exists key. }
    rewrite Hm in Hin. by apply elem_of_nil in Hin.
  - by rewrite <- !app_assoc.
Qed.

End more_commands.

Lemma clean_leaves_no_artifact_witness :
  lookup_entry "output_log.txt"
    (wd (snd (clean Sample.args true Sample.after_run))) = None.
Proof.
  apply (clean_leaves_no_artifact Sample.args true Sample.after_run).
  - vm_compute. reflexivity.
  - by left.
  - vm_compute. reflexivity.
  - vm_compute. reflexivity.
Defined.

Lemma restart_declined_still_submits_witness :
  exists w1,
    clean Sample.args false Sample.declined = (Returns tt, w1)
    /\ wd w1 = wd Sample.declined
    /\ stdin w1 = []
    /\ restart Sample.E Sample.args false Sample.declined
       = submit Sample.E Sample.args None false w1.
Proof.
  apply (restart_declined_still_submits Sample.E Sample.args "n" []
           Sample.declined).
  - reflexivity.
  - discriminate.
Defined.

Lemma submit_needs_resume_from_line_witness :
  submit Sample.E Sample.args None true
    (boot [("parameters.yaml", Plain (Regular ("TITLE: run" +:+ newline)))]
          ∅ [] [])
  = (Raises (SystemExit
               (PStr (newline +:+ tab +:+
                      "'RESUME_FROM' not found in parameter file"
                      +:+ newline))),
     boot [("parameters.yaml", Plain (Regular ("TITLE: run" +:+ newline)))]
          ∅ [] []).
Proof.
  apply (submit_needs_resume_from_line Sample.E Sample.args None true
           ("TITLE: run" +:+ newline)).
  - reflexivity.
  - vm_compute. reflexivity.
  - vm_compute. reflexivity.
Defined.

Lemma submit_launches_with_paths_witness :
  exists w1 paths p,
    submit_register Sample.E Sample.args None true Sample.ready
    = (Returns tt, w1)
    /\ self_paths w1 = Some paths
    /\ sys_parameters w1 = Some p
    /\ (forall key path,
          key ∈ REQ_PATHS -> paths !! key = Some (Some path) ->
          path <> "" -> on_disk Sample.args w1 path = true)
    /\ trace (snd (submit Sample.E Sample.args None true Sample.ready))
       = trace w1 ++ [Mkdir (workdir Sample.args);
                      Chdir (workdir Sample.args);
                      InitSeisflows; SystemSubmit p].
Proof.
  apply (submit_launches_with_paths Sample.E Sample.args None true
           Sample.document Sample.ready).
  - reflexivity.
  - vm_compute. reflexivity.
  - vm_compute. reflexivity.
Defined.

(* ===================================================================== *)
(** * Commands on a live environment *)
(* ===================================================================== *)

Section environment.
Import Environment.

Variable E : Env.
Variable args : Args.
Variable command : option string.
Variable cli_args : list string.
Variable cli_dont_open : bool.
Variable loadobj : string -> string -> M world unit.
Variable module_check : string -> M world unit.
Variable line_search_reset : M world (pyval * pyval).
Variable checkpoint : M world unit.
Variable save_model : string -> string -> M world unit.
Variable abspath : string -> string.
Variable subprocess_call : string -> string -> M world unit.
Variable environ_EDITOR : option string.

Lemma for_each_app {S A} (l1 l2 : list A) (body : A -> M S unit) s s1 :
  for_each l1 body s = (Returns tt, s1) ->
  for_each (l1 ++ l2) body s = for_each l2 body s1.
Proof.
  revert s. induction l1 as [|x l1 IH]; intros s; simpl.
  - by intros [= <-].
  - intros H. apply bind_inv in H as [([] & s2 & H2 & H)|(e & _ & [=])].
    erewrite bind_returns by exact H2. by apply IH.
Qed.

Lemma load_modules_missing pre NAME post w w1 :
  NAMES E = pre ++ NAME :: post ->
  for_each pre (load_module args loadobj) (add_event (Chdir (workdir args)) w)
  = (Returns tt, w1) ->
  on_disk args w1 (state_file args NAME) = false ->
  _load_modules E args loadobj module_check w
  = (Raises (SystemExit
               (PStr (newline +:+ tab +:+
                      "Not a SeisFlows working directory, state file " +:+
                      "not found:" +:+ newline +:+ tab +:+
                      state_file args NAME +:+ newline))), w1).
Proof.
  intros HN Hpre Hmiss. unfold _load_modules.
  erewrite bind_returns by reflexivity.
  rewrite HN. unfold bind at 1.
  rewrite (for_each_app _ _ _ _ _ Hpre). simpl.
  unfold bind at 1. unfold load_module at 1. unfold bind at 1.
  unfold path_exists, bind at 1, get. cbv [ret]. by rewrite Hmiss.
Qed.

(** X20.  [_load_modules] stops at the first state file that is missing:
    the modules before it have been loaded, none has been checked. *)
Theorem load_modules_stops_at_missing_file pre NAME post w w1 :
  NAMES E = pre ++ NAME :: post ->
  for_each pre (load_module args loadobj) (add_event (Chdir (workdir args)) w)
  = (Returns tt, w1) ->
  on_disk args w1 (state_file args NAME) = false ->
  _load_modules E args loadobj module_check w
  = (Raises (SystemExit
               (PStr (newline +:+ tab +:+
                      "Not a SeisFlows working directory, state file " +:+
                      "not found:" +:+ newline +:+ tab +:+
                      state_file args NAME +:+ newline))), w1).
Proof. apply load_modules_missing. Qed.

(** X21.  [convert] cannot get past its first line. *)
Theorem convert_raises_TypeError name path w :
  exists msg,
    convert E args loadobj module_check save_model name path w
    = (Raises (TypeError msg), w).
Proof. eexists. reflexivity. Qed.

Lemma reset_eq choice w :
  command = Some "reset" ->
  reset E args command cli_args loadobj module_check line_search_reset
        checkpoint choice w
  = (if bool_decide (choice = Some "line_search")
     then _register E args true ;;
          _load_modules E args loadobj module_check ;;
          raise (AttributeError "'Namespace' object has no attribute 'args'")
     else raise (AttributeError
                   "'NoneType' object has no attribute 'print_help'")) w.
Proof.
  intros ->. unfold reset.
  destruct (bool_decide (choice = Some "line_search")); simpl.
  - unfold bind at 1. cbv [ret]. unfold bind.
    destruct (_register E args true w) as [[[]|e] w1]; [|done].
    destruct (_load_modules E args loadobj module_check w1)
      as [[[]|e] w2]; done.
  - reflexivity.
Qed.

(** What [edit] comes to when the search is reached. *)
Lemma edit_search_raises REPO_DIR name module editor packages w :
  exists e w',
    edit_search args command cli_dont_open subprocess_call REPO_DIR name
                module editor packages w = (Raises e, w').
Proof.
  induction packages as [|p ps IH]; simpl.
  - by eexists _, _.
  - unfold bind at 1, path_exists, bind at 1, get. cbv [ret].
    destruct (on_disk args w _); [|exact IH].
    unfold bind at 1, args_dont_open.
    destruct command as [c|]; [|by eexists _, _].
    destruct (String.eqb c "edit"); [|by eexists _, _].
    cbv [ret]. destruct cli_dont_open; [by eexists _, _|].
    unfold bind.
    destruct (subprocess_call editor _ w) as [[[]|e] w1]; by eexists _, _.
Qed.

(** X23.  [edit] never returns: every path through it ends in an exit or in
    an exception. *)
Theorem edit_never_returns name module editor w :
  exists e w',
    edit E args command cli_dont_open abspath subprocess_call environ_EDITOR
         name module editor w = (Raises e, w').
Proof.
  unfold edit. destruct name as [name|].
  2:{ unfold subparser_print_help.
      destruct command as [c|]; [|by eexists _, _].
      destruct (bool_decide _); by eexists _, _. }
  destruct (match editor with
            | Some e => if String.eqb e "" then environ_EDITOR else Some e
            | None => environ_EDITOR
            end) as [ed|]; [|by eexists _, _].
  cbv zeta. destruct (bool_decide (name ∈ NAMES E)); simpl.
  - unfold bind at 1. cbv [ret]. apply edit_search_raises.
  - by eexists _, _.
Qed.

Lemma edit_search_dont_open REPO_DIR name module editor packages w :
  command = Some "edit" ->
  cli_dont_open = true ->
  exists text,
    edit_search args command cli_dont_open subprocess_call REPO_DIR name
                module editor packages w
    = (Raises (SystemExit (PStr text)), w).
Proof.
  intros Hc Hd. induction packages as [|p ps IH]; simpl.
  - by eexists.
  - unfold bind at 1, path_exists, bind at 1, get. cbv [ret].
    destruct (on_disk args w _); [|exact IH].
    unfold bind, args_dont_open. rewrite Hc, Hd. simpl. by eexists.
Qed.

(** X24.  With [--dont_open], [edit] starts no editor and changes nothing:
    it exits with a message, whatever [subprocess.call] would do. *)
Theorem edit_dont_open_changes_nothing name module editor w :
  command = Some "edit" ->
  cli_dont_open = true ->
  exists text,
    edit E args command cli_dont_open abspath subprocess_call environ_EDITOR
         (Some name) module editor w
    = (Raises (SystemExit (PStr text)), w).
Proof.
  intros Hc Hd. unfold edit.
  destruct (match editor with
            | Some e => if String.eqb e "" then environ_EDITOR else Some e
            | None => environ_EDITOR
            end) as [ed|]; [|by eexists].
  cbv zeta. destruct (bool_decide (name ∈ NAMES E)); simpl.
  - unfold bind at 1. cbv [ret]. by apply edit_search_dont_open.
  - by eexists.
Qed.

(** X25.  [edit] asks for an editor even when it is told not to open one,
    and before it looks at the name. *)
Theorem edit_needs_editor name module editor w :
  environ_EDITOR = None ->
  editor = None \/ editor = Some "" ->
  edit E args command cli_dont_open abspath subprocess_call environ_EDITOR
       (Some name) module editor w
  = (Raises (SystemExit
               (PStr (newline +:+ tab +:+
                      "$EDITOR environment variable not set, set " +:+
                      "manually" +:+ newline))), w).
Proof. intros -> [-> | ->]; reflexivity. Qed.

(** X26.  [resume] in a directory without state files: the parameter file
    has been rewritten by the time it refuses to run.  On a parameter file
    of ASCII text (and an ASCII [--stop_after], if given), when the edits
    and the registration have succeeded and the state file of the first
    module is missing, [resume] exits with the message that this is not a
    working directory, having changed directory and handed nothing off; and
    with [--resume_from S], [S] being one line of ASCII text, the parameter
    file then holds [RESUME_FROM: S] as the first line that [par] picks for
    [RESUME_FROM]. *)
Theorem resume_without_checkpoint stop_after resume_from force NAME rest
    text w w1 :
  file_content (parameter_file args) (wd w) = Some text ->
  isascii text = true ->
  (forall stage, stop_after = Some stage -> isascii stage = true) ->
  NAMES E = NAME :: rest ->
  resume_register E args stop_after resume_from force w = (Returns tt, w1) ->
  on_disk args w1 (state_file args NAME) = false ->
  resume E args loadobj module_check stop_after resume_from force w
  = (Raises (SystemExit
               (PStr (newline +:+ tab +:+
                      "Not a SeisFlows working directory, state file " +:+
                      "not found:" +:+ newline +:+ tab +:+
                      state_file args NAME +:+ newline))),
     add_event (Chdir (workdir args)) w1)
  /\ (forall stage,
        resume_from = Some stage -> one_line stage = true ->
        isascii stage = true ->
        exists text' pre cp post,
          file_content (parameter_file args) (wd w1) = Some text'
          /\ find_entry "RESUME_FROM" (readlines text')
             = Some (pre, cp +:+ ": " +:+ stage +:+ newline, post)
          /\ strip cp = "RESUME_FROM").
Proof.
  intros _ _ _ HN Hreg Hmiss. clear text. split.
  - unfold resume. erewrite bind_returns by exact Hreg.
    erewrite bind_raises; [reflexivity|].
    apply (load_modules_missing [] NAME rest); [done | done |].
    exact Hmiss.
  - intros stage -> Hstage _. unfold resume_register in Hreg.
    apply bind_inv in Hreg as [([] & wa & _ & Hreg)|(e & _ & [=])].
    apply bind_inv in Hreg as [([] & wb & Hpar & Hreg)|(e & _ & [=])].
    apply register_same_dir in Hreg. unfold same_dir in Hreg.
    rewrite Hreg.
    apply par_set_inv in Hpar
      as (text & pre & line & post & cp & cv & w0 & Hf & Hfind & Hs & _ & H).
    change (upper "RESUME_FROM") with "RESUME_FROM" in Hfind.
    pose proof (find_entry_Some _ _ _ _ _ Hfind) as (Hl & Hm & Hpre).
    assert (Hk : key_ok "RESUME_FROM" = true) by reflexivity.
    destruct (par_match_new_line _ _ _ _ stage Hk Hm Hs)
      as (Hcp & _ & Hnew).
    apply store_file_content in H.
    eexists _, pre, cp, post. split; [exact H|]. split; [|done].
    rewrite (readlines_edited "RESUME_FROM" text pre line post cp cv stage)
      by done.
    by apply find_entry_first.
Qed.

(** X22.  In a process started as [seisflows reset], [reset] never gets to
    the line search: without the choice [line_search] it fails on its help
    message, with it on the arguments it expects, whatever the line search
    and the checkpoint would do. *)
Theorem reset_never_resets choice w :
  command = Some "reset" ->
  (exists e w',
     reset E args command cli_args loadobj module_check line_search_reset
           checkpoint choice w = (Raises e, w'))
  /\ (choice <> Some "line_search" ->
      reset E args command cli_args loadobj module_check line_search_reset
            checkpoint choice w
      = (Raises (AttributeError
                   "'NoneType' object has no attribute 'print_help'"), w))
  /\ (forall line_search_reset' checkpoint',
        reset E args command cli_args loadobj module_check
              line_search_reset' checkpoint' choice w
        = reset E args command cli_args loadobj module_check
                line_search_reset checkpoint choice w).
Proof.
  intros Hc. split; [|split].
  - rewrite (reset_eq _ _ Hc).
    destruct (bool_decide (choice = Some "line_search")); [|by eexists _, _].
    unfold bind.
    destruct (_register E args true w) as [[[]|e] w1]; [|by eexists _, _].
    destruct (_load_modules E args loadobj module_check w1)
      as [[[]|e] w2]; by eexists _, _.
  - intros Hn. rewrite (reset_eq _ _ Hc).
    by rewrite bool_decide_eq_false_2.
  - intros lsr cp. subst command. unfold reset.
    destruct (bool_decide (choice = Some "line_search")); simpl.
    + unfold bind at 1. unfold bind at 4. cbv [ret]. unfold bind.
      destruct (_register E args true w) as [[[]|e] w1]; [|done].
      destruct (_load_modules E args loadobj module_check w1)
        as [[[]|e] w2]; done.
    + reflexivity.
Qed.

End environment.

(** A process in which nothing outside the sources does anything. *)
Lemma load_modules_stops_at_missing_file_witness :
  Environment._load_modules Sample.E Sample.args
    (fun _ _ => ret tt) (fun _ => ret tt) Sample.ready
  = (Raises (SystemExit
               (PStr (newline +:+ tab +:+
                      "Not a SeisFlows working directory, state file " +:+
                      "not found:" +:+ newline +:+ tab +:+
                      Environment.state_file Sample.args "system"
                      +:+ newline))),
     add_event (Chdir (workdir Sample.args)) Sample.ready).
Proof.
  apply (load_modules_stops_at_missing_file Sample.E Sample.args
           (fun _ _ => ret tt) (fun _ => ret tt) [] "system" ["workflow"]).
  - reflexivity.
  - reflexivity.
  - vm_compute. reflexivity.
Defined.

Lemma edit_dont_open_changes_nothing_witness :
  exists text,
    Environment.edit Sample.E Sample.args (Some "edit") true (fun p => p)
      (fun _ _ => ret tt) (Some "vi") (Some "system") (Some "base") None
      Sample.ready
    = (Raises (SystemExit (PStr text)), Sample.ready).
Proof.
  apply (edit_dont_open_changes_nothing Sample.E Sample.args (Some "edit")
           true (fun p => p) (fun _ _ => ret tt) (Some "vi") "system"
           (Some "base") None Sample.ready); reflexivity.
Defined.

Lemma edit_needs_editor_witness :
  Environment.edit Sample.E Sample.args (Some "edit") true (fun p => p)
    (fun _ _ => ret tt) None (Some "system") (Some "base") None
    Sample.ready
  = (Raises (SystemExit
               (PStr (newline +:+ tab +:+
                      "$EDITOR environment variable not set, set " +:+
                      "manually" +:+ newline))), Sample.ready).
Proof.
  apply (edit_needs_editor Sample.E Sample.args (Some "edit") true
           (fun p => p) (fun _ _ => ret tt) None "system" (Some "base") None
           Sample.ready).
  - reflexivity.
  - by left.
Defined.

Lemma resume_without_checkpoint_witness :
  Environment.resume Sample.E Sample.args (fun _ _ => ret tt)
    (fun _ => ret tt) None (Some "line_search") true Sample.ready
  = (Raises (SystemExit
               (PStr (newline +:+ tab +:+
                      "Not a SeisFlows working directory, state file " +:+
                      "not found:" +:+ newline +:+ tab +:+
                      Environment.state_file Sample.args "system"
                      +:+ newline))),
     add_event (Chdir (workdir Sample.args))
       (snd (Environment.resume_register Sample.E Sample.args None
               (Some "line_search") true Sample.ready)))
  /\ (forall stage,
        Some "line_search" = Some stage -> one_line stage = true ->
        isascii stage = true ->
        exists text' pre cp post,
          file_content (parameter_file Sample.args)
            (wd (snd (Environment.resume_register Sample.E Sample.args None
                        (Some "line_search") true Sample.ready)))
          = Some text'
          /\ find_entry "RESUME_FROM" (readlines text')
             = Some (pre, cp +:+ ": " +:+ stage +:+ newline, post)
          /\ strip cp = "RESUME_FROM").
Proof.
  apply (resume_without_checkpoint Sample.E Sample.args (fun _ _ => ret tt)
           (fun _ => ret tt) None (Some "line_search") true
           "system" ["workflow"] Sample.document Sample.ready).
  - reflexivity.
  - vm_compute. reflexivity.
  - intros stage H. discriminate H.
  - reflexivity.
  - vm_compute. reflexivity.
  - vm_compute. reflexivity.
Defined.

Lemma reset_never_resets_witness :
  (exists e w',
     Environment.reset Sample.E Sample.args (Some "reset") []
       (fun _ _ => ret tt) (fun _ => ret tt) (ret (PInt 3, PInt 0))
       (ret tt) None Sample.ready = (Raises e, w'))
  /\ (None <> Some "line_search" ->
      Environment.reset Sample.E Sample.args (Some "reset") []
        (fun _ _ => ret tt) (fun _ => ret tt) (ret (PInt 3, PInt 0))
        (ret tt) None Sample.ready
      = (Raises (AttributeError
                   "'NoneType' object has no attribute 'print_help'"),
         Sample.ready))
  /\ (forall line_search_reset' checkpoint',
        Environment.reset Sample.E Sample.args (Some "reset") []
          (fun _ _ => ret tt) (fun _ => ret tt) line_search_reset'
          checkpoint' None Sample.ready
        = Environment.reset Sample.E Sample.args (Some "reset") []
            (fun _ _ => ret tt) (fun _ => ret tt) (ret (PInt 3, PInt 0))
            (ret tt) None Sample.ready).
Proof.
  apply (reset_never_resets Sample.E Sample.args (Some "reset") []
           (fun _ _ => ret tt) (fun _ => ret tt) (ret (PInt 3, PInt 0))
           (ret tt) None Sample.ready).
  reflexivity.
Defined.

(* ===================================================================== *)
(** * Generating the mesh *)
(* ===================================================================== *)

Lemma bindX_done {S A B} (c : Mx S A) (k : A -> Mx S B) s a s' :
  c s = (Done a, s') -> bindX c k s = k a s'.
Proof. unfold bindX. by intros ->. Qed.

Lemma bindX_failed {S A B} (c : Mx S A) (k : A -> Mx S B) s e s' :
  c s = (Failed e, s') -> bindX c k s = (Failed e, s').
Proof. unfold bindX. by intros ->. Qed.

Lemma liftX_returns {S A} (c : M S A) s a s' :
  c s = (Returns a, s') -> liftX c s = (Done a, s').
Proof. unfold liftX. by intros ->. Qed.

Lemma liftX_raises {S A} (c : M S A) s e s' :
  c s = (Raises e, s') -> liftX c s = (Failed (Std e), s').
Proof. unfold liftX. by intros ->. Qed.

Section meshing.
Import Mesher.

Variable cwd : string.
Variable taskid : Z.
Variable exists_ : string -> bool.
Variable getpar : string -> string.
Variable mpiexec : string.
Variable initialize_solver_directories : Mx state unit.
Variable check_mesh_properties : string -> Mx state unit.
Variable export_model : string -> Mx state unit.

(** X27.  For a model type that is not available, [generate_mesh] does not
    raise the [NotImplementedError] it means to raise: building the message
    fails first, on the local variable [par] that only the other branch
    assigns.  By then the solver directories have been initialised and the
    directory changed. *)
Theorem generate_mesh_unbound_par model_path model_name model_type st st1 :
  in_strs model_type ["gll"] = false ->
  initialize_solver_directories st = (Done tt, st1) ->
  exists_ model_path = true ->
  generate_mesh cwd taskid exists_ getpar mpiexec
    initialize_solver_directories check_mesh_properties export_model
    model_path model_name model_type st
  = (Failed (UnboundLocalError "par"),
     State (PATH st1) (calls st1 ++ [Cd cwd])).
Proof.
  intros Htype Hinit Hex. unfold generate_mesh. cbv zeta.
  erewrite bindX_done by exact Hinit.
  erewrite bindX_done by reflexivity.
  rewrite Hex. erewrite bindX_done by reflexivity.
  by rewrite Htype.
Qed.

End meshing.

Lemma generate_mesh_unbound_par_witness :
  Mesher.generate_mesh "/scratch/solver/001" 0 (fun _ => true)
    (fun _ => "gll") "mpiexec" (retX tt) (fun _ => retX tt)
    (fun _ => retX tt) "/models/init" "m_init" (PStr "sem")
    (Mesher.State ∅ [])
  = (Failed (UnboundLocalError "par"),
     Mesher.State ∅ ([] ++ [Mesher.Cd "/scratch/solver/001"])).
Proof.
  apply (generate_mesh_unbound_par "/scratch/solver/001" 0 (fun _ => true)
           (fun _ => "gll") "mpiexec" (retX tt) (fun _ => retX tt)
           (fun _ => retX tt) "/models/init" "m_init" (PStr "sem")
           (Mesher.State ∅ []) (Mesher.State ∅ [])).
  - reflexivity.
  - reflexivity.
  - reflexivity.
Defined.

(* ===================================================================== *)
(** * The solver's parameter file *)
(* ===================================================================== *)

Section solver_parameters.
Import SolverParameters.

Variable args : Args.
Variable command : option string.

Lemma field_width_None lines :
  Forall (fun line => contains line "=" = false) lines ->
  field_width lines = None.
Proof.
  induction 1 as [|l ls Hl _ IH]; [done|]. simpl. by rewrite Hl.
Qed.

(** What [sempar] comes to once it has read its file. *)
Lemma sempar_reads parameter value text w :
  file_content (solver_file args w) (wd w) = Some text ->
  sempar args command (Some parameter) value w
  = (if String.eqb (upper parameter) MESHER_KEYWORD then
       bindX (velocity_model (solver_file args w) value (readlines text)
                0 1 (readlines text))
             (fun _ => liftX (sys_exit (PInt 0)))
     else
       standard (solver_file args w) (upper parameter) value
                (field_width (readlines text)) (readlines text) 0
                (readlines text)) w.
Proof.
  intros Hf. unfold sempar. cbv zeta.
  erewrite bindX_done.
  2:{ apply liftX_returns. apply entry_exists_eq. }
  fold (solver_file args w).
  erewrite bindX_done.
  2:{ apply liftX_returns.
      unfold read_file, bind, get. unfold file_content in Hf.
      destruct (resolve (lookup_entry (solver_file args w) (wd w)))
        as [[c|]|]; [|done|done].
      injection Hf as ->. reflexivity. }
  reflexivity.
Qed.

Lemma lines_of_nonempty s : s <> "" -> lines_of s <> [].
Proof.
  destruct s as [|c t]; [done|]. intros _. rewrite lines_of_cons.
  destruct (Ascii.eqb c "010"); [done|]. by destruct (lines_of t).
Qed.

Lemma readlines_nonempty text : text <> "" -> readlines text <> [].
Proof.
  intros Hne. unfold readlines. apply lines_of_nonempty.
  destruct text as [|c t]; [done|]. rewrite universal_newlines_cons.
  by destruct (Ascii.eqb c "013").
Qed.

(** X28.  On a file that holds no equals sign, [sempar] fails on the field
    width it never computed. *)
Theorem sempar_without_equals_sign parameter value text w :
  upper parameter <> "VELOCITY_MODEL" ->
  file_content (solver_file args w) (wd w) = Some text ->
  text <> "" ->
  Forall (fun line => contains line "=" = false) (readlines text) ->
  sempar args command (Some parameter) value w
  = (Failed (UnboundLocalError "space"), w).
Proof.
  intros Hp Hf Hne Hall. rewrite (sempar_reads _ _ _ _ Hf).
  apply String.eqb_neq in Hp. unfold MESHER_KEYWORD. rewrite Hp.
  rewrite (field_width_None _ Hall).
  pose proof (readlines_nonempty text Hne) as Hlines.
  by destruct (readlines text) as [|line rest].
Qed.

(** The loop over the lines before the velocity model. *)
Lemma velocity_model_skips par_file value lines nb pre rest i w :
  Forall (fun l => is_model_line l = false) pre ->
  Forall (fun l => contains l "nbmodels " = true ->
                   contains (strip l) "=" || contains (strip l) "#" = true)
         pre ->
  velocity_model par_file value lines i nb (pre ++ rest) w
  = velocity_model par_file value lines (i + length pre) nb rest w.
Proof.
  revert i. induction pre as [|l pre IH]; intros i Hm Hn.
  - simpl. by rewrite Nat.add_0_r.
  - apply Forall_cons in Hm as [Hl Hm]. apply Forall_cons in Hn as [Hnl Hn].
    simpl.
    replace (i + S (length pre)) with (S i + length pre) by lia.
    destruct (contains (strip l) "=" || contains (strip l) "#") eqn:Hc.
    + by apply IH.
    + destruct (contains l "nbmodels ") eqn:Hnb.
      { by specialize (Hnl eq_refl). }
      unfold is_model_line in Hl. rewrite Hc in Hl. simpl in Hl.
      unfold MESHER_INPUT_NUM. rewrite Hl. by apply IH.
Qed.

Lemma py_slice_two {A} (pre : list A) x post :
  py_slice (pre ++ x :: post) (length pre) (Z.of_nat (length pre) + 1 + 1)
  = take 2 (x :: post).
Proof.
  unfold py_slice. rewrite length_app. simpl length.
  assert (Hlt : (Z.of_nat (length pre) + 1 + 1 <? 0)%Z = false)
    by (apply Z.ltb_ge; lia).
  rewrite Hlt, drop_app_length.
  replace (Z.to_nat
             (Z.min (Z.of_nat (length pre) + 1 + 1)
                (Z.of_nat (length pre + S (length post)))) - length pre)
    with (Nat.min 2 (S (length post))) by lia.
  destruct post as [|p post]; reflexivity.
Qed.

(** X29.  On a file of ASCII text in which every line that holds
    [nbmodels ] also holds an equals sign or a hash (as a line of the form
    [nbmodels = N] does), [sempar velocity_model] without a value prints
    the first line, as it is read, that has no equals sign, no hash and
    fifteen words, and the line after it, and exits with status 0: the
    number of models the file declares is never read, the count stays 1. *)
Theorem sempar_shows_two_lines text pre line post w :
  file_content (solver_file args w) (wd w) = Some text ->
  isascii text = true ->
  readlines text = pre ++ line :: post ->
  Forall (fun l => is_model_line l = false) pre ->
  is_model_line line = true ->
  Forall (fun l => contains l "nbmodels " = true ->
                   contains (strip l) "=" || contains (strip l) "#" = true)
         (readlines text) ->
  sempar args command (Some "velocity_model") None w
  = (Failed (Std (SystemExit (PInt 0))),
     add_event (Print (newline +:+ String.concat "" (take 2 (line :: post))))
               w).
Proof.
  intros Hf _ Hl Hpre Hline Hnb. rewrite (sempar_reads _ _ _ _ Hf).
  change (upper "velocity_model") with "VELOCITY_MODEL".
  unfold MESHER_KEYWORD. rewrite String.eqb_refl.
  rewrite Hl in *.
  apply Forall_app in Hnb as [Hnb1 Hnb2].
  apply Forall_cons in Hnb2 as [Hnbl _].
  set (shown := String.concat "" (take 2 (line :: post))).
  erewrite bindX_done; [reflexivity|].
  rewrite (velocity_model_skips _ _ _ _ _ _ _ _ Hpre Hnb1).
  rewrite Nat.add_0_l.
  unfold is_model_line in Hline.
  apply andb_true_iff in Hline as [Hc Hw]. apply negb_true_iff in Hc.
  cbn [velocity_model]. rewrite Hc.
  destruct (contains line "nbmodels ") eqn:Hn.
  { specialize (Hnbl eq_refl). by rewrite Hc in Hnbl. }
  unfold MESHER_INPUT_NUM. rewrite Hw.
  rewrite (py_slice_two pre line post).
  reflexivity.
Qed.

End solver_parameters.

Lemma sempar_without_equals_sign_witness :
  SolverParameters.sempar Sample.args (Some "sempar") (Some "nproc") None
    Sample.ready
  = (Failed (UnboundLocalError "space"), Sample.ready).
Proof.
  apply (sempar_without_equals_sign Sample.args (Some "sempar") "nproc" None
           Sample.document Sample.ready).
  - discriminate.
  - reflexivity.
  - discriminate.
  - vm_compute. repeat constructor.
Defined.

Lemma sempar_shows_two_lines_witness :
  SolverParameters.sempar Sample.args (Some "sempar")
    (Some "velocity_model") None SolverParameters.solver_directory
  = (Failed (Std (SystemExit (PInt 0))),
     add_event
       (Print (newline +:+
               String.concat ""
                 (take 2 (SolverParameters.model_1
                          :: [SolverParameters.model_2;
                              SolverParameters.model_3]))))
       SolverParameters.solver_directory).
Proof.
  apply (sempar_shows_two_lines Sample.args (Some "sempar")
           SolverParameters.par_file_text
           ["NPROC                           = 4" +:+ newline;
            "nbmodels                        = 3" +:+ newline]
           SolverParameters.model_1
           [SolverParameters.model_2; SolverParameters.model_3]
           SolverParameters.solver_directory).
  - reflexivity.
  - vm_compute. reflexivity.
  - vm_compute. reflexivity.
  - repeat constructor.
  - vm_compute. reflexivity.
  - vm_compute. repeat constructor; intros H; try discriminate H; reflexivity.
Defined.

(* ===================================================================== *)
(** * Which class defined a method *)
(* ===================================================================== *)

Section inspecting.
Import Inspect.

Lemma cls_size_eq c : cls_size c = S (total_size (cls_bases c)).
Proof.
  destruct c as [m n d bases]. simpl. f_equal. unfold total_size.
  induction bases as [|b bs IH]; [done|]. simpl. by rewrite IH.
Qed.

Lemma hierarchy_eq c : hierarchy c = c :: flat_map hierarchy (cls_bases c).
Proof.
  by destruct c as [m n d bases].
Qed.

Lemma total_size_app l1 l2 :
  total_size (l1 ++ l2) = total_size l1 + total_size l2.
Proof. unfold total_size. by rewrite map_app, list_sum_app. Qed.

Lemma pop_None classes : pop classes = None -> classes = [].
Proof.
  unfold pop. destruct (rev classes) eqn:Hr; [|done].
  intros _. apply (f_equal (@rev _)) in Hr. by rewrite rev_involutive in Hr.
Qed.

Lemma pop_Some classes others c :
  pop classes = Some (others, c) -> classes = others ++ [c].
Proof.
  unfold pop. destruct (rev classes) as [|x r] eqn:Hr; [done|].
  intros [= <- <-]. apply (f_equal (@rev _)) in Hr.
  rewrite rev_involutive in Hr. by rewrite Hr.
Qed.

Lemma elem_of_flat_map_hierarchy d (l : list cls) :
  d ∈ flat_map hierarchy l <-> exists c, c ∈ l /\ d ∈ hierarchy c.
Proof.
  rewrite list_elem_of_In, in_flat_map. split.
  - intros (c & Hc & Hd). exists c. by rewrite !list_elem_of_In.
  - intros (c & Hc & Hd). exists c. by rewrite <- !list_elem_of_In.
Qed.

(** The search finds a class of the hierarchy that defines the method, and
    finds one whenever there is one. *)
Lemma search_spec turns method_name classes :
  total_size classes <= turns ->
  match search turns method_name classes with
  | Some d =>
      d ∈ flat_map hierarchy classes /\ defines method_name d = true
  | None =>
      forall d, d ∈ flat_map hierarchy classes ->
                defines method_name d = false
  end.
Proof.
  revert classes. induction turns as [|t IH]; intros classes Hsize.
  - simpl. destruct classes as [|c cs].
    + intros d Hd. by apply elem_of_nil in Hd.
    + exfalso. unfold total_size in Hsize. simpl in Hsize.
      rewrite cls_size_eq in Hsize. lia.
  - simpl. destruct (pop classes) as [[others c]|] eqn:Hpop.
    2:{ apply pop_None in Hpop as ->. intros d Hd.
        by apply elem_of_nil in Hd. }
    apply pop_Some in Hpop as ->.
    destruct (defines method_name c) eqn:Hdef.
    + split; [|done]. apply elem_of_flat_map_hierarchy. exists c.
      split; [set_solver|]. rewrite hierarchy_eq. set_solver.
    + assert (Hs : total_size (cls_bases c ++ others) <= t).
      { rewrite total_size_app in *. unfold total_size at 2 in Hsize.
        simpl in Hsize. rewrite cls_size_eq in Hsize. lia. }
      specialize (IH _ Hs).
      destruct (search t method_name (cls_bases c ++ others)) as [d|].
      * destruct IH as [Hd Hdd]. split; [|done].
        apply elem_of_flat_map_hierarchy in Hd as (b & Hb & Hd).
        apply elem_of_flat_map_hierarchy.
        apply elem_of_app in Hb as [Hb|Hb].
        -- exists c. split; [set_solver|]. rewrite hierarchy_eq.
           apply elem_of_cons. right.
           apply elem_of_flat_map_hierarchy. by exists b.
        -- exists b. split; [set_solver | done].
      * intros d Hd.
        apply elem_of_flat_map_hierarchy in Hd as (b & Hb & Hd).
        apply elem_of_app in Hb as [Hb|Hb].
        -- apply IH. apply elem_of_flat_map_hierarchy. exists b.
           split; [set_solver | done].
        -- apply list_elem_of_singleton in Hb as ->.
           rewrite hierarchy_eq in Hd. apply elem_of_cons in Hd as [->|Hd];
             [done|].
           apply IH. apply elem_of_flat_map_hierarchy in Hd as (b & Hb & Hd).
           apply elem_of_flat_map_hierarchy. exists b.
           split; [set_solver | done].
Qed.

Lemma search_own_class turns method_name c :
  defines method_name c = true ->
  search (S turns) method_name [c] = Some c.
Proof. intros Hd. simpl. by rewrite Hd. Qed.

Variable sys_modules : string -> option (string -> option attribute).

(** X30.  For a bound method, the inspection reports a class that defines
    it, taken from the class of the object and its ancestors: the class of
    the object itself when that defines it; and it reports an error only
    when no class of the hierarchy does. *)
Theorem inspect_reports_a_definer name func module method method_name
    class w :
  sys_modules ("seisflows_" +:+ name) = Some module ->
  module func = Some method ->
  attr_name method = Some method_name ->
  attr_self method = Some (true, class) ->
  (exists c,
     c ∈ hierarchy class
     /\ defines method_name c = true
     /\ (defines method_name class = true -> c = class)
     /\ _inspect_class_that_defined_method sys_modules name func w
        = (Returns tt,
           add_event (Print (newline +:+ tab +:+ cls_module c +:+ "." +:+
                             cls_name c +:+ "." +:+ func +:+ newline)) w))
  \/ ((forall c, c ∈ hierarchy class -> defines method_name c = false)
      /\ _inspect_class_that_defined_method sys_modules name func w
         = (Raises (SystemExit
                      (PStr (newline +:+ tab +:+
                             "Error matching class for SeisFlows."
                             +:+ name +:+ "." +:+ func +:+ newline))), w)).
Proof.
  intros Hmod Hfunc Hname Hself.
  unfold _inspect_class_that_defined_method.
  rewrite Hmod, Hfunc, Hname, Hself.
  pose proof (search_spec (cls_size class) method_name [class]) as Hspec.
  assert (Hsize : total_size [class] <= cls_size class).
  { unfold total_size. simpl. lia. }
  specialize (Hspec Hsize).
  assert (Hflat : flat_map hierarchy [class] = hierarchy class).
  { simpl. by rewrite app_nil_r. }
  rewrite Hflat in Hspec.
  destruct (search (cls_size class) method_name [class]) as [c|] eqn:Hs.
  - left. exists c. destruct Hspec as [Hc Hd].
    split; [done|]. split; [done|]. split; [|done].
    intros Hown. rewrite cls_size_eq in Hs.
    rewrite (search_own_class _ _ _ Hown) in Hs. by injection Hs.
  - right. by split.
Qed.

End inspecting.

Lemma inspect_reports_a_definer_witness :
  (exists c,
     c ∈ Inspect.hierarchy Inspect.Specfem
     /\ Inspect.defines "forward" c = true
     /\ (Inspect.defines "forward" Inspect.Specfem = true
         -> c = Inspect.Specfem)
     /\ Inspect._inspect_class_that_defined_method
          (fun _ => Some (fun _ =>
             Some {| Inspect.type_name := "method";
                     Inspect.attr_name := Some "forward";
                     Inspect.attr_self := Some (true, Inspect.Specfem) |}))
          "solver" "forward" Sample.ready
        = (Returns tt,
           add_event (Print (newline +:+ tab +:+ Inspect.cls_module c +:+ "."
                             +:+ Inspect.cls_name c +:+ "." +:+ "forward"
                             +:+ newline)) Sample.ready))
  \/ ((forall c, c ∈ Inspect.hierarchy Inspect.Specfem ->
                 Inspect.defines "forward" c = false)
      /\ Inspect._inspect_class_that_defined_method
           (fun _ => Some (fun _ =>
              Some {| Inspect.type_name := "method";
                      Inspect.attr_name := Some "forward";
                      Inspect.attr_self := Some (true, Inspect.Specfem) |}))
           "solver" "forward" Sample.ready
         = (Raises (SystemExit
                      (PStr (newline +:+ tab +:+
                             "Error matching class for SeisFlows."
                             +:+ "solver" +:+ "." +:+ "forward"
                             +:+ newline))), Sample.ready)).
Proof.
  apply (inspect_reports_a_definer
           (fun _ => Some (fun _ =>
              Some {| Inspect.type_name := "method";
                      Inspect.attr_name := Some "forward";
                      Inspect.attr_self := Some (true, Inspect.Specfem) |}))
           "solver" "forward"
           (fun _ =>
              Some {| Inspect.type_name := "method";
                      Inspect.attr_name := Some "forward";
                      Inspect.attr_self := Some (true, Inspect.Specfem) |})
           {| Inspect.type_name := "method";
              Inspect.attr_name := Some "forward";
              Inspect.attr_self := Some (true, Inspect.Specfem) |}
           "forward" Inspect.Specfem Sample.ready); reflexivity.
Defined.

(** With two bases that both define the method, the search reports the one
    listed last. *)
Example inspect_prefers_the_last_base :
  Inspect.search (Inspect.cls_size Inspect.Specfem) "forward"
    [Inspect.Specfem] = Some Inspect.Mixin.
Proof. reflexivity. Qed.
